(** * gobits: the BITS upload handler (handler.go)

    A shallow embedding of [ServeHTTP], [bitsPing], [bitsCreate],
    [bitsFragment], [bitsCancel] and [bitsClose], with the file system, the
    response writer and the event hook as explicit state, followed by the
    properties of the protocol engine. *)

From Stdlib Require Import ZArith String Ascii List Decimal DecimalString DecimalN DecimalPos Lia Bool.
From Stdlib Require Import Sorting.Sorted.
From stdpp Require Import gmap strings list fin_maps.

Open Scope string_scope.
Open Scope list_scope.
Open Scope Z_scope.

(** ** Unsigned 64-bit arithmetic *)

Definition u64_mod : Z := 2 ^ 64.

(** The value a Go [uint64] expression holds after wrap-around. The
    conversions [uint64(len(data))], [uint64(wr)] and [uint64(info.Size())]
    of the handler take a length, a byte count and a file size, which are
    never negative, and keep their value. *)
Definition u64 (x : Z) : Z := x mod u64_mod.

(** ** The parts of the Go standard library the handler calls *)

Module GoStrings.

Definition is_upper (c : ascii) : bool :=
  (65 <=? nat_of_ascii c)%nat && (nat_of_ascii c <=? 90)%nat.

Definition is_lower (c : ascii) : bool :=
  (97 <=? nat_of_ascii c)%nat && (nat_of_ascii c <=? 122)%nat.

Definition lower_char (c : ascii) : ascii :=
  if is_upper c then ascii_of_nat (nat_of_ascii c + 32) else c.

Definition upper_char (c : ascii) : ascii :=
  if is_lower c then ascii_of_nat (nat_of_ascii c - 32) else c.

Definition is_byte (n : nat) (c : ascii) : bool := (nat_of_ascii c =? n)%nat.

(** [strings.ToLower]. The letters A to Z are lowered. Of the runes outside
    ASCII, two have an ASCII letter as their lower case, and are mapped as
    [unicode.ToLower] maps them: U+0130 (the bytes C4 B0) to i and U+212A
    (the bytes E2 84 AA) to k. The bytes of any other rune are kept, where
    Go writes a rune outside ASCII again (the lower case of the rune, or
    U+FFFD for bytes that are not UTF-8); the result is equal to a given
    ASCII word exactly when the result of Go is. *)
Fixpoint ToLower (s : string) : string :=
  match s with
  | EmptyString => EmptyString
  | String c s' =>
      match s' with
      | String c1 s1 =>
          if is_byte 196 c && is_byte 176 c1 then String "i"%char (ToLower s1)
          else
            match s1 with
            | String c2 s2 =>
                if is_byte 226 c && is_byte 132 c1 && is_byte 170 c2
                then String "k"%char (ToLower s2)
                else String (lower_char c) (ToLower s')
            | EmptyString => String (lower_char c) (ToLower s')
            end
      | EmptyString => String (lower_char c) EmptyString
      end
  end.

(** The strings all of whose bytes are below [utf8.RuneSelf], and the loop
    of [strings.ToLower] for them, which lowers byte by byte. *)
Definition is_ascii (c : ascii) : bool := (nat_of_ascii c <? 128)%nat.

Fixpoint all_ascii (s : string) : bool :=
  match s with
  | EmptyString => true
  | String c s' => is_ascii c && all_ascii s'
  end.

Fixpoint lower_bytes (s : string) : string :=
  match s with
  | EmptyString => EmptyString
  | String c s' => String (lower_char c) (lower_bytes s')
  end.

(** [strings.Split(s, sep)] for a one-character separator: the pieces
    between the separators, empty pieces included; never the empty list. *)
Fixpoint Split (s : string) (sep : ascii) : list string :=
  match s with
  | EmptyString => [EmptyString]
  | String c s' =>
      if Ascii.eqb c sep then EmptyString :: Split s' sep
      else match Split s' sep with
           | t :: ts => String c t :: ts
           | [] => [String c EmptyString]
           end
  end.

(** [strings.Join(elems, sep)]. *)
Fixpoint Join (elems : list string) (sep : string) : string :=
  match elems with
  | [] => EmptyString
  | [e] => e
  | e :: rest => e +:+ sep +:+ Join rest sep
  end.

(** [strings.HasPrefix] and the remainder after the prefix. *)
Fixpoint strip_prefix (p s : string) : option string :=
  match p, s with
  | EmptyString, _ => Some s
  | String a p', String b s' =>
      if Ascii.eqb a b then strip_prefix p' s' else None
  | String _ _, EmptyString => None
  end.

(** White space in the sense of [unicode.IsSpace], on ASCII. *)
Definition is_space (c : ascii) : bool :=
  let n := nat_of_ascii c in
  (n =? 32)%nat || ((9 <=? n)%nat && (n <=? 13)%nat).

Fixpoint fields_go (cur : option string) (s : string) : list string :=
  match s with
  | EmptyString => match cur with Some t => [t] | None => [] end
  | String c s' =>
      if is_space c
      then match cur with Some t => t :: fields_go None s' | None => fields_go None s' end
      else fields_go (Some (match cur with Some t => t +:+ String c EmptyString
                                        | None => String c EmptyString end)) s'
  end.

(** [strings.Fields]: the maximal runs of non-white-space characters. *)
Definition Fields (s : string) : list string := fields_go None s.

End GoStrings.

Module Strconv.

(** [strconv.ParseUint(s, 10, 64)]: digits only, at least one, value below
    2^64; [None] stands for the returned error. *)
Definition ParseUint (s : string) : option Z :=
  match NilZero.uint_of_string s with
  | Some d =>
      let n := Z.of_N (N.of_uint d) in
      if n <? u64_mod then Some n else None
  | None => None
  end.

(** [strconv.FormatUint(x, 10)]. *)
Definition FormatUint (x : Z) : string :=
  NilZero.string_of_uint (N.to_uint (Z.to_N x)).

Definition hex_digit (n : Z) : ascii :=
  if n <? 10 then ascii_of_nat (Z.to_nat (48 + n))
  else ascii_of_nat (Z.to_nat (87 + n)).

Fixpoint hex_digits (k : nat) (n : Z) (acc : string) : string :=
  match k with
  | O => acc
  | S k' => hex_digits k' (n / 16) (String (hex_digit (n mod 16)) acc)
  end.

(** The [0x%08x] rendering of a 32-bit code. *)
Definition hex8 (n : Z) : string :=
  "0x" +:+ hex_digits 8 (n mod 2 ^ 32) EmptyString.

End Strconv.

Module GoPath.

Definition slash : ascii := "/"%char.

Definition IsAbs (p : string) : bool :=
  match p with
  | String c _ => Ascii.eqb c slash
  | EmptyString => false
  end.

(** One element of the path against the elements kept so far (innermost
    first), as [path.Clean] processes it. *)
Definition clean_step (rooted : bool) (kept : list string) (c : string) : list string :=
  if String.eqb c EmptyString || String.eqb c "." then kept
  else if String.eqb c ".." then
    match kept with
    | top :: rest => if String.eqb top ".." then c :: kept else rest
    | [] => if rooted then [] else [c]
    end
  else c :: kept.

(** [path.Clean]. *)
Definition Clean (p : string) : string :=
  let rooted := IsAbs p in
  let kept := fold_left (clean_step rooted) (GoStrings.Split p slash) [] in
  let body := GoStrings.Join (rev kept) "/" in
  let out := if rooted then "/" +:+ body else body in
  if String.eqb out EmptyString then "." else out.

(** [path.Join] (and [filepath.Join] on a slash-separated system). *)
Definition Join (elems : list string) : string :=
  match filter (fun e => negb (String.eqb e EmptyString)) elems with
  | [] => EmptyString
  | es => Clean (GoStrings.Join es "/")
  end.

(** [path.Split]: the directory up to and including the last slash, and
    the file name after it. *)
Fixpoint Split (p : string) : string * string :=
  match p with
  | EmptyString => (EmptyString, EmptyString)
  | String c p' =>
      let '(d, f) := Split p' in
      if Ascii.eqb c slash then (String c d, f)
      else if String.eqb d EmptyString then (EmptyString, String c f)
      else (String c d, f)
  end.

(** [filepath.Abs], given the result of [os.Getwd] ([None]: it failed). *)
Definition Abs (getwd : option string) (p : string) : option string :=
  if IsAbs p then Some (Clean p)
  else match getwd with
       | Some wd => Some (Join [wd; p])
       | None => None
       end.

End GoPath.

Module Textproto.

(** The bytes allowed in a header field name (RFC 7230 token). *)
Definition is_token_char (c : ascii) : bool :=
  let n := nat_of_ascii c in
  GoStrings.is_upper c || GoStrings.is_lower c
  || ((48 <=? n)%nat && (n <=? 57)%nat)
  || existsb (Ascii.eqb c)
       ["!"; "#"; "$"; "%"; "&"; "'"; "*"; "+"; "-"; "."; "^"; "_"; "`"; "|"; "~"]%char.

Fixpoint all_token (s : string) : bool :=
  match s with
  | EmptyString => true
  | String c s' => is_token_char c && all_token s'
  end.

Fixpoint canon_go (upper : bool) (s : string) : string :=
  match s with
  | EmptyString => EmptyString
  | String c s' =>
      let c' := if upper then GoStrings.upper_char c else GoStrings.lower_char c in
      String c' (canon_go (Ascii.eqb c "-"%char) s')
  end.

(** [textproto.CanonicalMIMEHeaderKey]: the first letter and every letter
    after a hyphen in upper case, the rest in lower case; a key that is
    not a token is left as it is. *)
Definition CanonicalMIMEHeaderKey (k : string) : string :=
  if all_token k then canon_go true k else k.

End Textproto.

(** ** Data model *)

Abbreviation bytes := (list Byte.byte).

(** [net/http] status codes. *)
Definition StatusOK : Z := 200.
Definition StatusBadRequest : Z := 400.
Definition StatusForbidden : Z := 403.
Definition StatusMethodNotAllowed : Z := 405.
Definition StatusRequestEntityTooLarge : Z := 413.
Definition StatusRequestedRangeNotSatisfiable : Z := 416.
Definition StatusInternalServerError : Z := 500.

(** The events handed to the callback (the source spells the second one
    [EventRecieveFile]). *)
Inductive Event : Type :=
| EventCreateSession
| EventRecieveFile
| EventCancelSession
| EventCloseSession.

(** Modelled from the spec: the constant [ErrorContextRemoteFile] is declared
    outside handler.go; the error context the core uses is 0x00000005, the
    remote file context. *)
Definition ErrorContextRemoteFile : Z := 5.

(** [b.cfg]: the configuration of the handler. *)
Record Config : Type := {
  TempDir : string;
  Protocol : string;
  AllowedMethod : string;
  MaxSize : Z;
  Allowed : list string;
  Disallowed : list string
}.

(** The handler: its configuration, and whether a callback is installed
    ([b.callback != nil]); a call of the callback is recorded in the trace
    of the world. *)
Record Handler : Type := {
  cfg : Config;
  callback : bool
}.

(** A header map: the values in the order they were added, under
    canonical keys. *)
Definition HeaderMap : Type := list (string * string).

Definition same_key (k : string) (kv : string * string) : bool :=
  String.eqb (Textproto.CanonicalMIMEHeaderKey (fst kv)) (Textproto.CanonicalMIMEHeaderKey k).

(** The first value stored under the key, if any. *)
Definition Header_lookup (h : HeaderMap) (k : string) : option string :=
  match List.find (same_key k) h with
  | Some kv => Some (snd kv)
  | None => None
  end.

(** [Header.Get]: the first value stored under the key, or the empty string. *)
Definition Header_Get (h : HeaderMap) (k : string) : string :=
  match Header_lookup h k with
  | Some v => v
  | None => EmptyString
  end.

(** [Header.Add]: appends the value under the canonical key. *)
Definition Header_Add (h : HeaderMap) (k v : string) : HeaderMap :=
  h ++ [(Textproto.CanonicalMIMEHeaderKey k, v)].

(** [Header.Del] and [Header.Set]. *)
Definition Header_Del (h : HeaderMap) (k : string) : HeaderMap :=
  List.filter (fun kv => negb (same_key k kv)) h.

Definition Header_Set (h : HeaderMap) (k v : string) : HeaderMap :=
  Header_Add (Header_Del h k) k v.

(** The request as the handler reads it; [Body] is [None] when reading the
    body fails. *)
Record Request : Type := {
  Method : string;
  RequestURI : string;
  Header : HeaderMap;
  Body : option bytes
}.

(** The state of the [http.ResponseWriter]: the header map, the status once
    the header has been written, and the body written so far. *)
Record ResponseWriter : Type := {
  rw_header : HeaderMap;
  rw_status : option Z;
  rw_body : bytes
}.

Definition fresh_writer : ResponseWriter :=
  {| rw_header := []; rw_status := None; rw_body := [] |}.

(** An entry of the file system. *)
Inductive Node : Type :=
| Dir
| File (content : bytes).

(** What a request does that can be observed from outside, in order. *)
Inductive Action : Type :=
| ASend (status : Z)
| AWrite (path : string) (data : bytes)
| AClose (path : string)
| ACallback (e : Event) (id path : string).

(** The world outside the handler: the file system, as a map from paths to
    entries, and the trace of the actions performed so far. *)
Record World : Type := {
  fs : gmap string Node;
  trace : list Action
}.

(** What the environment decides during one request: the regular expression
    engine ([None]: the pattern does not compile), the session id the random
    source yields, the working directory, and the failures of the operating
    system calls. *)
Record Env : Type := {
  regexp_MatchString : string -> string -> option bool;
  uuid_source : option string;
  getwd : option string;
  mkdir_fails : bool;
  stat_fails : string -> bool;
  open_fails : bool;
  fstat_fails : bool;
  write_cap : option nat
}.

(** An open file: its path and whether it was opened with [O_APPEND]. *)
Record OsFile : Type := {
  f_path : string;
  f_append : bool
}.

(** ** The monad of a handler body: state, early [return], and run-time panic *)

Record St : Type := {
  rw : ResponseWriter;
  world : World
}.

Inductive Outcome (A : Type) : Type :=
| Next (a : A)
| Returned
| Panicked.
Arguments Next {A} a.
Arguments Returned {A}.
Arguments Panicked {A}.

Definition M (A : Type) : Type := St -> Outcome A * St.

Definition ret {A} (a : A) : M A := fun st => (Next a, st).

Definition bind {A B} (m : M A) (k : A -> M B) : M B :=
  fun st =>
    match m st with
    | (Next a, st') => k a st'
    | (Returned, st') => (Returned, st')
    | (Panicked, st') => (Panicked, st')
    end.

Notation "x <- c ;; k" := (bind c (fun x => k))
  (at level 100, c at next level, right associativity).
Notation "c ;; k" := (bind c (fun _ => k))
  (at level 100, right associativity).

(** The statement [return]. *)
Definition Return_ {A} : M A := fun st => (Returned, st).

(** A run-time panic (an index out of range). *)
Definition Panic_ {A} : M A := fun st => (Panicked, st).

(** [if c { m }]. *)
Definition when (c : bool) (m : M unit) : M unit := if c then m else ret tt.

(** [defer d; body]: [d] runs when the function leaves, however it leaves. *)
Definition defer {A} (d : M unit) (body : M A) : M A :=
  fun st => let '(o, st') := body st in (o, snd (d st')).

Definition modify_rw (f : ResponseWriter -> ResponseWriter) : M unit :=
  fun st => (Next tt, {| rw := f (rw st); world := world st |}).

Definition modify_world (f : World -> World) : M unit :=
  fun st => (Next tt, {| rw := rw st; world := f (world st) |}).

Definition get_world : M World := fun st => (Next (world st), st).

Definition get_rw : M ResponseWriter := fun st => (Next (rw st), st).

Definition log (a : Action) : M unit :=
  modify_world (fun w => {| fs := fs w; trace := trace w ++ [a] |}).

Definition set_fs (m : gmap string Node) : M unit :=
  modify_world (fun w => {| fs := m; trace := trace w |}).

(** ** The response writer *)

(** [w.Header().Add(k, v)]. *)
Definition w_Header_Add (k v : string) : M unit :=
  modify_rw (fun w => {| rw_header := Header_Add (rw_header w) k v;
                         rw_status := rw_status w; rw_body := rw_body w |}).

(** [w.WriteHeader(code)]: the first call fixes the status and sends the
    header; later calls do nothing. *)
Definition w_WriteHeader (code : Z) : M unit :=
  w <- get_rw ;;
  match rw_status w with
  | Some _ => ret tt
  | None =>
      modify_rw (fun w => {| rw_header := rw_header w; rw_status := Some code;
                             rw_body := rw_body w |}) ;;
      log (ASend code)
  end.

(** [w.Write(p)]: writes the header with status 200 if it has not been
    written, then the bytes. *)
Definition w_Write (p : bytes) : M unit :=
  w_WriteHeader StatusOK ;;
  modify_rw (fun w => {| rw_header := rw_header w; rw_status := rw_status w;
                         rw_body := rw_body w ++ p |}).

(** [http.Error(w, msg, code)]: a plain-text reply whose body is the message
    and a newline. *)
Definition http_Error (msg : string) (code : Z) : M unit :=
  modify_rw (fun w =>
    {| rw_header :=
         Header_Set
           (Header_Set (Header_Del (rw_header w) "Content-Length")
              "Content-Type" "text/plain; charset=utf-8")
           "X-Content-Type-Options" "nosniff";
       rw_status := rw_status w; rw_body := rw_body w |}) ;;
  w_WriteHeader code ;;
  w_Write (list_byte_of_string msg ++ [Byte.x0a]).

(** Modelled from the spec: [bitsError] is defined outside handler.go. An
    error reply has an empty body and the headers BITS-Packet-Type: Ack,
    BITS-Session-Id: the id or empty, BITS-Error-Code and BITS-Error-Context
    as 8-hex-digit codes; the HTTP status is the one of the error kind. *)
Definition bitsError (uuid : string) (status code context : Z) : M unit :=
  w_Header_Add "BITS-Packet-Type" "Ack" ;;
  w_Header_Add "BITS-Session-Id" uuid ;;
  w_Header_Add "BITS-Error-Code" (Strconv.hex8 code) ;;
  w_Header_Add "BITS-Error-Context" (Strconv.hex8 context) ;;
  w_WriteHeader status ;;
  w_Write [].

(** ** The file system *)

(** Modelled from the spec: [exists] is defined outside handler.go. It
    reports whether the path is present on the file system; its second
    result is the error of the underlying stat, which the callers check. *)
Definition exists_ (env : Env) (p : string) : M (bool * bool) :=
  w <- get_world ;;
  ret (match fs w !! p with Some _ => true | None => false end, stat_fails env p).

(** [os.MkdirAll(p, 0755)]; the result tells whether it failed. A directory
    that is already there is left alone, a regular file in its place is an
    error. *)
Definition os_MkdirAll (env : Env) (p : string) : M bool :=
  w <- get_world ;;
  match fs w !! p with
  | Some Dir => ret false
  | Some (File _) => ret true
  | None =>
      if mkdir_fails env then ret true
      else set_fs (<[p := Dir]> (fs w)) ;; ret false
  end.

(** [os.OpenFile(p, os.O_CREATE|os.O_WRONLY, 0755)]: creates the file when
    it is missing; [None] stands for the error. *)
Definition os_OpenFile_create (env : Env) (p : string) : M (option OsFile) :=
  w <- get_world ;;
  match fs w !! p with
  | Some Dir => ret None
  | Some (File _) =>
      if open_fails env then ret None
      else ret (Some {| f_path := p; f_append := false |})
  | None =>
      if open_fails env then ret None
      else set_fs (<[p := File []]> (fs w)) ;;
           ret (Some {| f_path := p; f_append := false |})
  end.

(** [os.OpenFile(p, os.O_APPEND|os.O_WRONLY, 0755)]. *)
Definition os_OpenFile_append (env : Env) (p : string) : M (option OsFile) :=
  w <- get_world ;;
  match fs w !! p with
  | Some (File _) =>
      if open_fails env then ret None
      else ret (Some {| f_path := p; f_append := true |})
  | _ => ret None
  end.

(** The bytes of the regular file at a path (none for anything else). *)
Definition content_at (m : gmap string Node) (p : string) : bytes :=
  match m !! p with
  | Some (File c) => c
  | _ => []
  end.

(** The size on disk of the file at a path. *)
Definition size_at (m : gmap string Node) (p : string) : Z :=
  Z.of_nat (length (content_at m p)).

(** [file.Stat()] followed by [info.Size()]: the size on disk; [None] stands
    for the error. *)
Definition file_Stat (env : Env) (f : OsFile) : M (option Z) :=
  w <- get_world ;;
  if fstat_fails env then ret None
  else ret (Some (size_at (fs w) (f_path f))).

(** The bytes that reach the disk when [p] is written. *)
Definition accepted_bytes (env : Env) (p : bytes) : bytes :=
  match write_cap env with
  | Some k => take k p
  | None => p
  end.

(** [file.Write(p)], the first write on the file: the number of bytes
    written and whether an error is returned (it is whenever fewer bytes
    than [len(p)] were written). With [O_APPEND] the bytes go to the end of
    the file, otherwise to its start. *)
Definition file_Write (env : Env) (f : OsFile) (p : bytes) : M (Z * bool) :=
  w <- get_world ;;
  let q := accepted_bytes env p in
  let old := content_at (fs w) (f_path f) in
  let new := if f_append f then old ++ q else q ++ drop (length q) old in
  set_fs (<[f_path f := File new]> (fs w)) ;;
  log (AWrite (f_path f) p) ;;
  ret (Z.of_nat (length q), (length q <? length p)%nat).

(** [file.Close()]. *)
Definition file_Close (f : OsFile) : M unit := log (AClose (f_path f)).

(** [if b.callback != nil { b.callback(e, id, path) }]. *)
Definition emit (b : Handler) (e : Event) (id path : string) : M unit :=
  when (callback b) (log (ACallback e id path)).

(** The slice expression [data[off:]]: a panic when the offset is beyond
    the length. *)
Definition slice_from (data : bytes) (off : Z) : option bytes :=
  if off <=? Z.of_nat (length data) then Some (drop (Z.to_nat off) data) else None.

(** ** Helpers of the package defined outside handler.go *)

Definition is_hex_lower (c : ascii) : bool :=
  let n := nat_of_ascii c in
  ((48 <=? n)%nat && (n <=? 57)%nat) || ((97 <=? n)%nat && (n <=? 102)%nat).

(** The shape of a canonical session id: [true] stands for a hexadecimal
    digit, a character for itself. *)
Definition uuid_shape : list (bool + ascii) :=
  [inr "{"%char] ++ repeat (inl true) 8 ++ [inr "-"%char]
  ++ repeat (inl true) 4 ++ [inr "-"%char] ++ repeat (inl true) 4 ++ [inr "-"%char]
  ++ repeat (inl true) 4 ++ [inr "-"%char] ++ repeat (inl true) 12 ++ [inr "}"%char].

Fixpoint match_shape (shape : list (bool + ascii)) (s : string) : bool :=
  match shape, s with
  | [], EmptyString => true
  | inl _ :: shape', String c s' => is_hex_lower c && match_shape shape' s'
  | inr a :: shape', String c s' => Ascii.eqb a c && match_shape shape' s'
  | _, _ => false
  end.

(** Modelled from the spec: [isValidUUID] is defined outside handler.go. A
    session id is well formed when it has the canonical textual form
    [{xxxxxxxx-xxxx-xxxx-xxxx-xxxxxxxxxxxx}], braces included, lower-case
    hexadecimal digits. *)
Definition isValidUUID (uuid : string) : bool := match_shape uuid_shape uuid.

(** Modelled from the spec: [newUUID] is defined outside handler.go. It
    mints a session id from the random source and fails when the source
    fails; the environment gives the outcome. *)
Definition newUUID (env : Env) : option string := uuid_source env.

(** Modelled from the spec: [parseRange] is defined outside handler.go. It
    parses [bytes A-B/C], with A, B and C decimal unsigned 64-bit integers,
    and fails if the string is malformed, if A > B, or if C <= B. *)
Definition parseRange (s : string) : option (Z * Z * Z) :=
  match GoStrings.strip_prefix "bytes " s with
  | None => None
  | Some rest =>
      match GoStrings.Split rest "/"%char with
      | [ab; c] =>
          match GoStrings.Split ab "-"%char with
          | [a; b] =>
              match Strconv.ParseUint a, Strconv.ParseUint b, Strconv.ParseUint c with
              | Some rangeStart, Some rangeEnd, Some fileLength =>
                  if (rangeEnd <? rangeStart) || (fileLength <=? rangeEnd) then None
                  else Some (rangeStart, rangeEnd, fileLength)
              | _, _, _ => None
              end
          | _ => None
          end
      | _ => None
      end
  end.

(** ** The handlers *)

Section Handlers.

Variable env : Env.
Variable b : Handler.

(** [bitsPing]. *)
Definition bitsPing (r : Request) : M unit :=
  w_Header_Add "BITS-Packet-Type" "Ack" ;;
  w_Write [].

(** The loop of [bitsCreate] over the offered protocols: [protocol] is
    assigned each element in turn, and the loop stops at the first one
    equal to the configured protocol. *)
Fixpoint select_protocol (protocol : string) (protocols : list string) : string :=
  match protocols with
  | [] => protocol
  | p :: rest =>
      if String.eqb p (Protocol (cfg b)) then p else select_protocol p rest
  end.

(** [bitsCreate]. *)
Definition bitsCreate (r : Request) : M unit :=
  (* Check for correct protocol *)
  let protocols := GoStrings.Split (Header_Get (Header r) "BITS-Supported-Protocols") " "%char in
  let protocol := select_protocol EmptyString protocols in
  when (negb (String.eqb protocol (Protocol (cfg b))))
    (bitsError EmptyString StatusBadRequest 0 ErrorContextRemoteFile ;; Return_) ;;
  (* Create new session UUID *)
  match newUUID env with
  | None => bitsError EmptyString StatusInternalServerError 0 ErrorContextRemoteFile ;; Return_
  | Some uuid =>
      (* Create session directory *)
      let tmpDir := GoPath.Join [TempDir (cfg b); uuid] in
      err <- os_MkdirAll env tmpDir ;;
      when err (bitsError EmptyString StatusInternalServerError 0 ErrorContextRemoteFile ;; Return_) ;;
      emit b EventCreateSession uuid tmpDir ;;
      w_Header_Add "BITS-Packet-Type" "Ack" ;;
      w_Header_Add "BITS-Protocol" protocol ;;
      w_Header_Add "BITS-Session-Id" uuid ;;
      w_Header_Add "Accept-Encoding" "Identity" ;;
      w_Write []
  end.

(** The loop of [bitsFragment] over [b.cfg.Disallowed]. *)
Fixpoint deny_loop (uuid filename : string) (regs : list string) : M unit :=
  match regs with
  | [] => ret tt
  | reg :: rest =>
      match regexp_MatchString env reg filename with
      | None => bitsError uuid StatusBadRequest 0 ErrorContextRemoteFile ;; Return_
      | Some true => bitsError uuid StatusBadRequest 0 ErrorContextRemoteFile ;; Return_
      | Some false => deny_loop uuid filename rest
      end
  end.

(** The loop of [bitsFragment] over [b.cfg.Allowed]; the result is the
    variable [allowed] after the loop. *)
Fixpoint allow_loop (uuid filename : string) (regs : list string) : M bool :=
  match regs with
  | [] => ret false
  | reg :: rest =>
      match regexp_MatchString env reg filename with
      | None => bitsError uuid StatusBadRequest 0 ErrorContextRemoteFile ;; Return_
      | Some true => ret true
      | Some false => allow_loop uuid filename rest
      end
  end.

(** The directory of a session: [path.Join(b.cfg.TempDir, uuid)]. *)
Definition session_dir (uuid : string) : string :=
  GoPath.Join [TempDir (cfg b); uuid].

(** The path of the upload file: [filepath.Abs(filepath.Join(srcDir,
    filename))], or the plain join when [Abs] fails. *)
Definition upload_path (srcDir filename : string) : string :=
  match GoPath.Abs (getwd env) (GoPath.Join [srcDir; filename]) with
  | Some p => p
  | None => GoPath.Join [srcDir; filename]
  end.

(** [bitsFragment] from the sanity checks on (the file is open, its size
    on disk is [fileSize]). *)
Definition fragment_store (uuid src : string) (file : OsFile) (data : bytes)
    (rangeStart rangeEnd fileLength fragmentSize fileSize : Z) : M unit :=
  (* Sanity checks *)
  if rangeEnd <? fileSize then
    (* The range is already written to disk *)
    w_Header_Add "BITS-Recieved-Content-Range" (Strconv.FormatUint fileSize) ;;
    bitsError uuid StatusRequestedRangeNotSatisfiable 0 ErrorContextRemoteFile ;;
    Return_
  else if fileSize <? rangeStart then
    (* start must be <= fileSize, else there will be a gap *)
    w_Header_Add "BITS-Recieved-Content-Range" (Strconv.FormatUint fileSize) ;;
    bitsError uuid StatusRequestedRangeNotSatisfiable 0 ErrorContextRemoteFile ;;
    Return_
  else
    (* Calculate the offset in the slice, if overlapping *)
    let dataOffset := u64 (fileSize - rangeStart) in
    (* Write the data to file *)
    match slice_from data dataOffset with
    | None => Panic_
    | Some chunk =>
        wr <- file_Write env file chunk ;;
        when (snd wr) (bitsError uuid StatusInternalServerError 0 ErrorContextRemoteFile ;; Return_) ;;
        let written := fst wr in
        (* Make sure we wrote everything we wanted *)
        when (negb (written =? u64 (fragmentSize - dataOffset)))
          (bitsError uuid StatusInternalServerError 0 ErrorContextRemoteFile ;; Return_) ;;
        (* Check if we have written everything *)
        when (u64 (rangeEnd + 1) =? fileLength)
          (file_Close file ;; emit b EventRecieveFile uuid src) ;;
        w_Header_Add "BITS-Packet-Type" "Ack" ;;
        w_Header_Add "BITS-Session-Id" uuid ;;
        w_Header_Add "BITS-Received-Content-Range" (Strconv.FormatUint (u64 (fileSize + written))) ;;
        w_Write []
    end.

(** [bitsFragment] from "Open or create file" on. *)
Definition fragment_open (uuid src : string) (data : bytes)
    (rangeStart rangeEnd fileLength fragmentSize : Z) : M unit :=
  ex <- exists_ env src ;;
  when (snd ex)
    (bitsError uuid StatusBadRequest 0 ErrorContextRemoteFile ;; Return_) ;;
  if negb (fst ex) then
    (* Create file *)
    f <- os_OpenFile_create env src ;;
    match f with
    | None => bitsError uuid StatusInternalServerError 0 ErrorContextRemoteFile ;; Return_
    | Some file =>
        defer (file_Close file)
          ((* New file, size is zero *)
           fragment_store uuid src file data rangeStart rangeEnd fileLength fragmentSize 0)
    end
  else
    (* Open file for append *)
    f <- os_OpenFile_append env src ;;
    match f with
    | None => bitsError uuid StatusInternalServerError 0 ErrorContextRemoteFile ;; Return_
    | Some file =>
        defer (file_Close file)
          ((* Get size on disk *)
           info <- file_Stat env file ;;
           match info with
           | None => bitsError uuid StatusInternalServerError 0 ErrorContextRemoteFile ;; Return_
           | Some fileSize =>
               fragment_store uuid src file data rangeStart rangeEnd fileLength fragmentSize fileSize
           end)
    end.

(** [bitsFragment]. *)
Definition bitsFragment (r : Request) (uuid : string) : M unit :=
  (* Check for correct session *)
  when (String.eqb uuid EmptyString || negb (isValidUUID uuid))
    (bitsError EmptyString StatusBadRequest 0 ErrorContextRemoteFile ;; Return_) ;;
  (* Check for existing session *)
  let srcDir := session_dir uuid in
  ex <- exists_ env srcDir ;;
  when (negb (fst ex))
    (bitsError uuid StatusBadRequest 0 ErrorContextRemoteFile ;; Return_) ;;
  (* Create session directory *)
  err <- os_MkdirAll env srcDir ;;
  when err (bitsError EmptyString StatusInternalServerError 0 ErrorContextRemoteFile ;; Return_) ;;
  (* Get filename and make sure the path is correct *)
  let filename := snd (GoPath.Split (RequestURI r)) in
  when (String.eqb filename EmptyString)
    (bitsError uuid StatusBadRequest 0 ErrorContextRemoteFile ;; Return_) ;;
  (* See if filename is blacklisted. If so, return an error *)
  deny_loop uuid filename (Disallowed (cfg b)) ;;
  (* See if filename is whitelisted *)
  allowed <- allow_loop uuid filename (Allowed (cfg b)) ;;
  when (negb allowed)
    (bitsError uuid StatusBadRequest 0 ErrorContextRemoteFile ;; Return_) ;;
  (* Get absolute paths to file *)
  let src := upload_path srcDir filename in
  (* Parse range *)
  match parseRange (Header_Get (Header r) "Content-Range") with
  | None => bitsError uuid StatusBadRequest 0 ErrorContextRemoteFile ;; Return_
  | Some (rangeStart, rangeEnd, fileLength) =>
  (* Check filesize *)
  when ((0 <? MaxSize (cfg b)) && (MaxSize (cfg b) <? fileLength))
    (bitsError uuid StatusRequestEntityTooLarge 0 ErrorContextRemoteFile ;; Return_) ;;
  (* Get the length of the posted data *)
  match Strconv.ParseUint (Header_Get (Header r) "Content-Length") with
  | None => bitsError uuid StatusBadRequest 0 ErrorContextRemoteFile ;; Return_
  | Some fragmentSize =>
  (* Get posted data and confirm size *)
  match Body r with
  | None => bitsError uuid StatusBadRequest 0 ErrorContextRemoteFile ;; Return_
  | Some data =>
  when (negb (Z.of_nat (length data) =? fragmentSize))
    (bitsError uuid StatusBadRequest 0 ErrorContextRemoteFile ;; Return_) ;;
  (* Check that content-range size matches content-length *)
  when (negb (u64 (rangeEnd - rangeStart + 1) =? fragmentSize))
    (bitsError uuid StatusBadRequest 0 ErrorContextRemoteFile ;; Return_) ;;
  (* Open or create file *)
  fragment_open uuid src data rangeStart rangeEnd fileLength fragmentSize
  end end end.

(** [bitsCancel]. *)
Definition bitsCancel (r : Request) (uuid : string) : M unit :=
  (* Check for correct session *)
  when (String.eqb uuid EmptyString || negb (isValidUUID uuid))
    (bitsError uuid StatusBadRequest 0 ErrorContextRemoteFile ;; Return_) ;;
  let destDir := session_dir uuid in
  ex <- exists_ env destDir ;;
  when (snd ex)
    (bitsError uuid StatusBadRequest 0 ErrorContextRemoteFile ;; Return_) ;;
  when (negb (fst ex))
    (bitsError uuid StatusBadRequest 0 ErrorContextRemoteFile ;; Return_) ;;
  (* do the callback *)
  emit b EventCancelSession uuid destDir ;;
  w_Header_Add "BITS-Packet-Type" "Ack" ;;
  w_Header_Add "BITS-Session-Id" uuid ;;
  w_Write [].

(** [bitsClose]. *)
Definition bitsClose (r : Request) (uuid : string) : M unit :=
  (* Check for correct session *)
  when (String.eqb uuid EmptyString || negb (isValidUUID uuid))
    (bitsError uuid StatusBadRequest 0 ErrorContextRemoteFile ;; Return_) ;;
  let destDir := session_dir uuid in
  ex <- exists_ env destDir ;;
  when (snd ex)
    (bitsError uuid StatusBadRequest 0 ErrorContextRemoteFile ;; Return_) ;;
  when (negb (fst ex))
    (bitsError uuid StatusBadRequest 0 ErrorContextRemoteFile ;; Return_) ;;
  (* do the callback *)
  emit b EventCloseSession uuid destDir ;;
  w_Header_Add "BITS-Packet-Type" "Ack" ;;
  w_Header_Add "BITS-Session-Id" uuid ;;
  w_Write [].

(** [ServeHTTP]. (The request dump that opens the function only feeds the
    log; without the body it returns no error.) *)
Definition ServeHTTP (r : Request) : M unit :=
  (* Only allow BITS requests *)
  when (negb (String.eqb (Method r) (AllowedMethod (cfg b))))
    (http_Error "Method not allowed" StatusMethodNotAllowed ;; Return_) ;;
  (* get packet type and session id *)
  let packetType := GoStrings.ToLower (Header_Get (Header r) "BITS-Packet-Type") in
  let sessionID := Header_Get (Header r) "BITS-Session-Id" in
  (* Take appropriate action based on what type of packet we got *)
  if String.eqb packetType "ping" then bitsPing r ;; Return_
  else if String.eqb packetType "create-session" then bitsCreate r
  else if String.eqb packetType "cancel-session" then bitsCancel r sessionID
  else if String.eqb packetType "close-session" then bitsClose r sessionID
  else if String.eqb packetType "fragment" then bitsFragment r sessionID
  else bitsError EmptyString StatusBadRequest 0 ErrorContextRemoteFile.

End Handlers.

(** What is seen of a handler once it has left: how it left, the response,
    and the world. *)
Definition project (res : Outcome unit * St) : Outcome unit * ResponseWriter * World :=
  (fst res, rw (snd res), world (snd res)).

(** Running a handler on a fresh response writer. *)
Definition run (m : M unit) (w : World) : Outcome unit * ResponseWriter * World :=
  project (m {| rw := fresh_writer; world := w |}).

Definition response (m : M unit) (w : World) : ResponseWriter := snd (fst (run m w)).
Definition world_after (m : M unit) (w : World) : World := snd (run m w).
Definition outcome (m : M unit) (w : World) : Outcome unit := fst (fst (run m w)).

(** The actions a handler added to the trace. *)
Definition new_actions (m : M unit) (w : World) : list Action :=
  drop (length (trace w)) (trace (world_after m w)).

(** ** What [bitsFragment] decides, as a function of the request and the
       file system *)

(** The headers of an error reply, after the headers already set. *)
Definition error_headers (h : HeaderMap) (id : string) : HeaderMap :=
  Header_Add
    (Header_Add
       (Header_Add (Header_Add h "BITS-Packet-Type" "Ack") "BITS-Session-Id" id)
       "BITS-Error-Code" (Strconv.hex8 0))
    "BITS-Error-Context" (Strconv.hex8 ErrorContextRemoteFile).

(** The response writer after [bitsError(w, id, status, 0,
    ErrorContextRemoteFile)] on a writer holding the headers [pre]. *)
Definition error_reply (pre : HeaderMap) (id : string) (status : Z) : ResponseWriter :=
  {| rw_header := error_headers pre id; rw_status := Some status; rw_body := [] |}.

(** The success acknowledgement of a fragment. *)
Definition ack_reply (id : string) (received : Z) : ResponseWriter :=
  {| rw_header :=
       Header_Add
         (Header_Add (Header_Add [] "BITS-Packet-Type" "Ack") "BITS-Session-Id" id)
         "BITS-Received-Content-Range" (Strconv.FormatUint received);
     rw_status := Some StatusOK; rw_body := [] |}.

Definition add_actions (l : list Action) (w : World) : World :=
  {| fs := fs w; trace := trace w ++ l |}.

(** The outcome of the loop over the deny list: no pattern matched, and
    every pattern compiled. *)
Definition deny_pass (env : Env) (filename : string) (regs : list string) : bool :=
  forallb (fun reg => match regexp_MatchString env reg filename with
                      | Some false => true
                      | _ => false
                      end) regs.

(** The outcome of the loop over the allow list: the value of [allowed], or
    [None] when a pattern that does not compile is met before a match. *)
Fixpoint allow_result (env : Env) (filename : string) (regs : list string) : option bool :=
  match regs with
  | [] => Some false
  | reg :: rest =>
      match regexp_MatchString env reg filename with
      | None => None
      | Some true => Some true
      | Some false => allow_result env filename rest
      end
  end.

(** The file name of a request: the last segment of the request URI. *)
Definition request_filename (r : Request) : string := snd (GoPath.Split (RequestURI r)).

(** The values [bitsFragment] holds once its checks have passed. *)
Record Checked : Type := {
  c_src : string;
  c_rangeStart : Z;
  c_rangeEnd : Z;
  c_fileLength : Z;
  c_fragmentSize : Z;
  c_data : bytes
}.

(** The checks of [bitsFragment] before the file is opened, in the order of
    the source: the session id and the status of the error reply, or the
    checked values. *)
Definition fragment_checks (env : Env) (b : Handler) (m : gmap string Node)
    (r : Request) (uuid : string) : (string * Z) + Checked :=
  if String.eqb uuid EmptyString || negb (isValidUUID uuid) then inl (EmptyString, StatusBadRequest)
  else
    match m !! session_dir b uuid with
    | None => inl (uuid, StatusBadRequest)
    | Some (File _) => inl (EmptyString, StatusInternalServerError)
    | Some Dir =>
        let filename := request_filename r in
        if String.eqb filename EmptyString then inl (uuid, StatusBadRequest)
        else if negb (deny_pass env filename (Disallowed (cfg b))) then inl (uuid, StatusBadRequest)
        else
          match allow_result env filename (Allowed (cfg b)) with
          | Some true =>
              match parseRange (Header_Get (Header r) "Content-Range") with
              | None => inl (uuid, StatusBadRequest)
              | Some (rangeStart, rangeEnd, fileLength) =>
                  if (0 <? MaxSize (cfg b)) && (MaxSize (cfg b) <? fileLength)
                  then inl (uuid, StatusRequestEntityTooLarge)
                  else
                    match Strconv.ParseUint (Header_Get (Header r) "Content-Length") with
                    | None => inl (uuid, StatusBadRequest)
                    | Some fragmentSize =>
                        match Body r with
                        | None => inl (uuid, StatusBadRequest)
                        | Some data =>
                            if negb (Z.of_nat (length data) =? fragmentSize)
                            then inl (uuid, StatusBadRequest)
                            else if negb (u64 (rangeEnd - rangeStart + 1) =? fragmentSize)
                            then inl (uuid, StatusBadRequest)
                            else inr {| c_src := upload_path env (session_dir b uuid) filename;
                                        c_rangeStart := rangeStart; c_rangeEnd := rangeEnd;
                                        c_fileLength := fileLength;
                                        c_fragmentSize := fragmentSize; c_data := data |}
                        end
                    end
              end
          | _ => inl (uuid, StatusBadRequest)
          end
    end.

(** How the handler leaves once the checks have passed. *)
Inductive Verdict : Type :=
| VError (status : Z) (opened : bool)
    (* an error reply before the sanity checks; [opened]: the file was open *)
| VRange (fileSize : Z) (created : bool)
    (* stale or gapped range; [created]: the file was created empty *)
| VShort (chunk written : bytes)
    (* the write returned an error after [written] reached the disk *)
| VAccept (fileSize : Z) (chunk : bytes) (final : bool).
    (* [chunk] appended to a file of size [fileSize] *)

(** The sanity checks and the write, on a file of size [fileSize]. *)
Definition store_verdict (env : Env) (c : Checked) (fileSize : Z) (created : bool) : Verdict :=
  if c_rangeEnd c <? fileSize then VRange fileSize created
  else if fileSize <? c_rangeStart c then VRange fileSize created
  else
    let chunk := drop (Z.to_nat (fileSize - c_rangeStart c)) (c_data c) in
    let q := accepted_bytes env chunk in
    if (length q <? length chunk)%nat then VShort chunk q
    else VAccept fileSize chunk (c_rangeEnd c + 1 =? c_fileLength c).

(** Opening the file, then [store_verdict]. *)
Definition fragment_verdict (env : Env) (m : gmap string Node) (c : Checked) : Verdict :=
  if stat_fails env (c_src c) then VError StatusBadRequest false
  else
    match m !! c_src c with
    | None =>
        if open_fails env then VError StatusInternalServerError false
        else store_verdict env c 0 true
    | Some Dir => VError StatusInternalServerError false
    | Some (File old) =>
        if open_fails env then VError StatusInternalServerError false
        else if fstat_fails env then VError StatusInternalServerError true
        else store_verdict env c (Z.of_nat (length old)) false
    end.

(** The response and the world a verdict stands for. *)
Definition settle (b : Handler) (uuid : string) (c : Checked) (v : Verdict) (w : World)
    : Outcome unit * ResponseWriter * World :=
  let src := c_src c in
  match v with
  | VError status opened =>
      (Returned, error_reply [] uuid status,
       add_actions (ASend status :: if opened then [AClose src] else []) w)
  | VRange fileSize created =>
      (Returned,
       error_reply (Header_Add [] "BITS-Recieved-Content-Range" (Strconv.FormatUint fileSize))
         uuid StatusRequestedRangeNotSatisfiable,
       {| fs := if created then <[src := File []]> (fs w) else fs w;
          trace := trace w ++ [ASend StatusRequestedRangeNotSatisfiable; AClose src] |})
  | VShort chunk written =>
      (Returned, error_reply [] uuid StatusInternalServerError,
       {| fs := <[src := File (content_at (fs w) src ++ written)]> (fs w);
          trace := trace w ++ [AWrite src chunk; ASend StatusInternalServerError; AClose src] |})
  | VAccept fileSize chunk final =>
      (Next tt, ack_reply uuid (fileSize + Z.of_nat (length chunk)),
       {| fs := <[src := File (content_at (fs w) src ++ chunk)]> (fs w);
          trace := trace w
                   ++ [AWrite src chunk]
                   ++ (if final
                       then AClose src
                            :: (if callback b then [ACallback EventRecieveFile uuid src] else [])
                       else [])
                   ++ [ASend StatusOK; AClose src] |})
  end.

(** [bitsFragment] as a function. *)
Definition fragment_result (env : Env) (b : Handler) (r : Request) (uuid : string) (w : World)
    : Outcome unit * ResponseWriter * World :=
  match fragment_checks env b (fs w) r uuid with
  | inl (id, status) => (Returned, error_reply [] id status, add_actions [ASend status] w)
  | inr c => settle b uuid c (fragment_verdict env (fs w) c) w
  end.

(** ** The notions the properties are stated with *)

(** The form of an error acknowledgement: an empty body and the four BITS
    headers, the error context being 0x00000005. *)
Definition bits_error_ack (w : ResponseWriter) : Prop :=
  rw_body w = []
  /\ Header_lookup (rw_header w) "BITS-Packet-Type" = Some "Ack"
  /\ (exists id, Header_lookup (rw_header w) "BITS-Session-Id" = Some id)
  /\ (exists code, Header_lookup (rw_header w) "BITS-Error-Code" = Some code)
  /\ Header_lookup (rw_header w) "BITS-Error-Context" = Some "0x00000005".

(** The value a success acknowledgement carries in
    BITS-Received-Content-Range. *)
Definition ack_value (w : ResponseWriter) : option Z :=
  if decide (rw_status w = Some StatusOK)
  then match Header_lookup (rw_header w) "BITS-Received-Content-Range" with
       | Some v => Strconv.ParseUint v
       | None => None
       end
  else None.

(** The nine preconditions of a Fragment request, numbered as the
    specification lists them. *)
Definition precondition (env : Env) (b : Handler) (w : World) (r : Request)
    (uuid : string) (i : nat) : bool :=
  let range := parseRange (Header_Get (Header r) "Content-Range") in
  let size := Strconv.ParseUint (Header_Get (Header r) "Content-Length") in
  match i with
  | 1%nat => isValidUUID uuid
  | 2%nat => match fs w !! session_dir b uuid with Some Dir => true | _ => false end
  | 3%nat => negb (String.eqb (request_filename r) EmptyString)
  | 4%nat => deny_pass env (request_filename r) (Disallowed (cfg b))
             && match allow_result env (request_filename r) (Allowed (cfg b)) with
                | Some true => true
                | _ => false
                end
  | 5%nat => match range with Some _ => true | None => false end
  | 6%nat => match range with
             | Some (_, _, fileLength) =>
                 negb ((0 <? MaxSize (cfg b)) && (MaxSize (cfg b) <? fileLength))
             | None => false
             end
  | 7%nat => match size with Some _ => true | None => false end
  | 8%nat => match Body r, size with
             | Some data, Some fragmentSize => Z.of_nat (length data) =? fragmentSize
             | _, _ => false
             end
  | 9%nat => match range, size with
             | Some (rangeStart, rangeEnd, _), Some fragmentSize =>
                 u64 (rangeEnd - rangeStart + 1) =? fragmentSize
             | _, _ => false
             end
  | _ => true
  end.

(** The session path does not hold a regular file (sessions are
    directories). *)
Definition session_slot_ok (b : Handler) (w : World) (uuid : string) : Prop :=
  forall c, fs w !! session_dir b uuid <> Some (File c).

(** The calls of the callback for received files on a path, in a trace. *)
Definition is_receive (src : string) (a : Action) : bool :=
  match a with
  | ACallback EventRecieveFile _ p => String.eqb p src
  | _ => false
  end.

Definition receive_count (src : string) (l : list Action) : nat :=
  length (List.filter (is_receive src) l).

(** A series of Fragment requests of one session, each under its own
    environment: the responses in order and the world at the end. *)
Fixpoint run_fragments (b : Handler) (uuid : string) (steps : list (Env * Request))
    (w : World) : list ResponseWriter * World :=
  match steps with
  | [] => ([], w)
  | (env, r) :: rest =>
      let w1 := world_after (bitsFragment env b r uuid) w in
      let '(resps, w') := run_fragments b uuid rest w1 in
      (response (bitsFragment env b r uuid) w :: resps, w')
  end.

(** The request is for the upload file at [src], of total length
    [fileLength]. *)
Definition targets (b : Handler) (uuid src : string) (fileLength : Z)
    (step : Env * Request) : Prop :=
  upload_path (fst step) (session_dir b uuid) (request_filename (snd step)) = src
  /\ forall rs re fl,
       parseRange (Header_Get (Header (snd step)) "Content-Range") = Some (rs, re, fl) ->
       fl = fileLength.

(** The tokens of a white-space-separated list, in the words of the
    specification. *)
Definition whitespace_tokens (s : string) : list string := GoStrings.Fields s.

(** The state after [bitsError(w, id, status, 0, ErrorContextRemoteFile)]
    followed by [return]. *)
Definition failed (id : string) (status : Z) (st : St) : St :=
  {| rw := {| rw_header := error_headers (rw_header (rw st)) id;
              rw_status := Some status; rw_body := rw_body (rw st) |};
     world := add_actions [ASend status] (world st) |}.

(** What the checks of [bitsFragment] guarantee about the checked values. *)
Definition checked_ok (c : Checked) : Prop :=
  0 <= c_rangeStart c /\ c_rangeStart c <= c_rangeEnd c /\ c_rangeEnd c < c_fileLength c
  /\ c_fileLength c < u64_mod
  /\ Z.of_nat (length (c_data c)) = c_rangeEnd c - c_rangeStart c + 1
  /\ c_fragmentSize c = c_rangeEnd c - c_rangeStart c + 1.

(** A verdict as seen from the world in which the file is already open. *)
Definition relabel (v : Verdict) : Verdict :=
  match v with
  | VRange fileSize _ => VRange fileSize false
  | _ => v
  end.

(** A verdict reached after the file was created. *)
Definition mark_created (v : Verdict) : Verdict :=
  match v with
  | VRange fileSize _ => VRange fileSize true
  | _ => v
  end.

(** ** What the other handlers decide *)

(** The acknowledgement of Cancel-Session and Close-Session. *)
Definition session_ack (id : string) : ResponseWriter :=
  {| rw_header := Header_Add (Header_Add [] "BITS-Packet-Type" "Ack") "BITS-Session-Id" id;
     rw_status := Some StatusOK; rw_body := [] |}.

(** [bitsCancel] ([e] is [EventCancelSession]) and [bitsClose] ([e] is
    [EventCloseSession]) as a function. *)
Definition session_end_result (e : Event) (env : Env) (b : Handler) (uuid : string) (w : World)
    : Outcome unit * ResponseWriter * World :=
  let rejected := (Returned, error_reply [] uuid StatusBadRequest,
                   add_actions [ASend StatusBadRequest] w) in
  if String.eqb uuid EmptyString || negb (isValidUUID uuid) then rejected
  else if stat_fails env (session_dir b uuid) then rejected
  else match fs w !! session_dir b uuid with
       | None => rejected
       | Some _ =>
           (Next tt, session_ack uuid,
            add_actions ((if callback b then [ACallback e uuid (session_dir b uuid)] else [])
                         ++ [ASend StatusOK]) w)
       end.

(** The acknowledgement of Create-Session. *)
Definition create_ack (protocol id : string) : ResponseWriter :=
  {| rw_header :=
       Header_Add
         (Header_Add
            (Header_Add (Header_Add [] "BITS-Packet-Type" "Ack") "BITS-Protocol" protocol)
            "BITS-Session-Id" id)
         "Accept-Encoding" "Identity";
     rw_status := Some StatusOK; rw_body := [] |}.

(** The protocols a Create-Session request offers, as [bitsCreate] splits
    them. *)
Definition offered_protocols (r : Request) : list string :=
  GoStrings.Split (Header_Get (Header r) "BITS-Supported-Protocols") " "%char.

(** [bitsCreate] as a function. *)
Definition create_result (env : Env) (b : Handler) (r : Request) (w : World)
    : Outcome unit * ResponseWriter * World :=
  let rejected status := (Returned, error_reply [] EmptyString status, add_actions [ASend status] w) in
  let protocol := select_protocol b EmptyString (offered_protocols r) in
  if negb (String.eqb protocol (Protocol (cfg b))) then rejected StatusBadRequest
  else
    match newUUID env with
    | None => rejected StatusInternalServerError
    | Some uuid =>
        let tmpDir := session_dir b uuid in
        let created m :=
          (Next tt, create_ack protocol uuid,
           {| fs := m;
              trace := trace w
                       ++ (if callback b then [ACallback EventCreateSession uuid tmpDir] else [])
                       ++ [ASend StatusOK] |}) in
        match fs w !! tmpDir with
        | Some Dir => created (fs w)
        | Some (File _) => rejected StatusInternalServerError
        | None =>
            if mkdir_fails env then rejected StatusInternalServerError
            else created (<[tmpDir := Dir]> (fs w))
        end
    end.

(** The reply of [http.Error(w, msg, code)] on a fresh writer. *)
Definition plain_error (msg : string) (code : Z) : ResponseWriter :=
  {| rw_header := Header_Set (Header_Set [] "Content-Type" "text/plain; charset=utf-8")
                    "X-Content-Type-Options" "nosniff";
     rw_status := Some code;
     rw_body := list_byte_of_string msg ++ [Byte.x0a] |}.

(** The acknowledgement of Ping. *)
Definition ping_ack : ResponseWriter :=
  {| rw_header := Header_Add [] "BITS-Packet-Type" "Ack";
     rw_status := Some StatusOK; rw_body := [] |}.

(** The packet type and the session id [ServeHTTP] reads from the request. *)
Definition packet_type (r : Request) : string :=
  GoStrings.ToLower (Header_Get (Header r) "BITS-Packet-Type").

Definition session_id (r : Request) : string := Header_Get (Header r) "BITS-Session-Id".

(** [ServeHTTP] as a function. *)
Definition serve_result (env : Env) (b : Handler) (r : Request) (w : World)
    : Outcome unit * ResponseWriter * World :=
  if negb (String.eqb (Method r) (AllowedMethod (cfg b)))
  then (Returned, plain_error "Method not allowed" StatusMethodNotAllowed,
        add_actions [ASend StatusMethodNotAllowed] w)
  else if String.eqb (packet_type r) "ping"
  then (Returned, ping_ack, add_actions [ASend StatusOK] w)
  else if String.eqb (packet_type r) "create-session" then create_result env b r w
  else if String.eqb (packet_type r) "cancel-session"
  then session_end_result EventCancelSession env b (session_id r) w
  else if String.eqb (packet_type r) "close-session"
  then session_end_result EventCloseSession env b (session_id r) w
  else if String.eqb (packet_type r) "fragment" then fragment_result env b r (session_id r) w
  else (Next tt, error_reply [] EmptyString StatusBadRequest, add_actions [ASend StatusBadRequest] w).

(** All nine preconditions hold. *)
Definition preconditions_hold (env : Env) (b : Handler) (w : World) (r : Request)
    (uuid : string) : bool :=
  forallb (precondition env b w r uuid) (seq 1 9).

(** The system calls of a fragment request on the file at [src] all
    succeed: the path can be examined and opened as a regular file, its size
    can be read, and the write of [chunk] is complete. *)
Definition io_succeeds (env : Env) (m : gmap string Node) (src : string) (chunk : bytes) : bool :=
  negb (stat_fails env src) && negb (open_fails env) && negb (fstat_fails env)
  && negb (length (accepted_bytes env chunk) <? length chunk)%nat
  && match m !! src with Some Dir => false | _ => true end.

(** The status of the error reply each precondition stands for. *)
Definition precondition_status (i : nat) : Z :=
  if (i =? 6)%nat then StatusRequestEntityTooLarge else StatusBadRequest.

(** The response acknowledges [v] bytes. *)
Definition acks (v : Z) (resp : ResponseWriter) : bool :=
  match ack_value resp with
  | Some v' => v' =? v
  | None => false
  end.

(** The values of the success acknowledgements among the responses, in
    order. *)
Fixpoint ack_values (resps : list ResponseWriter) : list Z :=
  match resps with
  | [] => []
  | resp :: rest =>
      match ack_value resp with
      | Some v => v :: ack_values rest
      | None => ack_values rest
      end
  end.

(** Actions that neither write nor call the callback. *)
Definition is_quiet (a : Action) : bool :=
  match a with
  | ASend _ | AClose _ => true
  | _ => false
  end.

(** The four ways a fragment request ends, with what each one leaves
    behind. *)
Inductive fragment_end (env : Env) (b : Handler) (r : Request) (uuid : string) (w : World)
  : Outcome unit -> ResponseWriter -> World -> Prop :=
| end_rejected (id : string) (s : Z) (t : list Action) :
    s <> StatusOK ->
    forallb is_quiet t = true ->
    fragment_end env b r uuid w Returned (error_reply [] id s)
      {| fs := fs w; trace := trace w ++ t |}
| end_refused (c : Checked) (created : bool) :
    fragment_checks env b (fs w) r uuid = inr c ->
    (c_rangeEnd c < size_at (fs w) (c_src c) \/ size_at (fs w) (c_src c) < c_rangeStart c) ->
    (if created then fs w !! c_src c = None else fs w !! c_src c <> None) ->
    fragment_end env b r uuid w Returned
      (error_reply (Header_Add [] "BITS-Recieved-Content-Range"
                      (Strconv.FormatUint (size_at (fs w) (c_src c))))
         uuid StatusRequestedRangeNotSatisfiable)
      {| fs := if created then <[c_src c := File []]> (fs w) else fs w;
         trace := trace w ++ [ASend StatusRequestedRangeNotSatisfiable; AClose (c_src c)] |}
| end_short (c : Checked) (chunk q : bytes) :
    fragment_checks env b (fs w) r uuid = inr c ->
    c_rangeStart c <= size_at (fs w) (c_src c) <= c_rangeEnd c ->
    chunk = drop (Z.to_nat (size_at (fs w) (c_src c) - c_rangeStart c)) (c_data c) ->
    fragment_end env b r uuid w Returned (error_reply [] uuid StatusInternalServerError)
      {| fs := <[c_src c := File (content_at (fs w) (c_src c) ++ q)]> (fs w);
         trace := trace w ++ [AWrite (c_src c) chunk; ASend StatusInternalServerError;
                              AClose (c_src c)] |}
| end_accepted (c : Checked) (chunk : bytes) :
    fragment_checks env b (fs w) r uuid = inr c ->
    c_rangeStart c <= size_at (fs w) (c_src c) <= c_rangeEnd c ->
    chunk = drop (Z.to_nat (size_at (fs w) (c_src c) - c_rangeStart c)) (c_data c) ->
    fragment_end env b r uuid w (Next tt)
      (ack_reply uuid (size_at (fs w) (c_src c) + Z.of_nat (length chunk)))
      {| fs := <[c_src c := File (content_at (fs w) (c_src c) ++ chunk)]> (fs w);
         trace := trace w
                  ++ [AWrite (c_src c) chunk]
                  ++ (if c_rangeEnd c + 1 =? c_fileLength c
                      then AClose (c_src c)
                           :: (if callback b
                               then [ACallback EventRecieveFile uuid (c_src c)] else [])
                      else [])
                  ++ [ASend StatusOK; AClose (c_src c)] |}.

(** [os.MkdirAll] on the path succeeds. *)
Definition mkdir_ok (env : Env) (m : gmap string Node) (p : string) : bool :=
  match m !! p with
  | Some Dir => true
  | Some (File _) => false
  | None => negb (mkdir_fails env)
  end.

(** The packet types [ServeHTTP] dispatches on. *)
Definition known_packet_types : list string :=
  ["ping"; "create-session"; "cancel-session"; "close-session"; "fragment"].

(** ** A concrete server, for the examples *)

Module Sample.

Definition guid : string := "{7df0354d-249b-430f-820d-3d2a9bef4931}".
Definition sid : string := "{0123abcd-4567-89ef-0123-456789abcdef}".

Definition config : Config :=
  {| TempDir := "/tmp/bits"; Protocol := guid; AllowedMethod := "BITS_POST";
     MaxSize := 0; Allowed := [".*\.txt$"]; Disallowed := ["^secret"] |}.

Definition handler : Handler := {| cfg := config; callback := true |}.

Fixpoint has_suffix_go (suffix s : string) : bool :=
  String.eqb suffix s
  || match s with
     | String _ s' => has_suffix_go suffix s'
     | EmptyString => false
     end.

(** The regular expression engine on the patterns of the examples. *)
Definition matcher (reg s : string) : option bool :=
  if String.eqb reg ".*\.txt$" then Some (has_suffix_go ".txt" s)
  else if String.eqb reg "^secret" then
    Some (match GoStrings.strip_prefix "secret" s with Some _ => true | None => false end)
  else if String.eqb reg ".*" then Some true
  else if String.eqb reg "(" then None
  else Some false.

(** An environment in which every system call succeeds. *)
Definition env : Env :=
  {| regexp_MatchString := matcher; uuid_source := Some sid; getwd := Some "/srv";
     mkdir_fails := false; stat_fails := fun _ => false; open_fails := false;
     fstat_fails := false; write_cap := None |}.

Definition dir : string := "/tmp/bits/{0123abcd-4567-89ef-0123-456789abcdef}".
Definition file : string := "/tmp/bits/{0123abcd-4567-89ef-0123-456789abcdef}/hello.txt".

(** The world after Create-Session: the session directory, nothing else. *)
Definition world0 : World := {| fs := <[dir := Dir]> ∅; trace := [] |}.

Definition fragment (range len : string) (body : string) : Request :=
  {| Method := "BITS_POST"; RequestURI := "/upload/hello.txt";
     Header := [("Bits-Packet-Type", "Fragment"); ("Bits-Session-Id", sid);
                ("Content-Range", range); ("Content-Length", len)];
     Body := Some (list_byte_of_string body) |}.

Definition fragment1 : Request := fragment "bytes 0-4/10" "5" "Hello".
Definition fragment2 : Request := fragment "bytes 5-9/10" "5" "World".

(** The world after the first, and after both fragments. *)
Definition world1 : World := world_after (ServeHTTP env handler fragment1) world0.
Definition world2 : World := world_after (ServeHTTP env handler fragment2) world1.

(** A fragment that overlaps the five bytes already on disk. *)
Definition fragment_overlap : Request := fragment "bytes 3-9/10" "7" "loWorld".

(** A server that bounds the file length, and an upload beyond the bound. *)
Definition bounded_handler : Handler :=
  {| cfg := {| TempDir := "/tmp/bits"; Protocol := guid; AllowedMethod := "BITS_POST";
               MaxSize := 100; Allowed := [".*\.txt$"]; Disallowed := ["^secret"] |};
     callback := true |}.

Definition oversize : Request := fragment "bytes 0-49/200" "50" EmptyString.

(** A file name the deny list matches (and the allow list too). *)
Definition fragment_secret : Request :=
  {| Method := "BITS_POST"; RequestURI := "/upload/secret.txt";
     Header := [("Bits-Packet-Type", "Fragment"); ("Bits-Session-Id", sid);
                ("Content-Range", "bytes 0-4/10"); ("Content-Length", "5")];
     Body := Some (list_byte_of_string "Hello") |}.

Definition create (protocols : string) : Request :=
  {| Method := "BITS_POST"; RequestURI := "/upload/hello.txt";
     Header := [("Bits-Packet-Type", "Create-Session");
                ("Bits-Supported-Protocols", protocols)];
     Body := Some [] |}.

Definition other_guid : string := "{11111111-2222-3333-4444-555555555555}".

Definition tab : string := String (ascii_of_nat 9) EmptyString.

(** Two protocols separated by a space, and by a horizontal tab. *)
Definition create_space : Request := create (other_guid +:+ " " +:+ guid).
Definition create_tab : Request := create (other_guid +:+ tab +:+ guid).

(** A request with another method than the allowed one. *)
Definition get : Request :=
  {| Method := "GET"; RequestURI := "/upload/hello.txt"; Header := []; Body := Some [] |}.

Definition session_request (packet id : string) : Request :=
  {| Method := "BITS_POST"; RequestURI := "/upload/hello.txt";
     Header := [("Bits-Packet-Type", packet); ("Bits-Session-Id", id)];
     Body := Some [] |}.

(** A world without any session. *)
Definition empty_world : World := {| fs := ∅; trace := [] |}.

(** The two fragments of the upload, in order. *)
Definition upload : list (Env * Request) := [(env, fragment1); (env, fragment2)].

End Sample.

(** ** Notions for the properties of whole requests *)

Definition is_send (a : Action) : bool :=
  match a with
  | ASend _ => true
  | _ => false
  end.

Definition is_callback (a : Action) : bool :=
  match a with
  | ACallback _ _ _ => true
  | _ => false
  end.

Definition is_write (a : Action) : bool :=
  match a with
  | AWrite _ _ => true
  | _ => false
  end.

(** The calls of the callback, and the writes, in a trace. *)
Definition callback_count (l : list Action) : nat := length (List.filter is_callback l).
Definition write_count (l : list Action) : nat := length (List.filter is_write l).

(** The statuses the handlers pass to [bitsError], [http.Error] and
    [w.Write]. *)
Definition statuses : list Z :=
  [StatusOK; StatusBadRequest; StatusMethodNotAllowed; StatusRequestEntityTooLarge;
   StatusRequestedRangeNotSatisfiable; StatusInternalServerError].

(** An entry of the file system before and after a request: a directory
    stays a directory, a file keeps its bytes and may get more at its end. *)
Definition grows (before after : option Node) : Prop :=
  match before with
  | Some Dir => after = Some Dir
  | Some (File c) => exists q, after = Some (File (c ++ q))
  | None => True
  end.

(** What holds of every request, whatever the handler and the way it
    leaves. *)
Definition request_summary (b : Handler) (w : World)
    (res : Outcome unit * ResponseWriter * World) : Prop :=
  fst (fst res) <> Panicked
  /\ exists code t,
       rw_status (snd (fst res)) = Some code
       /\ trace (snd res) = trace w ++ t
       /\ List.filter is_send t = [ASend code]
       /\ In code statuses
       /\ (callback_count t <= 1)%nat
       /\ (code <> StatusOK -> callback_count t = 0%nat)
       /\ (callback b = false -> callback_count t = 0%nat)
       /\ (forall p, grows (fs w !! p) (fs (snd res) !! p))
       /\ (400 <= code < 500 ->
           (forall p, content_at (fs (snd res)) p = content_at (fs w) p)
           /\ write_count t = 0%nat)
       /\ (code = StatusRequestEntityTooLarge -> 0 < MaxSize (cfg b)).

(** The body of the request is a run of bytes of [F], from the start of the
    range the request declares. *)
Definition sends_slice_of (F : bytes) (r : Request) : Prop :=
  forall rs re fl data,
    parseRange (Header_Get (Header r) "Content-Range") = Some (rs, re, fl) ->
    Body r = Some data ->
    data = take (length data) (drop (Z.to_nat rs) F).

(** The request is a fragment for the upload file at [src] whose body comes
    from [F]. *)
Definition uploads (b : Handler) (uuid src : string) (F : bytes) (step : Env * Request) : Prop :=
  upload_path (fst step) (session_dir b uuid) (request_filename (snd step)) = src
  /\ sends_slice_of F (snd step).

(** A series of requests through [ServeHTTP], each under its own
    environment: the world at the end. *)
Fixpoint serve_all (b : Handler) (steps : list (Env * Request)) (w : World) : World :=
  match steps with
  | [] => w
  | (env, r) :: rest => serve_all b rest (world_after (ServeHTTP env b r) w)
  end.

(** Further requests and environments for the examples. *)
Module Sample2.

Definition ping : Request :=
  {| Method := "BITS_POST"; RequestURI := "/upload/hello.txt";
     Header := [("Bits-Packet-Type", "PING")]; Body := Some [] |}.

(** The packet type PING with U+0130, the capital I with a dot above (the
    bytes C4 B0), in the place of the I. *)
Definition dotted_ping : string :=
  "P" +:+ String (ascii_of_nat 196) (String (ascii_of_nat 176) EmptyString) +:+ "NG".

Definition ping_dotted : Request :=
  {| Method := "BITS_POST"; RequestURI := "/upload/hello.txt";
     Header := [("Bits-Packet-Type", dotted_ping)]; Body := Some [] |}.

(** An environment whose disk takes two bytes of a write and then fails. *)
Definition env_short : Env :=
  {| regexp_MatchString := Sample.matcher; uuid_source := Some Sample.sid;
     getwd := Some "/srv"; mkdir_fails := false; stat_fails := fun _ => false;
     open_fails := false; fstat_fails := false; write_cap := Some 2%nat |}.

(** An environment in which no file can be opened. *)
Definition env_noopen : Env :=
  {| regexp_MatchString := Sample.matcher; uuid_source := Some Sample.sid;
     getwd := Some "/srv"; mkdir_fails := false; stat_fails := fun _ => false;
     open_fails := true; fstat_fails := false; write_cap := None |}.

(** A server whose allow list holds a pattern that does not compile after
    one that matches, and one whose list holds it first. *)
Definition handler_late_bad : Handler :=
  {| cfg := {| TempDir := "/tmp/bits"; Protocol := Sample.guid; AllowedMethod := "BITS_POST";
               MaxSize := 0; Allowed := [".*\.txt$"; "("]; Disallowed := [] |};
     callback := true |}.

Definition handler_early_bad : Handler :=
  {| cfg := {| TempDir := "/tmp/bits"; Protocol := Sample.guid; AllowedMethod := "BITS_POST";
               MaxSize := 0; Allowed := ["("; ".*\.txt$"]; Disallowed := [] |};
     callback := true |}.

(** The same server with the matching pattern alone. *)
Definition handler_plain : Handler :=
  {| cfg := {| TempDir := "/tmp/bits"; Protocol := Sample.guid; AllowedMethod := "BITS_POST";
               MaxSize := 0; Allowed := [".*\.txt$"]; Disallowed := [] |};
     callback := true |}.

(** The file the sample upload sends. *)
Definition hello_world : bytes := list_byte_of_string "HelloWorld".

End Sample2.

(** * Properties *)

(** ** The library functions on examples *)

Example ToLower_ex : GoStrings.ToLower "Create-Session" = "create-session".
Proof. reflexivity. Qed.

Example Split_ex : GoStrings.Split "a  b" " "%char = ["a"; EmptyString; "b"].
Proof. reflexivity. Qed.

Example Split_empty_ex : GoStrings.Split EmptyString " "%char = [EmptyString].
Proof. reflexivity. Qed.

Example path_Split_ex : GoPath.Split "/bits/upload/hello.txt" = ("/bits/upload/", "hello.txt").
Proof. reflexivity. Qed.

Example path_Join_ex : GoPath.Join ["/tmp/bits"; "..//x/./y"] = "/tmp/x/y".
Proof. reflexivity. Qed.

Example canonical_ex :
  Textproto.CanonicalMIMEHeaderKey "BITS-Packet-Type" = "Bits-Packet-Type".
Proof. reflexivity. Qed.

Example ParseUint_ex :
  Strconv.ParseUint "0042" = Some 42 /\ Strconv.ParseUint EmptyString = None
  /\ Strconv.ParseUint "18446744073709551616" = None
  /\ Strconv.ParseUint "-1" = None.
Proof. repeat split; reflexivity. Qed.

Example hex8_ex : Strconv.hex8 5 = "0x00000005".
Proof. reflexivity. Qed.

Example isValidUUID_ex :
  isValidUUID "{7df0354d-249b-430f-820d-3d2a9bef4931}" = true
  /\ isValidUUID "7df0354d-249b-430f-820d-3d2a9bef4931" = false
  /\ isValidUUID EmptyString = false.
Proof. repeat split; reflexivity. Qed.

Example parseRange_ex :
  parseRange "bytes 0-4/10" = Some (0, 4, 10)
  /\ parseRange "bytes 5-4/10" = None
  /\ parseRange "bytes 0-9/9" = None
  /\ parseRange "0-4/10" = None.
Proof. repeat split; reflexivity. Qed.

Example ToLower_runes_ex :
  GoStrings.ToLower
    ("P" +:+ String (ascii_of_nat 196) (String (ascii_of_nat 176) EmptyString) +:+ "NG")
  = "ping"
  /\ GoStrings.ToLower
       (String (ascii_of_nat 226) (String (ascii_of_nat 132) (String (ascii_of_nat 170) "B")))
     = "kb"
  /\ GoStrings.ToLower (String (ascii_of_nat 196) "B") = String (ascii_of_nat 196) "b".
Proof. repeat split; reflexivity. Qed.

(** ** Arithmetic and parsing *)

Lemma u64_small (x : Z) : 0 <= x < u64_mod -> u64 x = x.
Proof. intros H. unfold u64. apply Z.mod_small. exact H. Qed.

Lemma u64_mod_pos : 0 < u64_mod.
Proof. reflexivity. Qed.

Lemma u64_range (x : Z) : 0 <= u64 x < u64_mod.
Proof. unfold u64. apply Z.mod_pos_bound. apply u64_mod_pos. Qed.

Lemma ParseUint_bounds (s : string) (n : Z) :
  Strconv.ParseUint s = Some n -> 0 <= n < u64_mod.
Proof.
  unfold Strconv.ParseUint. destruct (NilZero.uint_of_string s) as [d|]; [|discriminate].
  cbv zeta. destruct (Z.ltb_spec (Z.of_N (N.of_uint d)) u64_mod) as [Hlt|Hge]; [|discriminate].
  intros [= <-]. split; [apply N2Z.is_nonneg | exact Hlt].
Qed.

Lemma ParseUint_FormatUint (n : Z) :
  0 <= n < u64_mod -> Strconv.ParseUint (Strconv.FormatUint n) = Some n.
Proof.
  intros [H0 H1]. unfold Strconv.ParseUint, Strconv.FormatUint.
  rewrite NilZero.usu.
  - rewrite DecimalN.Unsigned.of_to. rewrite Z2N.id by exact H0.
    destruct (Z.ltb_spec n u64_mod); [reflexivity | lia].
  - intros Hnil. pose proof (DecimalN.Unsigned.of_to (Z.to_N n)) as Hof.
    destruct (Z.to_N n) eqn:E; [discriminate Hnil|].
    unfold N.to_uint in Hnil. 
    pose proof (DecimalPos.Unsigned.of_to p) as Hp. rewrite Hnil in Hp. discriminate Hp.
Qed.

Lemma parseRange_bounds (s : string) (rs re fl : Z) :
  parseRange s = Some (rs, re, fl) -> 0 <= rs /\ rs <= re /\ re < fl /\ fl < u64_mod.
Proof.
  unfold parseRange.
  destruct (GoStrings.strip_prefix "bytes " s) as [rest|]; [|discriminate].
  destruct (GoStrings.Split rest "/") as [|ab [|c [|? ?]]]; try discriminate.
  destruct (GoStrings.Split ab "-") as [|a [|b' [|? ?]]]; try discriminate.
  destruct (Strconv.ParseUint a) as [x|] eqn:Ea; [|discriminate].
  destruct (Strconv.ParseUint b') as [y|] eqn:Eb; [|discriminate].
  destruct (Strconv.ParseUint c) as [z|] eqn:Ec; [|discriminate].
  destruct (Z.ltb_spec y x); [discriminate|].
  destruct (Z.leb_spec z y); [discriminate|]. cbn [orb].
  intros [= <- <- <-].
  apply ParseUint_bounds in Ea, Eb, Ec. lia.
Qed.

(** ** Stepping through a handler body *)

Arguments GoPath.Join : simpl never.
Arguments GoPath.Split : simpl never.
Arguments session_dir : simpl never.
Arguments upload_path : simpl never.
Arguments request_filename : simpl never.
Arguments parseRange : simpl never.
Arguments isValidUUID : simpl never.
Arguments Strconv.ParseUint : simpl never.
Arguments Strconv.FormatUint : simpl never.
Arguments Strconv.hex8 : simpl never.
Arguments u64 : simpl never.
Arguments Header_Get : simpl never.
Arguments Header_Add : simpl never.
Arguments error_headers : simpl never.
Arguments slice_from : simpl never.
Arguments bitsError : simpl never.
Arguments accepted_bytes : simpl never.
Arguments content_at : simpl never.
Arguments size_at : simpl never.

Lemma fail_eq {A} (id : string) (status : Z) (st : St) :
  rw_status (rw st) = None ->
  (bitsError id status 0 ErrorContextRemoteFile ;; @Return_ A) st
  = (Returned, failed id status st).
Proof.
  intros H. destruct st as [[h s bd] w]. cbn in H. subst s.
  unfold bitsError, bind, w_Header_Add, w_WriteHeader, w_Write, modify_rw, get_rw, log,
    modify_world, Return_, ret, failed, error_headers, add_actions; cbn.
  rewrite app_nil_r. reflexivity.
Qed.

Lemma step_when_fail {A} (c : bool) (id : string) (status : Z) (k : unit -> M A) (st : St) :
  rw_status (rw st) = None ->
  bind (when c (bitsError id status 0 ErrorContextRemoteFile ;; Return_)) k st
  = if c then (Returned, failed id status st) else k tt st.
Proof.
  intros H. destruct c; [|reflexivity].
  unfold bind at 1. unfold when. rewrite fail_eq by exact H. reflexivity.
Qed.

Lemma step_exists {A} (env : Env) (p : string) (k : bool * bool -> M A) (st : St) :
  bind (exists_ env p) k st
  = k (match fs (world st) !! p with Some _ => true | None => false end, stat_fails env p) st.
Proof. reflexivity. Qed.

Lemma step_MkdirAll_dir {A} (env : Env) (p : string) (k : bool -> M A) (st : St) :
  fs (world st) !! p = Some Dir -> bind (os_MkdirAll env p) k st = k false st.
Proof. intros H. unfold bind, os_MkdirAll, get_world, ret. cbn. rewrite H. reflexivity. Qed.

Lemma step_MkdirAll_file {A} (env : Env) (p : string) (c : bytes) (k : bool -> M A) (st : St) :
  fs (world st) !! p = Some (File c) -> bind (os_MkdirAll env p) k st = k true st.
Proof. intros H. unfold bind, os_MkdirAll, get_world, ret. cbn. rewrite H. reflexivity. Qed.

Lemma deny_loop_eq (env : Env) (uuid filename : string) (regs : list string) (st : St) :
  rw_status (rw st) = None ->
  deny_loop env uuid filename regs st
  = if deny_pass env filename regs then (Next tt, st)
    else (Returned, failed uuid StatusBadRequest st).
Proof.
  intros H. induction regs as [|reg rest IH]; [reflexivity|].
  cbn. destruct (regexp_MatchString env reg filename) as [[|]|].
  - apply fail_eq, H.
  - exact IH.
  - apply fail_eq, H.
Qed.

Lemma allow_loop_eq (env : Env) (uuid filename : string) (regs : list string) (st : St) :
  rw_status (rw st) = None ->
  allow_loop env uuid filename regs st
  = match allow_result env filename regs with
    | Some a => (Next a, st)
    | None => (Returned, failed uuid StatusBadRequest st)
    end.
Proof.
  intros H. induction regs as [|reg rest IH]; [reflexivity|].
  cbn. destruct (regexp_MatchString env reg filename) as [[|]|].
  - reflexivity.
  - exact IH.
  - apply fail_eq, H.
Qed.

Lemma accepted_bytes_length (env : Env) (p : bytes) :
  (length (accepted_bytes env p) <= length p)%nat.
Proof.
  unfold accepted_bytes. destruct (write_cap env) as [k|]; [|lia].
  rewrite length_take. lia.
Qed.

Lemma accepted_bytes_full (env : Env) (p : bytes) :
  (length (accepted_bytes env p) <? length p)%nat = false -> accepted_bytes env p = p.
Proof.
  intros H. apply Nat.ltb_ge in H. unfold accepted_bytes in *.
  destruct (write_cap env) as [k|]; [|reflexivity].
  rewrite length_take in H. apply take_ge. lia.
Qed.

Lemma slice_from_in_range (data : bytes) (off : Z) :
  0 <= off <= Z.of_nat (length data) -> off < u64_mod ->
  slice_from data (u64 off) = Some (drop (Z.to_nat off) data).
Proof.
  intros H Hlt. unfold slice_from. rewrite u64_small by lia.
  destruct (Z.leb_spec off (Z.of_nat (length data))); [reflexivity | lia].
Qed.

Lemma step_header {A} (k v : string) (kont : unit -> M A) (st : St) :
  bind (w_Header_Add k v) kont st
  = kont tt {| rw := {| rw_header := Header_Add (rw_header (rw st)) k v;
                        rw_status := rw_status (rw st); rw_body := rw_body (rw st) |};
               world := world st |}.
Proof. reflexivity. Qed.

Lemma step_file_Write {A} (env : Env) (f : OsFile) (p : bytes) (k : Z * bool -> M A) (st : St) :
  bind (file_Write env f p) k st
  = let q := accepted_bytes env p in
    let old := content_at (fs (world st)) (f_path f) in
    k (Z.of_nat (length q), (length q <? length p)%nat)
      {| rw := rw st;
         world := {| fs := <[f_path f := File (if f_append f then old ++ q
                                               else q ++ drop (length q) old)]> (fs (world st));
                     trace := trace (world st) ++ [AWrite (f_path f) p] |} |}.
Proof. reflexivity. Qed.

Lemma project_defer (d : M unit) (body : M unit) (st : St) :
  project (defer d body st)
  = ((body st).1, rw (d (body st).2).2, world (d (body st).2).2).
Proof. unfold project, defer. destruct (body st) as [o st']. reflexivity. Qed.

Lemma project_defer_close (f : OsFile) (body : M unit) (st : St) :
  project (defer (file_Close f) body st)
  = ((body st).1, rw (body st).2, add_actions [AClose (f_path f)] (world (body st).2)).
Proof. unfold project, defer. destruct (body st) as [o st']. reflexivity. Qed.

Lemma fragment_store_run env b uuid c app fileSize created w' :
  checked_ok c ->
  fileSize = size_at (fs w') (c_src c) ->
  (app = false -> content_at (fs w') (c_src c) = []) ->
  let file := {| f_path := c_src c; f_append := app |} in
  project (defer (file_Close file)
             (fragment_store env b uuid (c_src c) file (c_data c) (c_rangeStart c)
                (c_rangeEnd c) (c_fileLength c) (c_fragmentSize c) fileSize)
             {| rw := fresh_writer; world := w' |})
  = settle b uuid c (relabel (store_verdict env c fileSize created)) w'.
Proof.
  intros (H0 & H1 & H2 & H3 & H4 & H5) Hsize Happ file.
  assert (Hfs : 0 <= fileSize) by (subst fileSize; unfold size_at; lia).
  rewrite project_defer_close. unfold fragment_store, store_verdict.
  destruct (Z.ltb_spec (c_rangeEnd c) fileSize) as [Hst|Hst].
  { rewrite step_header, fail_eq by reflexivity.
    unfold settle, relabel, error_reply, failed, add_actions. cbn.
    rewrite <- ?app_assoc. reflexivity. }
  destruct (Z.ltb_spec fileSize (c_rangeStart c)) as [Hgap|Hgap].
  { rewrite step_header, fail_eq by reflexivity.
    unfold settle, relabel, error_reply, failed, add_actions. cbn.
    rewrite <- ?app_assoc. reflexivity. }
  cbv zeta.
  rewrite slice_from_in_range by (unfold u64_mod in *; lia).
  set (chunk := drop (Z.to_nat (fileSize - c_rangeStart c)) (c_data c)).
  assert (Hchunk : Z.of_nat (length chunk) = c_rangeEnd c + 1 - fileSize).
  { unfold chunk. rewrite length_drop. lia. }
  rewrite step_file_Write. cbv zeta. cbn [fst snd f_path f_append file world fs trace rw].
  rewrite step_when_fail by reflexivity.
  assert (Hnew : (if app then content_at (fs w') (c_src c) ++ accepted_bytes env chunk
                  else accepted_bytes env chunk
                       ++ drop (length (accepted_bytes env chunk)) (content_at (fs w') (c_src c)))
                 = content_at (fs w') (c_src c) ++ accepted_bytes env chunk).
  { destruct app; [reflexivity|]. rewrite Happ by reflexivity. rewrite drop_nil, app_nil_r. reflexivity. }
  rewrite Hnew.
  destruct (length (accepted_bytes env chunk) <? length chunk)%nat eqn:Eshort.
  { unfold settle, relabel, error_reply, failed, add_actions. cbn.
    rewrite <- ?app_assoc. reflexivity. }
  rewrite (accepted_bytes_full _ _ Eshort).
  rewrite step_when_fail by reflexivity.
  rewrite (u64_small (fileSize - c_rangeStart c)) by (unfold u64_mod in *; lia).
  rewrite (u64_small (c_fragmentSize c - _)) by (unfold u64_mod in *; lia).
  rewrite (u64_small (c_rangeEnd c + 1)) by (unfold u64_mod in *; lia).
  rewrite (u64_small (fileSize + _)) by (unfold u64_mod in *; lia).
  destruct (Z.eqb_spec (Z.of_nat (length chunk)) (c_fragmentSize c - (fileSize - c_rangeStart c))) as [_|Hne];
    [|lia].
  cbn [negb].
  unfold settle, relabel, ack_reply.
  destruct (c_rangeEnd c + 1 =? c_fileLength c); destruct (callback b) eqn:Ecb;
    unfold when, bind, file_Close, emit, when, log, modify_world, w_Header_Add, w_Write,
      w_WriteHeader, modify_rw, get_rw, ret, add_actions; rewrite ?Ecb; cbn;
    rewrite <- ?app_assoc; cbn; reflexivity.
Qed.

Lemma defer_ext {A} (d : M unit) (body body' : M A) (st : St) :
  body st = body' st -> defer d body st = defer d body' st.
Proof. intros H. unfold defer. rewrite H. reflexivity. Qed.

Lemma relabel_existing env c fileSize :
  relabel (store_verdict env c fileSize false) = store_verdict env c fileSize false.
Proof.
  unfold store_verdict.
  repeat match goal with |- context [if ?x then _ else _] => destruct x end; reflexivity.
Qed.

Lemma content_at_insert (m : gmap string Node) (p : string) (c : bytes) :
  content_at (<[p := File c]> m) p = c.
Proof. unfold content_at. rewrite lookup_insert_eq. reflexivity. Qed.

Lemma content_at_None (m : gmap string Node) (p : string) :
  m !! p = None -> content_at m p = [].
Proof. intros H. unfold content_at. rewrite H. reflexivity. Qed.

Lemma content_at_File (m : gmap string Node) (p : string) (c : bytes) :
  m !! p = Some (File c) -> content_at m p = c.
Proof. intros H. unfold content_at. rewrite H. reflexivity. Qed.

Lemma settle_created b uuid c v w :
  fs w !! c_src c = None ->
  (forall s o, v <> VError s o) ->
  settle b uuid c (relabel v) {| fs := <[c_src c := File []]> (fs w); trace := trace w |}
  = settle b uuid c
      (mark_created v) w.
Proof.
  intros Hnone Hne. destruct v as [s o|s cr|chunk q|s chunk fin]; cbn.
  - exfalso. eapply Hne. reflexivity.
  - reflexivity.
  - rewrite content_at_insert, (content_at_None _ _ Hnone), insert_insert_eq. reflexivity.
  - rewrite content_at_insert, (content_at_None _ _ Hnone), insert_insert_eq. reflexivity.
Qed.

Lemma store_verdict_created env c fileSize :
  mark_created (store_verdict env c fileSize true) = store_verdict env c fileSize true.
Proof.
  unfold store_verdict.
  repeat match goal with |- context [if ?x then _ else _] => destruct x end; reflexivity.
Qed.

Lemma store_verdict_not_error env c fileSize created s o :
  store_verdict env c fileSize created <> VError s o.
Proof.
  unfold store_verdict.
  repeat match goal with |- context [if ?x then _ else _] => destruct x end; discriminate.
Qed.

Lemma step_file_Stat {A} (env : Env) (f : OsFile) (k : option Z -> M A) (st : St) :
  bind (file_Stat env f) k st
  = if fstat_fails env then k None st
    else k (Some (size_at (fs (world st)) (f_path f))) st.
Proof.
  unfold bind at 1, file_Stat, bind, get_world. destruct (fstat_fails env); reflexivity.
Qed.

Lemma defer_file_Stat {A} (d : M unit) (env : Env) (f : OsFile) (k : option Z -> M A) (st : St) :
  defer d (bind (file_Stat env f) k) st
  = if fstat_fails env then defer d (k None) st
    else defer d (k (Some (size_at (fs (world st)) (f_path f)))) st.
Proof.
  unfold defer. rewrite step_file_Stat. destruct (fstat_fails env); reflexivity.
Qed.

Lemma fragment_open_run env b uuid c w :
  checked_ok c ->
  project (fragment_open env b uuid (c_src c) (c_data c) (c_rangeStart c) (c_rangeEnd c)
             (c_fileLength c) (c_fragmentSize c) {| rw := fresh_writer; world := w |})
  = settle b uuid c (fragment_verdict env (fs w) c) w.
Proof.
  intros Hok. unfold fragment_open, fragment_verdict.
  rewrite step_exists. cbn [fst snd world].
  rewrite step_when_fail by reflexivity.
  destruct (stat_fails env (c_src c)); [reflexivity|].
  destruct (fs w !! c_src c) as [[|old]|] eqn:Efs; cbn [negb].
  - (* a directory in the place of the file *)
    unfold bind at 1, os_OpenFile_append at 1, bind at 1, get_world at 1. cbn [world fst snd].
    rewrite Efs. unfold ret at 1. rewrite fail_eq by reflexivity. reflexivity.
  - unfold bind at 1, os_OpenFile_append at 1, bind at 1, get_world at 1. cbn [world fst snd].
    rewrite Efs. destruct (open_fails env).
    { unfold ret at 1. rewrite fail_eq by reflexivity. reflexivity. }
    unfold ret at 1.
    rewrite defer_file_Stat. cbn [world f_path].
    destruct (fstat_fails env) eqn:Estat.
    + rewrite project_defer_close. rewrite !fail_eq by reflexivity.
      unfold settle, error_reply, failed, add_actions. cbn. rewrite <- ?app_assoc. reflexivity.
    + rewrite (fragment_store_run env b uuid c true _ false w Hok).
      * rewrite relabel_existing. unfold size_at. rewrite (content_at_File _ _ _ Efs). reflexivity.
      * reflexivity.
      * discriminate.
  - unfold bind at 1, os_OpenFile_create at 1, bind at 1, get_world at 1. cbn [world fst snd].
    rewrite Efs. destruct (open_fails env).
    { unfold ret at 1. rewrite fail_eq by reflexivity. reflexivity. }
    unfold bind at 1, set_fs at 1, modify_world at 1, ret at 1. cbn [world rw fs trace].
    rewrite (fragment_store_run env b uuid c false 0 true _ Hok).
    + rewrite settle_created by (exact Efs || apply store_verdict_not_error).
      rewrite store_verdict_created. reflexivity.
    + cbn. unfold size_at. rewrite content_at_insert. reflexivity.
    + intros _. cbn. apply content_at_insert.
Qed.

Lemma fragment_checks_ok env b m r uuid c :
  fragment_checks env b m r uuid = inr c -> checked_ok c.
Proof.
  unfold fragment_checks.
  destruct (String.eqb uuid EmptyString || negb (isValidUUID uuid)); [discriminate|].
  destruct (m !! session_dir b uuid) as [[|?]|]; try discriminate.
  destruct (String.eqb (request_filename r) EmptyString); [discriminate|].
  destruct (negb (deny_pass env (request_filename r) (Disallowed (cfg b)))); [discriminate|].
  destruct (allow_result env (request_filename r) (Allowed (cfg b))) as [[|]|]; try discriminate.
  destruct (parseRange (Header_Get (Header r) "Content-Range")) as [[[rs re] fl]|] eqn:Er;
    [|discriminate].
  destruct ((0 <? MaxSize (cfg b)) && (MaxSize (cfg b) <? fl)); [discriminate|].
  destruct (Strconv.ParseUint (Header_Get (Header r) "Content-Length")) as [n|]; [|discriminate].
  destruct (Body r) as [data|]; [|discriminate].
  destruct (Z.eqb_spec (Z.of_nat (length data)) n) as [Hlen|]; [|discriminate].
  destruct (Z.eqb_spec (u64 (re - rs + 1)) n) as [Hsz|]; [|discriminate].
  cbn [negb]. intros [= <-]. apply parseRange_bounds in Er.
  unfold checked_ok. cbn.
  rewrite u64_small in Hsz by (unfold u64_mod in *; lia). lia.
Qed.

Lemma step_deny_loop {A} env uuid filename regs (k : unit -> M A) st :
  rw_status (rw st) = None ->
  bind (deny_loop env uuid filename regs) k st
  = if negb (deny_pass env filename regs) then (Returned, failed uuid StatusBadRequest st)
    else k tt st.
Proof.
  intros H. unfold bind. rewrite deny_loop_eq by exact H.
  destruct (deny_pass env filename regs); reflexivity.
Qed.

Lemma step_allow_loop {A} env uuid filename regs (k : bool -> M A) st :
  rw_status (rw st) = None ->
  bind (allow_loop env uuid filename regs) k st
  = match allow_result env filename regs with
    | Some a => k a st
    | None => (Returned, failed uuid StatusBadRequest st)
    end.
Proof.
  intros H. unfold bind. rewrite allow_loop_eq by exact H.
  destruct (allow_result env filename regs); reflexivity.
Qed.

Lemma bitsFragment_run env b r uuid w :
  run (bitsFragment env b r uuid) w = fragment_result env b r uuid w.
Proof.
  unfold run, fragment_result, fragment_checks, bitsFragment, request_filename.
  set (filename := (GoPath.Split (RequestURI r)).2).
  rewrite step_when_fail by reflexivity.
  destruct (String.eqb uuid EmptyString || negb (isValidUUID uuid)); [reflexivity|].
  rewrite step_exists. cbn [fst snd world].
  rewrite step_when_fail by reflexivity.
  destruct (fs w !! session_dir b uuid) as [[|old]|] eqn:Edir; cbn [negb];
    [ | | reflexivity].
  2:{ rewrite (step_MkdirAll_file _ _ old) by exact Edir.
      rewrite step_when_fail by reflexivity. reflexivity. }
  rewrite step_MkdirAll_dir by exact Edir.
  rewrite step_when_fail by reflexivity.
  rewrite step_when_fail by reflexivity.
  destruct (String.eqb filename EmptyString); [reflexivity|].
  rewrite step_deny_loop by reflexivity.
  destruct (negb (deny_pass env filename (Disallowed (cfg b)))); [reflexivity|].
  rewrite step_allow_loop by reflexivity.
  destruct (allow_result env filename (Allowed (cfg b))) as [[|]|]; [ | reflexivity | reflexivity].
  rewrite step_when_fail by reflexivity. cbn [negb].
  destruct (parseRange (Header_Get (Header r) "Content-Range")) as [[[rs re] fl]|] eqn:Er.
  2:{ rewrite fail_eq by reflexivity. reflexivity. }
  rewrite step_when_fail by reflexivity.
  destruct ((0 <? MaxSize (cfg b)) && (MaxSize (cfg b) <? fl)); [reflexivity|].
  destruct (Strconv.ParseUint (Header_Get (Header r) "Content-Length")) as [n|].
  2:{ rewrite fail_eq by reflexivity. reflexivity. }
  destruct (Body r) as [data|].
  2:{ rewrite fail_eq by reflexivity. reflexivity. }
  rewrite step_when_fail by reflexivity.
  destruct (Z.eqb_spec (Z.of_nat (length data)) n) as [Hlen|]; [|reflexivity].
  cbn [negb].
  rewrite step_when_fail by reflexivity.
  destruct (Z.eqb_spec (u64 (re - rs + 1)) n) as [Hsz|]; [|reflexivity].
  cbn [negb].
  set (c := {| c_src := upload_path env (session_dir b uuid) filename;
               c_rangeStart := rs; c_rangeEnd := re; c_fileLength := fl;
               c_fragmentSize := n; c_data := data |}).
  apply (fragment_open_run env b uuid c w).
  apply parseRange_bounds in Er. unfold checked_ok. cbn.
  rewrite u64_small in Hsz by (unfold u64_mod in *; lia). lia.
Qed.

Lemma step_emit {A} (b : Handler) (e : Event) (id p : string) (k : unit -> M A) (st : St) :
  bind (emit b e id p) k st
  = k tt {| rw := rw st;
            world := add_actions (if callback b then [ACallback e id p] else []) (world st) |}.
Proof.
  unfold bind at 1, emit, when, log, modify_world, ret, add_actions.
  destruct (callback b); cbn.
  - reflexivity.
  - rewrite app_nil_r. destruct st as [x [m t]]. reflexivity.
Qed.

Lemma bitsCancel_run env b r uuid w :
  run (bitsCancel env b r uuid) w = session_end_result EventCancelSession env b uuid w.
Proof.
  unfold run, session_end_result, bitsCancel.
  rewrite step_when_fail by reflexivity.
  destruct (String.eqb uuid EmptyString || negb (isValidUUID uuid)); [reflexivity|].
  rewrite step_exists. cbn [fst snd world].
  rewrite step_when_fail by reflexivity.
  destruct (stat_fails env (session_dir b uuid)); [reflexivity|].
  rewrite step_when_fail by reflexivity.
  destruct (fs w !! session_dir b uuid) as [n|]; cbn [negb]; [|reflexivity].
  rewrite step_emit.
  unfold project, session_ack, bind, w_Header_Add, w_Write, w_WriteHeader, modify_rw, get_rw,
    log, modify_world, ret, add_actions. cbn. rewrite <- ?app_assoc. reflexivity.
Qed.

Lemma bitsClose_run env b r uuid w :
  run (bitsClose env b r uuid) w = session_end_result EventCloseSession env b uuid w.
Proof.
  unfold run, session_end_result, bitsClose.
  rewrite step_when_fail by reflexivity.
  destruct (String.eqb uuid EmptyString || negb (isValidUUID uuid)); [reflexivity|].
  rewrite step_exists. cbn [fst snd world].
  rewrite step_when_fail by reflexivity.
  destruct (stat_fails env (session_dir b uuid)); [reflexivity|].
  rewrite step_when_fail by reflexivity.
  destruct (fs w !! session_dir b uuid) as [n|]; cbn [negb]; [|reflexivity].
  rewrite step_emit.
  unfold project, session_ack, bind, w_Header_Add, w_Write, w_WriteHeader, modify_rw, get_rw,
    log, modify_world, ret, add_actions. cbn. rewrite <- ?app_assoc. reflexivity.
Qed.

Lemma bitsCreate_run env b r w :
  run (bitsCreate env b r) w = create_result env b r w.
Proof.
  unfold run, create_result, bitsCreate, offered_protocols.
  set (protocol := select_protocol b EmptyString _).
  rewrite step_when_fail by reflexivity.
  destruct (negb (String.eqb protocol (Protocol (cfg b)))); [reflexivity|].
  unfold newUUID. destruct (uuid_source env) as [uuid|].
  2:{ rewrite fail_eq by reflexivity. reflexivity. }
  fold (session_dir b uuid).
  destruct (fs w !! session_dir b uuid) as [[|old]|] eqn:Edir.
  - rewrite step_MkdirAll_dir by exact Edir.
    rewrite step_when_fail by reflexivity. rewrite step_emit.
    unfold project, create_ack, bind, w_Header_Add, w_Write, w_WriteHeader, modify_rw, get_rw,
      log, modify_world, ret, add_actions. cbn. rewrite <- ?app_assoc. reflexivity.
  - rewrite (step_MkdirAll_file _ _ old) by exact Edir.
    rewrite step_when_fail by reflexivity. reflexivity.
  - unfold bind at 1, os_MkdirAll at 1, bind at 1, get_world at 1. cbn [world fst snd].
    rewrite Edir. destruct (mkdir_fails env).
    + unfold ret at 1. rewrite step_when_fail by reflexivity. reflexivity.
    + unfold bind at 1, set_fs at 1, modify_world at 1, ret at 1.
      rewrite step_when_fail by reflexivity. rewrite step_emit.
      unfold project, create_ack, bind, w_Header_Add, w_Write, w_WriteHeader, modify_rw, get_rw,
        log, modify_world, ret, add_actions. cbn. rewrite <- ?app_assoc. reflexivity.
Qed.

Lemma project_bind_Return (m : M unit) (st : St) :
  (forall st', m st <> (Panicked, st')) ->
  project ((m ;; Return_) st) = (Returned, rw (m st).2, world (m st).2).
Proof.
  intros H. unfold bind, Return_, project. destruct (m st) as [[a| |] st'] eqn:E; cbn; try reflexivity.
  exfalso. eapply H. reflexivity.
Qed.

Lemma ServeHTTP_run env b r w :
  run (ServeHTTP env b r) w = serve_result env b r w.
Proof.
  unfold serve_result. unfold run, ServeHTTP.
  fold (packet_type r). fold (session_id r).
  destruct (String.eqb (Method r) (AllowedMethod (cfg b))); cbn [negb].
  2:{ reflexivity. }
  unfold bind at 1, when at 1, ret at 1.
  destruct (String.eqb (packet_type r) "ping"); [reflexivity|].
  destruct (String.eqb (packet_type r) "create-session"); [apply bitsCreate_run|].
  destruct (String.eqb (packet_type r) "cancel-session"); [apply bitsCancel_run|].
  destruct (String.eqb (packet_type r) "close-session"); [apply bitsClose_run|].
  destruct (String.eqb (packet_type r) "fragment"); [apply bitsFragment_run|].
  reflexivity.
Qed.

(** ** Reading the decision of [bitsFragment] *)

Lemma fragment_checks_inl env b m r uuid id s :
  fragment_checks env b m r uuid = inl (id, s) ->
  s = StatusBadRequest \/ s = StatusRequestEntityTooLarge \/ s = StatusInternalServerError.
Proof.
  unfold fragment_checks.
  repeat match goal with
         | |- context [match ?x with _ => _ end] => destruct x
         end; intros [= <- <-] || discriminate; auto.
Qed.

Lemma isValidUUID_nonempty uuid : isValidUUID uuid = true -> String.eqb uuid EmptyString = false.
Proof. destruct uuid; [discriminate | reflexivity]. Qed.

Lemma fragment_checks_inr env b m r uuid c :
  fragment_checks env b m r uuid = inr c ->
  checked_ok c
  /\ c_src c = upload_path env (session_dir b uuid) (request_filename r)
  /\ parseRange (Header_Get (Header r) "Content-Range")
     = Some (c_rangeStart c, c_rangeEnd c, c_fileLength c)
  /\ Body r = Some (c_data c)
  /\ m !! session_dir b uuid = Some Dir.
Proof.
  intros H. split; [eapply fragment_checks_ok; exact H|]. revert H.
  unfold fragment_checks.
  destruct (String.eqb uuid EmptyString || negb (isValidUUID uuid)); [discriminate|].
  destruct (m !! session_dir b uuid) as [[|?]|]; try discriminate.
  destruct (String.eqb (request_filename r) EmptyString); [discriminate|].
  destruct (negb (deny_pass env (request_filename r) (Disallowed (cfg b)))); [discriminate|].
  destruct (allow_result env (request_filename r) (Allowed (cfg b))) as [[|]|]; try discriminate.
  destruct (parseRange (Header_Get (Header r) "Content-Range")) as [[[rs re] fl]|] eqn:Er;
    [|discriminate].
  destruct ((0 <? MaxSize (cfg b)) && (MaxSize (cfg b) <? fl)); [discriminate|].
  destruct (Strconv.ParseUint (Header_Get (Header r) "Content-Length")) as [n|]; [|discriminate].
  destruct (Body r) as [data|]; [|discriminate].
  destruct (negb (Z.of_nat (length data) =? n)); [discriminate|].
  destruct (negb (u64 (re - rs + 1) =? n)); [discriminate|].
  intros [= <-]. cbn. auto.
Qed.

(** The verdicts, read back: what each one says about the file system and
    the environment. *)
Lemma store_verdict_cases env c fileSize created :
  let chunk := drop (Z.to_nat (fileSize - c_rangeStart c)) (c_data c) in
  (store_verdict env c fileSize created = VRange fileSize created
   /\ (c_rangeEnd c < fileSize \/ fileSize < c_rangeStart c))
  \/ (store_verdict env c fileSize created = VShort chunk (accepted_bytes env chunk)
      /\ c_rangeStart c <= fileSize <= c_rangeEnd c
      /\ (length (accepted_bytes env chunk) < length chunk)%nat)
  \/ (store_verdict env c fileSize created
      = VAccept fileSize chunk (c_rangeEnd c + 1 =? c_fileLength c)
      /\ c_rangeStart c <= fileSize <= c_rangeEnd c
      /\ accepted_bytes env chunk = chunk).
Proof.
  intros chunk. unfold store_verdict. fold chunk.
  destruct (Z.ltb_spec (c_rangeEnd c) fileSize); [left; split; [reflexivity | lia]|].
  destruct (Z.ltb_spec fileSize (c_rangeStart c)); [left; split; [reflexivity | lia]|].
  cbv zeta. destruct (length (accepted_bytes env chunk) <? length chunk)%nat eqn:E.
  - right; left. apply Nat.ltb_lt in E. repeat split; lia.
  - right; right. repeat split; try lia. apply accepted_bytes_full, E.
Qed.

Lemma fragment_verdict_cases env m c :
  let src := c_src c in
  let fileSize := size_at m src in
  (exists s o, fragment_verdict env m c = VError s o
               /\ (s = StatusBadRequest \/ s = StatusInternalServerError)
               /\ (stat_fails env src = true \/ open_fails env = true \/ fstat_fails env = true
                   \/ m !! src = Some Dir))
  \/ (stat_fails env src = false /\ open_fails env = false /\ m !! src <> Some Dir
      /\ (m !! src <> None -> fstat_fails env = false)
      /\ fragment_verdict env m c
         = store_verdict env c fileSize (match m !! src with None => true | _ => false end)).
Proof.
  intros src fileSize. unfold fragment_verdict. fold src.
  destruct (stat_fails env src) eqn:E1.
  { left. exists StatusBadRequest, false. auto. }
  subst fileSize. unfold size_at, content_at.
  destruct (m !! src) as [[|old]|] eqn:Em.
  - left. exists StatusInternalServerError, false. auto 6.
  - destruct (open_fails env) eqn:E2.
    { left. exists StatusInternalServerError, false. auto 6. }
    destruct (fstat_fails env) eqn:E3.
    { left. exists StatusInternalServerError, true. auto 6. }
    right. repeat split; auto; discriminate.
  - destruct (open_fails env) eqn:E2.
    { left. exists StatusInternalServerError, false. auto 6. }
    right. repeat split; auto; try discriminate. intros H; contradiction.
Qed.

Lemma preconditions_checks env b w r uuid :
  preconditions_hold env b w r uuid = true ->
  exists c, fragment_checks env b (fs w) r uuid = inr c.
Proof.
  unfold preconditions_hold. cbn [seq forallb].
  intros H. repeat (apply andb_prop in H; destruct H as [? H]).
  unfold precondition in *. unfold fragment_checks.
  rewrite H0 in *. rewrite (isValidUUID_nonempty _ H0). cbn [negb orb].
  destruct (fs w !! session_dir b uuid) as [[|?]|]; try discriminate.
  destruct (String.eqb (request_filename r) EmptyString); [discriminate|].
  apply andb_prop in H3. destruct H3 as [Hd Ha]. rewrite Hd. cbn [negb].
  destruct (allow_result env (request_filename r) (Allowed (cfg b))) as [[|]|]; try discriminate.
  destruct (parseRange (Header_Get (Header r) "Content-Range")) as [[[rs re] fl]|];
    [|discriminate].
  destruct ((0 <? MaxSize (cfg b)) && (MaxSize (cfg b) <? fl)); [discriminate|].
  destruct (Strconv.ParseUint (Header_Get (Header r) "Content-Length")) as [n|]; [|discriminate].
  destruct (Body r) as [data|]; [|discriminate].
  rewrite H7, H8. cbn [negb]. eexists. reflexivity.
Qed.

Lemma run_response m w : response m w = (run m w).1.2.
Proof. reflexivity. Qed.

Lemma run_world_after m w : world_after m w = (run m w).2.
Proof. reflexivity. Qed.

Lemma run_outcome m w : outcome m w = (run m w).1.1.
Proof. reflexivity. Qed.

Lemma size_at_insert (m : gmap string Node) (p : string) (c : bytes) :
  size_at (<[p := File c]> m) p = Z.of_nat (length c).
Proof. unfold size_at. rewrite content_at_insert. reflexivity. Qed.


Lemma first_failure_checks env b w r uuid i :
  session_slot_ok b w uuid ->
  (1 <= i <= 9)%nat ->
  (forall j, (1 <= j < i)%nat -> precondition env b w r uuid j = true) ->
  precondition env b w r uuid i = false ->
  fragment_checks env b (fs w) r uuid
  = inl (if (i =? 1)%nat then EmptyString else uuid, precondition_status i).
Proof.
  intros Hslot Hi Hprev Hfail.
  assert (H1 : (1 < i)%nat -> isValidUUID uuid = true).
  { intros Hlt. apply (Hprev 1%nat). lia. }
  assert (H2 : (2 < i)%nat -> fs w !! session_dir b uuid = Some Dir).
  { intros Hlt. specialize (Hprev 2%nat ltac:(lia)). cbn in Hprev.
    destruct (fs w !! session_dir b uuid) as [[|?]|]; try discriminate. reflexivity. }
  assert (H3 : (3 < i)%nat -> String.eqb (request_filename r) EmptyString = false).
  { intros Hlt. specialize (Hprev 3%nat ltac:(lia)). cbn in Hprev.
    apply negb_true_iff in Hprev. exact Hprev. }
  assert (H4 : (4 < i)%nat ->
               deny_pass env (request_filename r) (Disallowed (cfg b)) = true
               /\ allow_result env (request_filename r) (Allowed (cfg b)) = Some true).
  { intros Hlt. specialize (Hprev 4%nat ltac:(lia)). cbn in Hprev.
    apply andb_prop in Hprev as [Hd Ha]. split; [exact Hd|].
    destruct (allow_result env (request_filename r) (Allowed (cfg b))) as [[|]|];
      try discriminate. reflexivity. }
  assert (H5 : (5 < i)%nat ->
               exists rs re fl, parseRange (Header_Get (Header r) "Content-Range")
                                = Some (rs, re, fl)).
  { intros Hlt. specialize (Hprev 5%nat ltac:(lia)). cbn in Hprev.
    destruct (parseRange (Header_Get (Header r) "Content-Range")) as [[[rs re] fl]|];
      [eauto | discriminate]. }
  assert (H6 : (6 < i)%nat ->
               forall rs re fl, parseRange (Header_Get (Header r) "Content-Range")
                                = Some (rs, re, fl) ->
               (0 <? MaxSize (cfg b)) && (MaxSize (cfg b) <? fl) = false).
  { intros Hlt rs re fl E. specialize (Hprev 6%nat ltac:(lia)). cbn in Hprev.
    rewrite E in Hprev. apply negb_true_iff in Hprev. exact Hprev. }
  assert (H7 : (7 < i)%nat ->
               exists n, Strconv.ParseUint (Header_Get (Header r) "Content-Length") = Some n).
  { intros Hlt. specialize (Hprev 7%nat ltac:(lia)). cbn in Hprev.
    destruct (Strconv.ParseUint (Header_Get (Header r) "Content-Length")); [eauto | discriminate]. }
  assert (H8 : (8 < i)%nat ->
               forall n, Strconv.ParseUint (Header_Get (Header r) "Content-Length") = Some n ->
               exists data, Body r = Some data /\ (Z.of_nat (length data) =? n) = true).
  { intros Hlt n E. specialize (Hprev 8%nat ltac:(lia)). cbn in Hprev. rewrite E in Hprev.
    destruct (Body r) as [data|]; [eauto | discriminate]. }
  clear Hprev. unfold fragment_checks.
  destruct (Nat.eq_dec i 1%nat) as [->|Hn1].
  { cbn in Hfail. rewrite Hfail. rewrite orb_true_r. reflexivity. }
  rewrite (H1 ltac:(lia)), (isValidUUID_nonempty _ (H1 ltac:(lia))). cbn [negb orb].
  destruct (Nat.eq_dec i 2%nat) as [->|Hn2].
  { cbn in Hfail. destruct (fs w !! session_dir b uuid) as [[|c]|] eqn:E; try discriminate.
    - exfalso. exact (Hslot c E).
    - reflexivity. }
  rewrite (H2 ltac:(lia)).
  destruct (Nat.eq_dec i 3%nat) as [->|Hn3].
  { cbn in Hfail. apply negb_false_iff in Hfail. rewrite Hfail. reflexivity. }
  rewrite (H3 ltac:(lia)).
  destruct (Nat.eq_dec i 4%nat) as [->|Hn4].
  { cbn in Hfail. destruct (deny_pass env (request_filename r) (Disallowed (cfg b))); [|reflexivity].
    cbn [negb]. destruct (allow_result env (request_filename r) (Allowed (cfg b))) as [[|]|];
      try discriminate; reflexivity. }
  destruct (H4 ltac:(lia)) as [Hd Ha]. rewrite Hd, Ha. cbn [negb].
  destruct (Nat.eq_dec i 5%nat) as [->|Hn5].
  { cbn in Hfail. destruct (parseRange (Header_Get (Header r) "Content-Range")); 
      [discriminate | reflexivity]. }
  destruct (H5 ltac:(lia)) as (rs & re & fl & Er). rewrite Er.
  destruct (Nat.eq_dec i 6%nat) as [->|Hn6].
  { cbn in Hfail. rewrite Er in Hfail. apply negb_false_iff in Hfail. rewrite Hfail. reflexivity. }
  rewrite (H6 ltac:(lia) _ _ _ Er).
  destruct (Nat.eq_dec i 7%nat) as [->|Hn7].
  { cbn in Hfail. destruct (Strconv.ParseUint (Header_Get (Header r) "Content-Length"));
      [discriminate | reflexivity]. }
  destruct (H7 ltac:(lia)) as (n & En). rewrite En.
  destruct (Nat.eq_dec i 8%nat) as [->|Hn8].
  { cbn in Hfail. rewrite En in Hfail. destruct (Body r) as [data|]; [|reflexivity].
    rewrite Hfail. reflexivity. }
  destruct (H8 ltac:(lia) _ En) as (data & Eb & El). rewrite Eb, El. cbn [negb].
  assert (i = 9%nat) as -> by lia.
  cbn in Hfail. rewrite Er, En in Hfail. rewrite Hfail. reflexivity.
Qed.


(** ** One fragment request, summed up *)

Lemma ack_value_error (pre : HeaderMap) (id : string) (s : Z) :
  s <> StatusOK -> ack_value (error_reply pre id s) = None.
Proof.
  intros H. unfold ack_value. cbn [rw_status error_reply].
  destruct (decide (Some s = Some StatusOK)) as [E|_]; [|reflexivity].
  injection E as E. contradiction.
Qed.

Lemma ack_value_ack (id : string) (v : Z) :
  0 <= v < u64_mod -> ack_value (ack_reply id v) = Some v.
Proof.
  intros H. unfold ack_value. cbn [rw_status ack_reply].
  destruct (decide (Some StatusOK = Some StatusOK)) as [_|E]; [|contradiction].
  cbn. apply ParseUint_FormatUint, H.
Qed.

Lemma receive_count_app (src : string) (l1 l2 : list Action) :
  receive_count src (l1 ++ l2) = (receive_count src l1 + receive_count src l2)%nat.
Proof. unfold receive_count. rewrite List.filter_app, length_app. reflexivity. Qed.

Lemma bitsFragment_end env b r uuid w :
  fragment_end env b r uuid w (outcome (bitsFragment env b r uuid) w)
    (response (bitsFragment env b r uuid) w) (world_after (bitsFragment env b r uuid) w).
Proof.
  rewrite run_outcome, run_response, run_world_after, bitsFragment_run.
  unfold fragment_result.
  destruct (fragment_checks env b (fs w) r uuid) as [[id s]|c] eqn:Hc.
  { cbn [fst snd]. apply (end_rejected env b r uuid w id s [ASend s]).
    - apply fragment_checks_inl in Hc. unfold StatusOK, StatusBadRequest,
        StatusRequestEntityTooLarge, StatusInternalServerError in *. lia.
    - reflexivity. }
  destruct (fragment_verdict_cases env (fs w) c)
    as [(s & o & Hv & Hs & _)|(_ & _ & _ & _ & Hv)]; rewrite Hv.
  { cbn [settle fst snd].
    apply (end_rejected env b r uuid w uuid s
             (ASend s :: if o then [AClose (c_src c)] else [])).
    - unfold StatusOK, StatusBadRequest, StatusInternalServerError in *. lia.
    - destruct o; reflexivity. }
  destruct (store_verdict_cases env c (size_at (fs w) (c_src c))
              (match fs w !! c_src c with None => true | _ => false end))
    as [[Hr Hcond]|[(Hr & Hin & _)|(Hr & Hin & _)]]; rewrite Hr; cbn [settle fst snd].
  - apply end_refused; [exact Hc | exact Hcond |].
    destruct (fs w !! c_src c); [discriminate | reflexivity].
  - apply end_short; [exact Hc | exact Hin | reflexivity].
  - apply end_accepted; [exact Hc | exact Hin | reflexivity].
Qed.

Lemma receive_count_quiet (src : string) (t : list Action) :
  forallb is_quiet t = true -> receive_count src t = 0%nat.
Proof.
  unfold receive_count. induction t as [|a t IH]; [reflexivity|].
  cbn [forallb]. intros H. apply andb_prop in H as [Ha Ht].
  cbn [List.filter]. destruct a; try discriminate; cbn; apply IH, Ht.
Qed.

Lemma size_at_nonneg (m : gmap string Node) (p : string) : 0 <= size_at m p.
Proof. unfold size_at. lia. Qed.

Lemma size_at_None (m : gmap string Node) (p : string) : m !! p = None -> size_at m p = 0.
Proof. intros H. unfold size_at. rewrite content_at_None by exact H. reflexivity. Qed.

Lemma String_eqb_refl (s : string) : String.eqb s s = true.
Proof. apply String.eqb_refl. Qed.

(** One fragment request for the upload file at [src], of total length
    [fl]: the trace grows, the file does not shrink, a success
    acknowledgement carries the new size of the file, which is beyond the
    former size and within [fl], and the callback is called for the received
    file exactly when that value is [fl]. *)
Lemma fragment_step_summary env b r uuid w src fl :
  targets b uuid src fl (env, r) ->
  let resp := response (bitsFragment env b r uuid) w in
  let w1 := world_after (bitsFragment env b r uuid) w in
  exists t,
    trace w1 = trace w ++ t
    /\ size_at (fs w) src <= size_at (fs w1) src
    /\ match ack_value resp with
       | Some v =>
           size_at (fs w) src < v /\ v <= fl /\ v = size_at (fs w1) src
           /\ receive_count src t = (if callback b && (v =? fl)%Z then 1 else 0)%nat
       | None => receive_count src t = 0%nat
       end.
Proof.
  intros [Hsrc Hfl] resp w1. subst resp w1. cbn [fst snd] in Hsrc, Hfl.
  destruct (bitsFragment_end env b r uuid w) as [id s t Hs Hq|c created Hc Hcond Hcr|c chunk q Hc Hin Hch|c chunk Hc Hin Hch].
  - exists t. cbn [fs trace]. split; [reflexivity|]. split; [lia|].
    rewrite ack_value_error by exact Hs. apply receive_count_quiet, Hq.
  - destruct (fragment_checks_inr _ _ _ _ _ _ Hc) as (_ & Hp & _).
    rewrite Hsrc in Hp.
    eexists. cbn [fs trace]. split; [reflexivity|]. split.
    + destruct created; [|lia]. rewrite Hp in *. rewrite size_at_insert, (size_at_None _ _ Hcr).
      cbn. lia.
    + rewrite ack_value_error by discriminate. reflexivity.
  - destruct (fragment_checks_inr _ _ _ _ _ _ Hc) as (_ & Hp & _).
    rewrite Hsrc in Hp.
    eexists. cbn [fs trace]. split; [reflexivity|]. split.
    + rewrite Hp. rewrite size_at_insert, length_app. unfold size_at. lia.
    + rewrite ack_value_error by discriminate. reflexivity.
  - destruct (fragment_checks_inr _ _ _ _ _ _ Hc) as (Hok & Hp & Hr & _).
    rewrite Hsrc in Hp. specialize (Hfl _ _ _ Hr).
    destruct Hok as (H0 & H1 & H2 & H3 & H4 & H5).
    rewrite Hp in *.
    assert (Hlen : Z.of_nat (length chunk) = c_rangeEnd c + 1 - size_at (fs w) src).
    { subst chunk. rewrite length_drop. lia. }
    eexists. cbn [fs trace]. split; [reflexivity|]. split.
    + rewrite size_at_insert, length_app. unfold size_at. lia.
    + rewrite ack_value_ack by (unfold u64_mod in *; lia).
      rewrite size_at_insert, length_app. 
      split; [lia|]. split; [lia|]. split; [unfold size_at; lia|].
      rewrite !receive_count_app.
      replace (size_at (fs w) src + Z.of_nat (length chunk)) with (c_rangeEnd c + 1) by lia.
      rewrite Hfl.
      destruct (c_rangeEnd c + 1 =? fl); destruct (callback b); cbn; 
        rewrite ?String_eqb_refl; reflexivity.
Qed.

(** ** A series of fragment requests for one file *)

Lemma existsb_acks_In (fl : Z) (resps : list ResponseWriter) :
  existsb (acks fl) resps = true -> In fl (ack_values resps).
Proof.
  induction resps as [|resp resps IH]; [discriminate|].
  cbn [existsb ack_values]. unfold acks at 1. destruct (ack_value resp) as [v|].
  - destruct (Z.eqb_spec v fl) as [->|_]; cbn [orb]; [left; reflexivity|].
    intros H. right. apply IH, H.
  - cbn [orb]. exact IH.
Qed.

Lemma run_fragments_summary (b : Handler) (uuid src : string) (fl : Z)
    (steps : list (Env * Request)) :
  forall w,
  Forall (targets b uuid src fl) steps ->
  exists t,
    trace (run_fragments b uuid steps w).2 = trace w ++ t
    /\ size_at (fs w) src <= size_at (fs (run_fragments b uuid steps w).2) src
    /\ Forall (fun v => size_at (fs w) src < v <= fl)
         (ack_values (run_fragments b uuid steps w).1)
    /\ StronglySorted Z.le (ack_values (run_fragments b uuid steps w).1)
    /\ receive_count src t
       = (if callback b && existsb (acks fl) (run_fragments b uuid steps w).1
          then 1 else 0)%nat.
Proof.
  induction steps as [|[env r] rest IH]; intros w Hall.
  - exists []. cbn. rewrite app_nil_r, andb_false_r.
    repeat split; try lia; constructor.
  - inversion Hall as [|? ? Hstep Hrest]; subst.
    cbn [run_fragments].
    destruct (fragment_step_summary env b r uuid w src fl Hstep) as (t0 & Ht0 & Hmono & Hack).
    set (w1 := world_after (bitsFragment env b r uuid) w) in *.
    set (resp := response (bitsFragment env b r uuid) w) in *.
    destruct (IH w1 Hrest) as (t1 & Ht1 & Hmono1 & Hbound & Hsorted & Hcount).
    destruct (run_fragments b uuid rest w1) as [resps w'] eqn:Erun.
    cbn [fst snd] in *.
    exists (t0 ++ t1). split; [rewrite Ht1, Ht0, app_assoc; reflexivity|].
    split; [lia|].
    rewrite receive_count_app, Hcount.
    cbn [ack_values existsb]. unfold acks at 2.
    destruct (ack_value resp) as [v|].
    + destruct Hack as (Hlt & Hle & Hv & Hrc). 
      repeat split.
      * constructor; [cbn beta; lia|]. eapply Forall_impl; [exact Hbound|]. cbn beta. intros; lia.
      * constructor; [exact Hsorted|]. eapply Forall_impl; [exact Hbound|]. cbn beta. intros; lia.
      * rewrite Hrc. destruct (Z.eqb_spec v fl) as [->|Hne].
        -- assert (Hnone : existsb (acks fl) resps = false).
           { destruct (existsb (acks fl) resps) eqn:E; [|reflexivity].
             apply existsb_acks_In in E. rewrite List.Forall_forall in Hbound.
             specialize (Hbound _ E). cbn beta in Hbound. lia. }
           rewrite Hnone, orb_true_l, !andb_true_r, andb_false_r. 
           destruct (callback b); reflexivity.
        -- rewrite orb_false_l, andb_false_r. reflexivity.
    +  repeat split.
      * eapply Forall_impl; [exact Hbound|]. cbn beta. intros; lia.
      * exact Hsorted.
      * rewrite Hack, orb_false_l. reflexivity.
Qed.

Lemma quiet_no_write (t : list Action) (p : string) (d : bytes) :
  forallb is_quiet t = true -> ~ In (AWrite p d) t.
Proof.
  intros H Hin. rewrite forallb_forall in H. specialize (H _ Hin). discriminate H.
Qed.


(** ** The fragment writer *)

(** C1. A Fragment request that passes the nine preconditions, whose system
    calls succeed, and whose range is neither stale nor gapped, is answered
    200; exactly the suffix [data[fileSize - rangeStart:]] of the body is
    appended to the file, and BITS-Received-Content-Range carries the size
    of the file after the write, the former size plus the bytes written. *)
Theorem fragment_appends_suffix_and_acks_size
    (env : Env) (b : Handler) (r : Request) (uuid : string) (w : World)
    (rs re fl : Z) (data : bytes) :
  let src := upload_path env (session_dir b uuid) (request_filename r) in
  let fileSize := size_at (fs w) src in
  let chunk := drop (Z.to_nat (fileSize - rs)) data in
  preconditions_hold env b w r uuid = true ->
  parseRange (Header_Get (Header r) "Content-Range") = Some (rs, re, fl) ->
  Body r = Some data ->
  io_succeeds env (fs w) src chunk = true ->
  ~ re < fileSize ->
  ~ fileSize < rs ->
  let resp := response (bitsFragment env b r uuid) w in
  let w' := world_after (bitsFragment env b r uuid) w in
  rw_status resp = Some StatusOK
  /\ slice_from data (fileSize - rs) = Some chunk
  /\ fs w' = <[src := File (content_at (fs w) src ++ chunk)]> (fs w)
  /\ size_at (fs w') src = fileSize + Z.of_nat (length chunk)
  /\ Header_lookup (rw_header resp) "BITS-Received-Content-Range"
     = Some (Strconv.FormatUint (size_at (fs w') src)).
Proof.
  intros src fileSize chunk Hpre Hrange Hbody Hio Hstale Hgap resp w'.
  subst resp w'. rewrite run_response, run_world_after, bitsFragment_run.
  unfold fragment_result.
  destruct (preconditions_checks _ _ _ _ _ Hpre) as [c Hc]. rewrite Hc.
  destruct (fragment_checks_inr _ _ _ _ _ _ Hc) as (Hok & Hsrc & Hr & Hb & _).
  rewrite Hrange in Hr. injection Hr as Hrs Hre Hfl. rewrite Hbody in Hb. injection Hb as Hdata.
  fold src in Hsrc.
  unfold io_succeeds in Hio.
  apply andb_prop in Hio as [Hio Hnode]. apply andb_prop in Hio as [Hio Hwrite].
  apply andb_prop in Hio as [Hio Hfstat]. apply andb_prop in Hio as [Hstat Hopen].
  apply negb_true_iff in Hstat, Hopen, Hfstat, Hwrite.
  destruct (fragment_verdict_cases env (fs w) c) as [(s & o & _ & _ & Hbad)|(_ & _ & _ & _ & Hv)].
  { rewrite Hsrc in Hbad. destruct Hbad as [Hbad|[Hbad|[Hbad|Hbad]]]; try congruence.
    rewrite Hbad in Hnode. discriminate. }
  rewrite Hv. rewrite Hsrc. fold fileSize.
  destruct (store_verdict_cases env c fileSize
              (match fs w !! src with None => true | _ => false end))
    as [[_ Hbad]|[(_ & _ & Hbad)|(Hacc & Hin & _)]].
  { lia. }
  { rewrite <- Hrs, <- Hdata in Hbad. fold chunk in Hbad. apply Nat.ltb_ge in Hwrite. lia. }
  rewrite Hacc. rewrite <- Hrs, <- Hdata. fold chunk. unfold settle. rewrite Hsrc. cbn [fst snd fs rw_status ack_reply rw_header].
  destruct Hok as (H0' & H1' & H2' & H3' & H4' & H5').
  repeat split.
  - unfold slice_from.
    destruct (Z.leb_spec (fileSize - rs) (Z.of_nat (length data))); [reflexivity|].
    rewrite Hdata, Hrs in *. lia.
  - rewrite size_at_insert, length_app. unfold fileSize, size_at. lia.
  - rewrite size_at_insert, length_app. unfold fileSize, size_at.
    rewrite Nat2Z.inj_add. reflexivity.
Qed.

(** The hypotheses of C1 at a fragment that overlaps the bytes on disk. *)
Lemma fragment_appends_suffix_and_acks_size_witness :
  let src := Sample.file in
  let r := Sample.fragment_overlap in
  let resp := response (bitsFragment Sample.env Sample.handler r Sample.sid) Sample.world1 in
  let w' := world_after (bitsFragment Sample.env Sample.handler r Sample.sid) Sample.world1 in
  rw_status resp = Some StatusOK
  /\ content_at (fs w') src = list_byte_of_string "HelloWorld"
  /\ Header_lookup (rw_header resp) "BITS-Received-Content-Range" = Some "10".
Proof.
  pose proof (fragment_appends_suffix_and_acks_size Sample.env Sample.handler
                Sample.fragment_overlap Sample.sid Sample.world1 3 9 10
                (list_byte_of_string "loWorld")) as H.
  cbv zeta in H.
  destruct H as (H1 & H2 & H3 & H4 & H5).
  - vm_compute. reflexivity.
  - vm_compute. reflexivity.
  - reflexivity.
  - vm_compute. reflexivity.
  - vm_compute. intros H. discriminate H.
  - vm_compute. intros H. discriminate H.
  - cbv zeta. split; [exact H1|]. split.
    + rewrite H3. vm_compute. reflexivity.
    + rewrite H5, H4. vm_compute. reflexivity.
Defined.

(** C2. The replay of the first fragment after the upload of the sample file
    is complete: the reply is 416 and the file is untouched, but the size on
    disk travels under the header name BITS-Recieved-Content-Range; the reply
    has no BITS-Received-Content-Range header. *)
Theorem replay_reply_misspells_received_header :
  let resp := response (ServeHTTP Sample.env Sample.handler Sample.fragment1) Sample.world2 in
  let w' := world_after (ServeHTTP Sample.env Sample.handler Sample.fragment1) Sample.world2 in
  size_at (fs Sample.world2) Sample.file = 10
  /\ rw_status resp = Some StatusRequestedRangeNotSatisfiable
  /\ Header_lookup (rw_header resp) "BITS-Received-Content-Range" = None
  /\ Header_lookup (rw_header resp) "BITS-Recieved-Content-Range" = Some "10"
  /\ fs w' = fs Sample.world2.
Proof.
  cbv zeta. repeat split; vm_compute; reflexivity.
Qed.

(** Every stale or gapped fragment is refused in this way: status 416, no
    byte written, the size on disk under the misspelt header name. *)
Lemma range_refused env b r uuid w c :
  let src := c_src c in
  let fileSize := size_at (fs w) src in
  fragment_checks env b (fs w) r uuid = inr c ->
  io_succeeds env (fs w) src [] = true ->
  c_rangeEnd c < fileSize \/ fileSize < c_rangeStart c ->
  let resp := response (bitsFragment env b r uuid) w in
  let w' := world_after (bitsFragment env b r uuid) w in
  rw_status resp = Some StatusRequestedRangeNotSatisfiable
  /\ Header_lookup (rw_header resp) "BITS-Recieved-Content-Range"
     = Some (Strconv.FormatUint fileSize)
  /\ Header_lookup (rw_header resp) "BITS-Received-Content-Range" = None
  /\ content_at (fs w') src = content_at (fs w) src
  /\ (forall p d, ~ In (AWrite p d) (new_actions (bitsFragment env b r uuid) w)).
Proof.
  intros src fileSize Hc Hio Hrange resp w'. subst resp w'.
  unfold new_actions. rewrite run_response, run_world_after, bitsFragment_run.
  unfold fragment_result. rewrite Hc.
  unfold io_succeeds in Hio.
  apply andb_prop in Hio as [Hio Hnode]. apply andb_prop in Hio as [Hio _].
  apply andb_prop in Hio as [Hio Hfstat]. apply andb_prop in Hio as [Hstat Hopen].
  apply negb_true_iff in Hstat, Hopen, Hfstat.
  destruct (fragment_verdict_cases env (fs w) c) as [(s & o & _ & _ & Hbad)|(_ & _ & _ & _ & Hv)].
  { fold src in Hbad. destruct Hbad as [Hbad|[Hbad|[Hbad|Hbad]]]; try congruence.
    rewrite Hbad in Hnode. discriminate. }
  rewrite Hv. fold src fileSize.
  destruct (store_verdict_cases env c fileSize
              (match fs w !! src with None => true | _ => false end))
    as [[Hr _]|[(_ & Hbad & _)|(_ & Hbad & _)]]; try lia.
  rewrite Hr. unfold settle. fold src. cbn [fst snd rw_status error_reply rw_header fs trace].
  repeat split.
  - destruct (fs w !! src) as [n|] eqn:E; [reflexivity|].
    rewrite content_at_insert. symmetry. apply content_at_None, E.
  - intros p d. rewrite drop_app_length. cbn. intros [H|[H|[]]]; discriminate H.
Qed.

(** C3. The nine preconditions of a Fragment request are checked in the
    order of the list, and the first one that fails decides the reply: an
    error acknowledgement with status 400, or 413 when it is the bound on
    the file length; nothing is written. (The session path is assumed not to
    hold a regular file.) *)
Theorem first_failed_precondition_decides
    (env : Env) (b : Handler) (r : Request) (uuid : string) (w : World) (i : nat) :
  session_slot_ok b w uuid ->
  (1 <= i <= 9)%nat ->
  (forall j, (1 <= j < i)%nat -> precondition env b w r uuid j = true) ->
  precondition env b w r uuid i = false ->
  let resp := response (bitsFragment env b r uuid) w in
  rw_status resp
  = Some (if (i =? 6)%nat then StatusRequestEntityTooLarge else StatusBadRequest)
  /\ bits_error_ack resp
  /\ fs (world_after (bitsFragment env b r uuid) w) = fs w.
Proof.
  intros Hslot Hi Hprev Hfail resp. subst resp.
  rewrite run_response, run_world_after, bitsFragment_run. unfold fragment_result.
  rewrite (first_failure_checks env b w r uuid i Hslot Hi Hprev Hfail).
  cbn [fst snd rw_status error_reply]. split; [reflexivity|]. split; [|reflexivity].
  unfold bits_error_ack. cbn. repeat split; eauto.
Qed.

(** The hypotheses of C3 at an oversize upload: the first five preconditions
    hold and the sixth fails. *)
Lemma first_failed_precondition_decides_witness :
  rw_status (response (bitsFragment Sample.env Sample.bounded_handler Sample.oversize Sample.sid)
               Sample.world0)
  = Some StatusRequestEntityTooLarge.
Proof.
  refine (proj1 (first_failed_precondition_decides Sample.env Sample.bounded_handler
                   Sample.oversize Sample.sid Sample.world0 6 _ _ _ _)).
  - intros c. vm_compute. intros H. discriminate H.
  - lia.
  - intros j Hj. destruct j as [|[|[|[|[|[|j]]]]]]; try lia; vm_compute; reflexivity.
  - vm_compute. reflexivity.
Defined.

(** C4. An accepted fragment that ends the file ([rangeEnd + 1 =
    fileLength]) closes the file and calls the callback with
    [EventRecieveFile], the session id and the path of the file, before the
    acknowledgement is sent; an accepted fragment that does not end the file
    calls no callback. Over a series of fragment requests for one file of a
    given total length, the callback for the received file is called exactly
    once if some acknowledgement reaches the total length, and not at all
    otherwise. (A handler without callback calls none.) *)
Theorem receive_event_once_on_completion (b : Handler) (uuid src : string) (fl : Z) :
  (forall env r w rs re,
      upload_path env (session_dir b uuid) (request_filename r) = src ->
      parseRange (Header_Get (Header r) "Content-Range") = Some (rs, re, fl) ->
      rw_status (response (bitsFragment env b r uuid) w) = Some StatusOK ->
      exists chunk,
        new_actions (bitsFragment env b r uuid) w
        = [AWrite src chunk]
          ++ (if re + 1 =? fl
              then AClose src
                   :: (if callback b then [ACallback EventRecieveFile uuid src] else [])
              else [])
          ++ [ASend StatusOK; AClose src])
  /\ (forall steps w,
         Forall (targets b uuid src fl) steps ->
         receive_count src (drop (length (trace w)) (trace (run_fragments b uuid steps w).2))
         = (if callback b && existsb (acks fl) (run_fragments b uuid steps w).1
            then 1 else 0)%nat).
Proof.
  split.
  - intros env r w rs re Hsrc Hrange Hstatus. unfold new_actions.
    pose proof (bitsFragment_end env b r uuid w) as He. revert Hstatus.
    destruct He as [id s t Hs Hq|c created Hc Hcond Hcr|c chunk q Hc Hin Hch|c chunk Hc Hin Hch];
      cbn [rw_status error_reply]; intros Hstatus.
    + injection Hstatus as E. contradiction.
    + discriminate Hstatus.
    + discriminate Hstatus.
    + destruct (fragment_checks_inr _ _ _ _ _ _ Hc) as (_ & Hp & Hr & _).
      rewrite Hrange in Hr. injection Hr as Hrs Hre Hfl. rewrite Hsrc in Hp.
      exists chunk. cbn [trace]. rewrite drop_app_length. rewrite Hp, <- Hre, <- Hfl. reflexivity.
  - intros steps w Hall.
    destruct (run_fragments_summary b uuid src fl steps w Hall) as (t & Ht & _ & _ & _ & Hc).
    rewrite Ht, drop_app_length. exact Hc.
Qed.

(** C9. A success acknowledgement of a fragment carries a value that is at
    least the size of the file before the request and at most the total
    length, and is the size of the file afterwards; over a series of
    fragment requests for one file, the values of the success
    acknowledgements never decrease and stay within the total length. *)
Theorem ack_values_monotone_and_bounded (b : Handler) (uuid src : string) (fl : Z) :
  (forall env r w v,
      targets b uuid src fl (env, r) ->
      ack_value (response (bitsFragment env b r uuid) w) = Some v ->
      size_at (fs w) src <= v /\ v <= fl
      /\ v = size_at (fs (world_after (bitsFragment env b r uuid) w)) src)
  /\ (forall steps w,
         Forall (targets b uuid src fl) steps ->
         StronglySorted Z.le (ack_values (run_fragments b uuid steps w).1)
         /\ Forall (fun v => v <= fl) (ack_values (run_fragments b uuid steps w).1)).
Proof.
  split.
  - intros env r w v Ht Hv.
    destruct (fragment_step_summary env b r uuid w src fl Ht) as (t & _ & _ & Hack).
    rewrite Hv in Hack. lia.
  - intros steps w Hall.
    destruct (run_fragments_summary b uuid src fl steps w Hall) as (t & _ & _ & Hb & Hs & _).
    split; [exact Hs|]. eapply Forall_impl; [exact Hb|]. cbn beta. intros; lia.
Qed.

(** C10. [bitsFragment] never panics: whenever it reaches the write, the
    offset [fileSize - rangeStart] has not wrapped around and lies strictly
    below the length of the body, so that [data[dataOffset:]] is in bounds
    and the bytes handed to [file.Write] are a non-empty suffix of the
    body. *)
Theorem fragment_slice_in_bounds
    (env : Env) (b : Handler) (r : Request) (uuid : string) (w : World) :
  outcome (bitsFragment env b r uuid) w <> Panicked
  /\ forall p d,
       In (AWrite p d) (new_actions (bitsFragment env b r uuid) w) ->
       exists rs re fl data,
         parseRange (Header_Get (Header r) "Content-Range") = Some (rs, re, fl)
         /\ Body r = Some data
         /\ Z.of_nat (length data) = re - rs + 1
         /\ rs <= size_at (fs w) p <= re
         /\ u64 (size_at (fs w) p - rs) = size_at (fs w) p - rs
         /\ size_at (fs w) p - rs < Z.of_nat (length data)
         /\ slice_from data (u64 (size_at (fs w) p - rs)) = Some d
         /\ d <> [].
Proof.
  unfold new_actions.
  destruct (bitsFragment_end env b r uuid w) as [id s t Hs Hq|c created Hc Hcond Hcr|c chunk q Hc Hin Hch|c chunk Hc Hin Hch];
    (split; [discriminate|]); cbn [trace]; rewrite drop_app_length; intros p d Hw.
  - exfalso. exact (quiet_no_write _ _ _ Hq Hw).
  - exfalso. destruct Hw as [H|[H|[]]]; discriminate H.
  - destruct Hw as [H|[H|[H|[]]]]; try discriminate H. injection H as <- <-.
    destruct (fragment_checks_inr _ _ _ _ _ _ Hc) as ((H0 & H1 & H2 & H3 & H4 & H5) & _ & Hr & Hb & _).
    exists (c_rangeStart c), (c_rangeEnd c), (c_fileLength c), (c_data c).
    assert (Hu : u64 (size_at (fs w) (c_src c) - c_rangeStart c)
                 = size_at (fs w) (c_src c) - c_rangeStart c).
    { apply u64_small. unfold u64_mod in *. lia. }
    repeat split; try assumption; try lia.
    + rewrite Hch. apply slice_from_in_range; unfold u64_mod in *; lia.
    + intros E. apply (f_equal (@length _)) in E. rewrite Hch, length_drop in E. cbn in E. lia.
  - apply in_app_or in Hw. destruct Hw as [[H|[]]|Hw].
    2:{ exfalso. apply in_app_or in Hw. destruct Hw as [Hw|[H|[H|[]]]]; try discriminate H.
        destruct (c_rangeEnd c + 1 =? c_fileLength c); [|destruct Hw].
        destruct Hw as [H|Hw]; [discriminate H|]. destruct (callback b); [|destruct Hw].
        destruct Hw as [H|[]]. discriminate H. }
    injection H as <- <-.
    destruct (fragment_checks_inr _ _ _ _ _ _ Hc) as ((H0 & H1 & H2 & H3 & H4 & H5) & _ & Hr & Hb & _).
    exists (c_rangeStart c), (c_rangeEnd c), (c_fileLength c), (c_data c).
    assert (Hu : u64 (size_at (fs w) (c_src c) - c_rangeStart c)
                 = size_at (fs w) (c_src c) - c_rangeStart c).
    { apply u64_small. unfold u64_mod in *. lia. }
    repeat split; try assumption; try lia.
    + rewrite Hch. apply slice_from_in_range; unfold u64_mod in *; lia.
    + intros E. apply (f_equal (@length _)) in E. rewrite Hch, length_drop in E. cbn in E. lia.
Qed.

(** The hypotheses of C4 at the upload of the sample file in two fragments:
    the callback for the received file is called once. *)
Lemma receive_event_once_on_completion_witness :
  receive_count Sample.file
    (drop (length (trace Sample.world0))
       (trace (run_fragments Sample.handler Sample.sid Sample.upload Sample.world0).2))
  = 1%nat.
Proof.
  rewrite (proj2 (receive_event_once_on_completion Sample.handler Sample.sid Sample.file 10)
             Sample.upload Sample.world0).
  - vm_compute. reflexivity.
  - repeat constructor; try (vm_compute; reflexivity);
      intros rs re fl; vm_compute; intros H; injection H as _ _ <-; reflexivity.
Defined.

(** The hypotheses of C9 at the same upload: the acknowledgements carry 5,
    then 10. *)
Lemma ack_values_monotone_and_bounded_witness :
  ack_values (run_fragments Sample.handler Sample.sid Sample.upload Sample.world0).1 = [5; 10]
  /\ StronglySorted Z.le
       (ack_values (run_fragments Sample.handler Sample.sid Sample.upload Sample.world0).1).
Proof.
  split; [vm_compute; reflexivity|].
  refine (proj1 (proj2 (ack_values_monotone_and_bounded Sample.handler Sample.sid Sample.file 10)
                   Sample.upload Sample.world0 _)).
  repeat constructor; try (vm_compute; reflexivity);
    intros rs re fl; vm_compute; intros H; injection H as _ _ <-; reflexivity.
Defined.


(** The hypothesis of C10 at a fragment that overlaps the bytes on disk: the
    write takes place, and what is written is not empty. *)
Lemma fragment_slice_in_bounds_witness :
  exists d,
    In (AWrite Sample.file d)
      (new_actions (bitsFragment Sample.env Sample.handler Sample.fragment_overlap Sample.sid)
         Sample.world1)
    /\ d <> [].
Proof.
  exists (list_byte_of_string "World").
  assert (Hin : In (AWrite Sample.file (list_byte_of_string "World"))
                  (new_actions (bitsFragment Sample.env Sample.handler Sample.fragment_overlap
                                  Sample.sid) Sample.world1)).
  { vm_compute. left. reflexivity. }
  split; [exact Hin|].
  destruct (proj2 (fragment_slice_in_bounds Sample.env Sample.handler Sample.fragment_overlap
                     Sample.sid Sample.world1) _ _ Hin)
    as (rs & re & fl & data & _ & _ & _ & _ & _ & _ & _ & Hne).
  exact Hne.
Defined.

(** ** Create-Session *)

Lemma Split_nonempty (s : string) (sep : ascii) : GoStrings.Split s sep <> [].
Proof.
  destruct s as [|c s]; cbn; [discriminate|].
  destruct (Ascii.eqb c sep); [discriminate|].
  destruct (GoStrings.Split s sep); discriminate.
Qed.

Lemma select_protocol_spec (b : Handler) (ps : list string) :
  forall cur,
  ps <> [] ->
  (select_protocol b cur ps = Protocol (cfg b) <-> In (Protocol (cfg b)) ps).
Proof.
  induction ps as [|p rest IH]; intros cur Hne; [contradiction|].
  cbn [select_protocol]. destruct (String.eqb_spec p (Protocol (cfg b))) as [->|Hp].
  - split; [left; reflexivity | reflexivity].
  - destruct rest as [|q rest'].
    + cbn. split; [intros E; contradiction | intros [E|[]]; contradiction].
    + rewrite (IH p) by discriminate. split; [intros H; right; exact H|].
      intros [E|H]; [contradiction | exact H].
Qed.

(** C5, as the code has it. The protocols offered are the pieces of
    BITS-Supported-Protocols between single space characters. If none of
    them equals the configured protocol the reply is BadRequest; otherwise a
    session id is minted and the session directory created, and the reply is
    200 with BITS-Packet-Type: Ack, BITS-Protocol: the configured protocol,
    BITS-Session-Id: the new id and Accept-Encoding: Identity; when the id
    cannot be minted or the directory cannot be created the reply is
    Internal (500). *)
Theorem create_session_negotiation (env : Env) (b : Handler) (r : Request) (w : World) :
  let resp := response (bitsCreate env b r) w in
  let w' := world_after (bitsCreate env b r) w in
  (~ In (Protocol (cfg b)) (offered_protocols r) ->
   resp = error_reply [] EmptyString StatusBadRequest /\ fs w' = fs w)
  /\ (In (Protocol (cfg b)) (offered_protocols r) ->
      match newUUID env with
      | None => resp = error_reply [] EmptyString StatusInternalServerError /\ fs w' = fs w
      | Some id =>
          if mkdir_ok env (fs w) (session_dir b id)
          then rw_status resp = Some StatusOK
               /\ rw_body resp = []
               /\ Header_lookup (rw_header resp) "BITS-Packet-Type" = Some "Ack"
               /\ Header_lookup (rw_header resp) "BITS-Protocol" = Some (Protocol (cfg b))
               /\ Header_lookup (rw_header resp) "BITS-Session-Id" = Some id
               /\ Header_lookup (rw_header resp) "Accept-Encoding" = Some "Identity"
               /\ fs w' !! session_dir b id = Some Dir
          else resp = error_reply [] EmptyString StatusInternalServerError /\ fs w' = fs w
      end).
Proof.
  intros resp w'. subst resp w'.
  rewrite run_response, run_world_after, bitsCreate_run. unfold create_result.
  pose proof (select_protocol_spec b (offered_protocols r) EmptyString
                (Split_nonempty _ _)) as Hsel.
  split; intros Hin.
  - destruct (String.eqb_spec (select_protocol b EmptyString (offered_protocols r)) (Protocol (cfg b)))
      as [E|_]; [apply Hsel in E; contradiction|].
    cbn. auto.
  - apply Hsel in Hin. rewrite Hin. rewrite String.eqb_refl. cbn [negb].
    destruct (newUUID env) as [id|]; [|cbn; auto].
    unfold mkdir_ok. destruct (fs w !! session_dir b id) as [[|c]|] eqn:Edir.
    + cbn. rewrite Edir. repeat split.
    + cbn. auto.
    + destruct (mkdir_fails env); cbn; [auto|].
      rewrite lookup_insert_eq. repeat split.
Qed.

(** The hypotheses of C5, as amended, at a request that offers two protocols
    separated by a space: the session is created. *)
Lemma create_session_negotiation_witness :
  let resp := response (bitsCreate Sample.env Sample.handler Sample.create_space)
                Sample.empty_world in
  rw_status resp = Some StatusOK
  /\ Header_lookup (rw_header resp) "BITS-Protocol" = Some Sample.guid
  /\ Header_lookup (rw_header resp) "BITS-Session-Id" = Some Sample.sid.
Proof.
  pose proof (proj2 (create_session_negotiation Sample.env Sample.handler Sample.create_space
                       Sample.empty_world)) as H.
  cbv zeta in H.
  assert (Hin : In (Protocol (cfg Sample.handler)) (offered_protocols Sample.create_space)).
  { vm_compute. right. left. reflexivity. }
  specialize (H Hin).
  change (newUUID Sample.env) with (Some Sample.sid) in H. cbv iota beta in H.
  change (mkdir_ok Sample.env (fs Sample.empty_world)
            (session_dir Sample.handler Sample.sid)) with true in H.
  cbv iota in H. destruct H as (H1 & _ & _ & H4 & H5 & _).
  cbv zeta. auto.
Defined.

(** C5 as stated fails when the protocols are separated by a tab: one of
    the white-space-separated tokens is the configured protocol, and the
    reply is BadRequest, not the acknowledgement of a new session. *)
Lemma create_session_tab_separated_rejected :
  let resp := response (ServeHTTP Sample.env Sample.handler Sample.create_tab)
                Sample.empty_world in
  In (Protocol (cfg Sample.handler))
    (whitespace_tokens (Header_Get (Header Sample.create_tab) "BITS-Supported-Protocols"))
  /\ rw_status resp = Some StatusBadRequest
  /\ rw_status resp <> Some StatusOK
  /\ Header_lookup (rw_header resp) "BITS-Session-Id" = Some EmptyString.
Proof.
  cbv zeta. split; [vm_compute; right; left; reflexivity|].
  split; [vm_compute; reflexivity|]. split; [vm_compute; discriminate|].
  vm_compute. reflexivity.
Qed.

(** ** The filter *)

Lemma deny_pass_match env filename regs reg :
  In reg regs -> regexp_MatchString env reg filename = Some true ->
  deny_pass env filename regs = false.
Proof.
  intros Hin Hm. unfold deny_pass.
  destruct (forallb _ regs) eqn:E; [|reflexivity].
  rewrite forallb_forall in E. specialize (E _ Hin). cbn beta in E. rewrite Hm in E.
  discriminate E.
Qed.

Lemma deny_pass_none env filename regs :
  (forall reg, In reg regs -> regexp_MatchString env reg filename = Some false) ->
  deny_pass env filename regs = true.
Proof.
  intros H. unfold deny_pass. apply forallb_forall. intros reg Hin.
  rewrite (H _ Hin). reflexivity.
Qed.

Lemma allow_result_true env filename regs :
  allow_result env filename regs = Some true ->
  exists reg, In reg regs /\ regexp_MatchString env reg filename = Some true.
Proof.
  induction regs as [|reg rest IH]; [discriminate|].
  cbn [allow_result]. destruct (regexp_MatchString env reg filename) as [[|]|] eqn:E.
  - intros _. exists reg. split; [left; reflexivity | exact E].
  - intros H. destruct (IH H) as (reg' & Hin & Hm). exists reg'. split; [right; exact Hin | exact Hm].
  - discriminate.
Qed.

(** C6, as the code has it. For a Fragment request that reaches the filter
    (well-formed session id, existing session directory, non-empty file
    name): a match of any deny pattern rejects the request whatever the
    allow list holds; when no deny pattern matches, the request is rejected
    unless an allow pattern matches; and a rejection by the filter is a
    BadRequest (400) error acknowledgement. *)
Theorem filter_deny_before_allow
    (env : Env) (b : Handler) (r : Request) (uuid : string) (w : World) :
  isValidUUID uuid = true ->
  fs w !! session_dir b uuid = Some Dir ->
  request_filename r <> EmptyString ->
  let resp := response (bitsFragment env b r uuid) w in
  ((exists reg, In reg (Disallowed (cfg b))
                /\ regexp_MatchString env reg (request_filename r) = Some true) ->
   resp = error_reply [] uuid StatusBadRequest)
  /\ ((forall reg, In reg (Disallowed (cfg b)) ->
                   regexp_MatchString env reg (request_filename r) = Some false) ->
      (forall reg, In reg (Allowed (cfg b)) ->
                   regexp_MatchString env reg (request_filename r) <> Some true) ->
      resp = error_reply [] uuid StatusBadRequest).
Proof.
  intros Hid Hdir Hname resp. subst resp.
  rewrite run_response, bitsFragment_run. unfold fragment_result, fragment_checks.
  rewrite Hid, (isValidUUID_nonempty _ Hid), Hdir. cbn [negb orb].
  destruct (String.eqb_spec (request_filename r) EmptyString) as [E|_]; [contradiction|].
  split.
  - intros (reg & Hin & Hm). rewrite (deny_pass_match _ _ _ _ Hin Hm). reflexivity.
  - intros Hdeny Hallow. rewrite (deny_pass_none _ _ _ Hdeny). cbn [negb].
    destruct (allow_result env (request_filename r) (Allowed (cfg b))) as [[|]|] eqn:E;
      try reflexivity.
    exfalso. destruct (allow_result_true _ _ _ E) as (reg & Hin & Hm).
    exact (Hallow _ Hin Hm).
Qed.

(** The hypotheses of C6, as amended, at a file name that the deny list and
    the allow list both match. *)
Lemma filter_deny_before_allow_witness :
  response (bitsFragment Sample.env Sample.handler Sample.fragment_secret Sample.sid)
    Sample.world0
  = error_reply [] Sample.sid StatusBadRequest.
Proof.
  refine (proj1 (filter_deny_before_allow Sample.env Sample.handler Sample.fragment_secret
                   Sample.sid Sample.world0 _ _ _) _).
  - vm_compute. reflexivity.
  - vm_compute. reflexivity.
  - vm_compute. discriminate.
  - exists "^secret". split; [left; reflexivity | vm_compute; reflexivity].
Defined.

(** C6 as stated fails on the kind of the error: the deny list matches the
    file name, and the reply is BadRequest (400), not Forbidden (403). *)
Lemma filter_rejection_is_not_forbidden :
  let resp := response (ServeHTTP Sample.env Sample.handler Sample.fragment_secret)
                Sample.world0 in
  regexp_MatchString Sample.env "^secret" (request_filename Sample.fragment_secret) = Some true
  /\ rw_status resp = Some StatusBadRequest
  /\ rw_status resp <> Some StatusForbidden.
Proof.
  cbv zeta. split; [vm_compute; reflexivity|]. split; [vm_compute; reflexivity|].
  vm_compute. discriminate.
Qed.

(** ** Sessions *)

Lemma new_actions_run (m : M unit) (w : World) (t : list Action) :
  trace (run m w).2 = trace w ++ t -> new_actions m w = t.
Proof.
  intros H. unfold new_actions. rewrite run_world_after, H. apply drop_app_length.
Qed.

(** C7. A Fragment, Cancel-Session or Close-Session request with a
    well-formed session id whose directory does not exist is answered
    BadRequest; nothing is written and no callback is called: the file
    system is as before and the only action is the sending of the reply.
    (The session path is assumed not to hold a regular file.) *)
Theorem missing_session_is_bad_request
    (env : Env) (b : Handler) (r : Request) (uuid : string) (w : World) (m : M unit) :
  isValidUUID uuid = true ->
  fs w !! session_dir b uuid <> Some Dir ->
  session_slot_ok b w uuid ->
  In m [bitsFragment env b r uuid; bitsCancel env b r uuid; bitsClose env b r uuid] ->
  response m w = error_reply [] uuid StatusBadRequest
  /\ fs (world_after m w) = fs w
  /\ new_actions m w = [ASend StatusBadRequest].
Proof.
  intros Hid Hnodir Hslot Hm.
  assert (Hnone : fs w !! session_dir b uuid = None).
  { destruct (fs w !! session_dir b uuid) as [[|c]|] eqn:E; [contradiction| |reflexivity].
    exfalso. exact (Hslot c E). }
  assert (Hrun : run m w = (Returned, error_reply [] uuid StatusBadRequest,
                            add_actions [ASend StatusBadRequest] w)).
  { destruct Hm as [<-|[<-|[<-|[]]]].
    - rewrite bitsFragment_run. unfold fragment_result, fragment_checks.
      rewrite Hid, (isValidUUID_nonempty _ Hid), Hnone. reflexivity.
    - rewrite bitsCancel_run. unfold session_end_result.
      rewrite Hid, (isValidUUID_nonempty _ Hid), Hnone. cbn [negb orb].
      destruct (stat_fails env (session_dir b uuid)); reflexivity.
    - rewrite bitsClose_run. unfold session_end_result.
      rewrite Hid, (isValidUUID_nonempty _ Hid), Hnone. cbn [negb orb].
      destruct (stat_fails env (session_dir b uuid)); reflexivity. }
  rewrite run_response, run_world_after. split; [rewrite Hrun; reflexivity|].
  split; [rewrite Hrun; reflexivity|].
  apply new_actions_run. rewrite Hrun. reflexivity.
Qed.

(** The hypotheses of C7 at a Close-Session request for a session that was
    never created. *)
Lemma missing_session_is_bad_request_witness :
  response (bitsClose Sample.env Sample.handler
              (Sample.session_request "Close-Session" Sample.sid) Sample.sid)
    Sample.empty_world
  = error_reply [] Sample.sid StatusBadRequest.
Proof.
  refine (proj1 (missing_session_is_bad_request Sample.env Sample.handler
                   (Sample.session_request "Close-Session" Sample.sid) Sample.sid
                   Sample.empty_world _ _ _ _ _)).
  - vm_compute. reflexivity.
  - vm_compute. discriminate.
  - intros c. vm_compute. discriminate.
  - right. right. left. reflexivity.
Defined.

(** ** Error replies *)

Lemma bits_error_ack_reply (id : string) (s : Z) : bits_error_ack (error_reply [] id s).
Proof. unfold bits_error_ack. cbn. repeat split; eauto. Qed.

Lemma bits_error_ack_range (v id : string) (s : Z) :
  bits_error_ack (error_reply (Header_Add [] "BITS-Recieved-Content-Range" v) id s).
Proof. unfold bits_error_ack. cbn. repeat split; eauto. Qed.

(** Every reply of a packet handler other than a success acknowledgement is
    an error acknowledgement. *)
Lemma serve_result_error_ack env b r w :
  String.eqb (Method r) (AllowedMethod (cfg b)) = true ->
  rw_status (serve_result env b r w).1.2 <> Some StatusOK ->
  bits_error_ack (serve_result env b r w).1.2.
Proof.
  intros Hm. unfold serve_result. rewrite Hm. cbn [negb].
  destruct (String.eqb (packet_type r) "ping"); [cbn; congruence|].
  destruct (String.eqb (packet_type r) "create-session").
  { unfold create_result.
    destruct (negb _); [intros _; apply bits_error_ack_reply|].
    destruct (newUUID env) as [id|]; [|intros _; apply bits_error_ack_reply].
    destruct (fs w !! session_dir b id) as [[|c]|]; cbn [fst snd];
      try (intros _; apply bits_error_ack_reply); try (cbn; congruence).
    destruct (mkdir_fails env); cbn [fst snd];
      [intros _; apply bits_error_ack_reply | cbn; congruence]. }
  assert (Hend : forall e id,
             rw_status (session_end_result e env b id w).1.2 <> Some StatusOK ->
             bits_error_ack (session_end_result e env b id w).1.2).
  { intros e id. unfold session_end_result.
    destruct (_ || _); [intros _; apply bits_error_ack_reply|].
    destruct (stat_fails env _); [intros _; apply bits_error_ack_reply|].
    destruct (fs w !! _); [cbn; congruence | intros _; apply bits_error_ack_reply]. }
  destruct (String.eqb (packet_type r) "cancel-session"); [apply Hend|].
  destruct (String.eqb (packet_type r) "close-session"); [apply Hend|].
  destruct (String.eqb (packet_type r) "fragment"); [|intros _; apply bits_error_ack_reply].
  rewrite <- bitsFragment_run. rewrite <- run_response.
  destruct (bitsFragment_end env b r (session_id r) w)
    as [id s t Hs Hq|c created Hc Hcond Hcr|c chunk q Hc Hin Hch|c chunk Hc Hin Hch].
  - intros _. apply bits_error_ack_reply.
  - intros _. apply bits_error_ack_range.
  - intros _. apply bits_error_ack_reply.
  - cbn. congruence.
Qed.

(** C8, as the code has it. A request whose method is not the allowed one
    is answered by [http.Error]: status 405, the plain-text body "Method not
    allowed" and a newline, and none of the BITS headers. Every other reply
    that is not a 200 acknowledgement, the BadRequest for an unknown packet
    type included, has an empty body and carries BITS-Packet-Type: Ack,
    BITS-Session-Id (possibly empty), BITS-Error-Code and
    BITS-Error-Context: 0x00000005. The packet type is the header value as
    [strings.ToLower] lowers it, so that a spelling with U+0130 or U+212A
    for an i or a k is a known packet type as well. *)
Theorem error_replies_shape (env : Env) (b : Handler) (r : Request) (w : World) :
  let resp := response (ServeHTTP env b r) w in
  (Method r <> AllowedMethod (cfg b) ->
   resp = plain_error "Method not allowed" StatusMethodNotAllowed)
  /\ (Method r = AllowedMethod (cfg b) ->
      rw_status resp <> Some StatusOK -> bits_error_ack resp)
  /\ (Method r = AllowedMethod (cfg b) ->
      ~ In (packet_type r) known_packet_types ->
      resp = error_reply [] EmptyString StatusBadRequest).
Proof.
  intros resp. subst resp. rewrite run_response, ServeHTTP_run.
  split; [|split].
  - intros Hne. unfold serve_result. apply String.eqb_neq in Hne. rewrite Hne. reflexivity.
  - intros He. apply serve_result_error_ack. rewrite He. apply String.eqb_refl.
  - intros He Hunknown. unfold serve_result. rewrite He, String.eqb_refl. cbn [negb].
    unfold known_packet_types in Hunknown. cbn [In] in Hunknown.
    repeat match goal with
           | |- context [String.eqb (packet_type r) ?s] =>
               destruct (String.eqb_spec (packet_type r) s) as [E|_];
               [exfalso; apply Hunknown; rewrite E; auto 10|]
           end.
    reflexivity.
Qed.

(** The hypotheses of C8, as amended, at a request with the allowed method
    and an unknown packet type. *)
Lemma error_replies_shape_witness :
  let resp := response (ServeHTTP Sample.env Sample.handler
                          (Sample.session_request "Resume" Sample.sid)) Sample.world0 in
  resp = error_reply [] EmptyString StatusBadRequest /\ bits_error_ack resp.
Proof.
  pose proof (error_replies_shape Sample.env Sample.handler
                (Sample.session_request "Resume" Sample.sid) Sample.world0) as H.
  cbv zeta in H. destruct H as (_ & H2 & H3).
  cbv zeta. split.
  - apply H3; [reflexivity|]. vm_compute. intros H. repeat destruct H as [H|H]; try discriminate H.
    exact H.
  - apply H2; [reflexivity|]. vm_compute. discriminate.
Defined.

(** C8 as stated fails for MethodNotAllowed: the reply to a request with
    another method has status 405, a body that is not empty, and no
    BITS-Packet-Type header; it is not an error acknowledgement. *)
Lemma method_not_allowed_is_plain_text :
  let resp := response (ServeHTTP Sample.env Sample.handler Sample.get) Sample.world0 in
  rw_status resp = Some StatusMethodNotAllowed
  /\ rw_body resp = list_byte_of_string "Method not allowed" ++ [Byte.x0a]
  /\ Header_lookup (rw_header resp) "BITS-Packet-Type" = None
  /\ ~ bits_error_ack resp.
Proof.
  cbv zeta. split; [vm_compute; reflexivity|]. split; [vm_compute; reflexivity|].
  split; [vm_compute; reflexivity|].
  intros (Hbody & _). vm_compute in Hbody. discriminate Hbody.
Qed.

(** ** Every way a fragment request can end *)

Lemma fragment_checks_too_large env b m r uuid id :
  fragment_checks env b m r uuid = inl (id, StatusRequestEntityTooLarge) ->
  0 < MaxSize (cfg b).
Proof.
  unfold fragment_checks.
  destruct (String.eqb uuid EmptyString || negb (isValidUUID uuid)); [discriminate|].
  destruct (m !! session_dir b uuid) as [[|?]|]; try discriminate.
  destruct (String.eqb (request_filename r) EmptyString); [discriminate|].
  destruct (negb (deny_pass env (request_filename r) (Disallowed (cfg b)))); [discriminate|].
  destruct (allow_result env (request_filename r) (Allowed (cfg b))) as [[|]|]; try discriminate.
  destruct (parseRange (Header_Get (Header r) "Content-Range")) as [[[rs re] fl]|];
    [|discriminate].
  destruct ((0 <? MaxSize (cfg b)) && (MaxSize (cfg b) <? fl)) eqn:E.
  { intros _. apply andb_prop in E as [E _]. apply Z.ltb_lt in E. exact E. }
  destruct (Strconv.ParseUint (Header_Get (Header r) "Content-Length")) as [n|]; [|discriminate].
  destruct (Body r) as [data|]; [|discriminate].
  destruct (negb (Z.of_nat (length data) =? n)); [discriminate|].
  destruct (negb (u64 (re - rs + 1) =? n)); discriminate.
Qed.

(** A fragment request ends in one of four ways: an error reply that
    leaves the file system alone; the refusal of the range, after which the
    file exists; a failed write; the acknowledgement. *)
Lemma fragment_result_cases env b r uuid w :
  (exists id s closes,
      fragment_result env b r uuid w
      = (Returned, error_reply [] id s,
         {| fs := fs w; trace := trace w ++ ASend s :: closes |})
      /\ In s [StatusBadRequest; StatusRequestEntityTooLarge; StatusInternalServerError]
      /\ (s = StatusRequestEntityTooLarge -> 0 < MaxSize (cfg b))
      /\ forallb is_quiet closes = true /\ List.filter is_send closes = [])
  \/ (exists c,
        fragment_checks env b (fs w) r uuid = inr c
        /\ fs w !! c_src c <> Some Dir
        /\ stat_fails env (c_src c) = false /\ open_fails env = false
        /\ (fs w !! c_src c <> None -> fstat_fails env = false)
        /\ let src := c_src c in
           let fileSize := size_at (fs w) src in
           let chunk := drop (Z.to_nat (fileSize - c_rangeStart c)) (c_data c) in
           ((c_rangeEnd c < fileSize \/ fileSize < c_rangeStart c)
            /\ fragment_result env b r uuid w
               = (Returned,
                  error_reply (Header_Add [] "BITS-Recieved-Content-Range"
                                 (Strconv.FormatUint fileSize))
                    uuid StatusRequestedRangeNotSatisfiable,
                  {| fs := match fs w !! src with
                           | None => <[src := File []]> (fs w)
                           | Some _ => fs w
                           end;
                     trace := trace w ++ [ASend StatusRequestedRangeNotSatisfiable;
                                          AClose src] |}))
           \/ (c_rangeStart c <= fileSize <= c_rangeEnd c
               /\ (length (accepted_bytes env chunk) < length chunk)%nat
               /\ fragment_result env b r uuid w
                  = (Returned, error_reply [] uuid StatusInternalServerError,
                     {| fs := <[src := File (content_at (fs w) src ++ accepted_bytes env chunk)]>
                                (fs w);
                        trace := trace w ++ [AWrite src chunk; ASend StatusInternalServerError;
                                             AClose src] |}))
           \/ (c_rangeStart c <= fileSize <= c_rangeEnd c
               /\ accepted_bytes env chunk = chunk
               /\ fragment_result env b r uuid w
                  = (Next tt, ack_reply uuid (fileSize + Z.of_nat (length chunk)),
                     {| fs := <[src := File (content_at (fs w) src ++ chunk)]> (fs w);
                        trace := trace w
                                 ++ [AWrite src chunk]
                                 ++ (if c_rangeEnd c + 1 =? c_fileLength c
                                     then AClose src
                                          :: (if callback b
                                              then [ACallback EventRecieveFile uuid src]
                                              else [])
                                     else [])
                                 ++ [ASend StatusOK; AClose src] |}))).
Proof.
  unfold fragment_result.
  destruct (fragment_checks env b (fs w) r uuid) as [[id s]|c] eqn:Hc.
  { left. exists id, s, []. split; [reflexivity|]. split.
    - destruct (fragment_checks_inl _ _ _ _ _ _ _ Hc) as [-> | [-> | ->]]; cbn; auto.
    - split; [|split; reflexivity]. intros ->. eapply fragment_checks_too_large, Hc. }
  destruct (fragment_verdict_cases env (fs w) c)
    as [(s & o & Hv & Hs & _)|(Hstat & Hopen & Hnode & Hfstat & Hv)]; rewrite Hv.
  { left. exists uuid, s, (if o then [AClose (c_src c)] else []).
    split; [reflexivity|]. split; [destruct Hs as [Hs|Hs]; rewrite Hs; cbn; auto|].
    split; [intros ->; destruct Hs as [Hs|Hs]; discriminate Hs|].
    destruct o; split; reflexivity. }
  right. exists c. do 5 (split; [first [assumption | reflexivity]|]). cbv zeta.
  destruct (store_verdict_cases env c (size_at (fs w) (c_src c))
              (match fs w !! c_src c with None => true | _ => false end))
    as [[Hr Hcond]|[(Hr & Hin & Hlt)|(Hr & Hin & Hfull)]]; rewrite Hr; cbn [settle].
  - left. split; [exact Hcond|]. destruct (fs w !! c_src c); reflexivity.
  - right; left. auto.
  - right; right. auto.
Qed.

(** ** What holds of every request *)

Lemma grows_refl (o : option Node) : grows o o.
Proof.
  destruct o as [[|c]|]; cbn; auto. exists []. rewrite app_nil_r. reflexivity.
Qed.

Lemma grows_insert_file (m : gmap string Node) (src p : string) (q : bytes) :
  m !! src <> Some Dir ->
  grows (m !! p) (<[src := File (content_at m src ++ q)]> m !! p).
Proof.
  intros Hnode. destruct (decide (src = p)) as [->|Hne].
  - rewrite lookup_insert_eq. unfold content_at.
    destruct (m !! p) as [[|c]|]; cbn; [contradiction | eauto | auto].
  - rewrite lookup_insert_ne by exact Hne. apply grows_refl.
Qed.

Lemma grows_insert_new (m : gmap string Node) (src p : string) (n : Node) :
  m !! src = None -> grows (m !! p) (<[src := n]> m !! p).
Proof.
  intros Hnone. destruct (decide (src = p)) as [->|Hne].
  - rewrite Hnone. exact I.
  - rewrite lookup_insert_ne by exact Hne. apply grows_refl.
Qed.

Lemma content_at_insert_ne (m : gmap string Node) (src p : string) (n : Node) :
  src <> p -> content_at (<[src := n]> m) p = content_at m p.
Proof. intros H. unfold content_at. rewrite lookup_insert_ne by exact H. reflexivity. Qed.

Ltac status_arith :=
  unfold StatusOK, StatusBadRequest, StatusMethodNotAllowed, StatusRequestEntityTooLarge,
    StatusRequestedRangeNotSatisfiable, StatusInternalServerError in *.

(** An error reply that leaves the file system alone. *)
Lemma summary_error (b : Handler) (w : World) (o : Outcome unit) (resp : ResponseWriter)
    (s : Z) (closes : list Action) :
  o <> Panicked -> rw_status resp = Some s ->
  In s statuses -> s <> StatusOK ->
  (s = StatusRequestEntityTooLarge -> 0 < MaxSize (cfg b)) ->
  forallb is_quiet closes = true -> List.filter is_send closes = [] ->
  request_summary b w (o, resp, {| fs := fs w; trace := trace w ++ ASend s :: closes |}).
Proof.
  intros Ho Hst Hin Hs Hmax Hq Hsend. split; [exact Ho|]. exists s, (ASend s :: closes).
  cbn [fst snd fs trace].
  assert (Hcb : callback_count (ASend s :: closes) = 0%nat).
  { unfold callback_count. cbn. clear -Hq. induction closes as [|a l IH]; [reflexivity|].
    cbn in Hq. apply andb_prop in Hq as [Ha Hl]. destruct a; try discriminate; cbn; auto. }
  assert (Hwr : write_count (ASend s :: closes) = 0%nat).
  { unfold write_count. cbn. clear -Hq. induction closes as [|a l IH]; [reflexivity|].
    cbn in Hq. apply andb_prop in Hq as [Ha Hl]. destruct a; try discriminate; cbn; auto. }
  repeat split; auto.
  - cbn. rewrite Hsend. reflexivity.
  - rewrite Hcb. lia.
  - intros p. apply grows_refl.
Qed.

Lemma summary_fragment env b r uuid w :
  request_summary b w (fragment_result env b r uuid w).
Proof.
  destruct (fragment_result_cases env b r uuid w)
    as [(id & s & closes & -> & Hin & Hmax & Hq & Hsend)
       |(c & _ & Hnode & _ & _ & _ & Hcases)].
  { apply summary_error; auto; try discriminate.
    - cbn in Hin. unfold statuses. cbn. status_arith. intuition lia.
    - cbn in Hin. status_arith. intuition lia. }
  cbv zeta in Hcases.
  destruct Hcases as [(_ & ->)|[(_ & _ & ->)|(_ & _ & ->)]].
  - split; [discriminate|].
    exists StatusRequestedRangeNotSatisfiable,
      [ASend StatusRequestedRangeNotSatisfiable; AClose (c_src c)].
    cbn [fst snd fs trace rw_status error_reply].
    repeat split; auto; try (cbn; auto 10; fail); try discriminate.
    + intros p. destruct (fs w !! c_src c) eqn:E; [apply grows_refl | apply grows_insert_new, E].
    + intros p. destruct (fs w !! c_src c) eqn:E; [reflexivity|].
      destruct (decide (c_src c = p)) as [<-|Hne].
      * rewrite content_at_insert. symmetry. apply content_at_None, E.
      * apply content_at_insert_ne, Hne.
  - split; [discriminate|].
    exists StatusInternalServerError,
      [AWrite (c_src c) (drop (Z.to_nat (size_at (fs w) (c_src c) - c_rangeStart c)) (c_data c));
       ASend StatusInternalServerError; AClose (c_src c)].
    cbn [fst snd fs trace rw_status error_reply].
    repeat split; auto; try (cbn; auto 10; fail); try discriminate;
      try (status_arith; lia).
    intros p. apply grows_insert_file, Hnode.
  - split; [discriminate|].
    eexists StatusOK, _.
    cbn [fst snd fs trace rw_status ack_reply].
    split; [reflexivity|]. split; [reflexivity|].
    destruct (c_rangeEnd c + 1 =? c_fileLength c); destruct (callback b) eqn:Ecb;
      (repeat split; auto; try (cbn; auto 10; fail); try discriminate; try contradiction;
       try (status_arith; lia); try (intros p; apply grows_insert_file, Hnode)).
Qed.

Lemma summary_reject (b : Handler) (w : World) (o : Outcome unit) (id : string) (s : Z) :
  o <> Panicked -> In s [StatusBadRequest; StatusInternalServerError] ->
  request_summary b w (o, error_reply [] id s, add_actions [ASend s] w).
Proof.
  intros Ho Hin. apply (summary_error b w o _ s []); auto.
  - cbn in Hin. unfold statuses. cbn. intuition auto.
  - cbn in Hin. status_arith. intuition lia.
  - cbn in Hin. status_arith. intuition lia.
Qed.

Lemma summary_success (b : Handler) (w : World) (resp : ResponseWriter) (m : gmap string Node)
    (calls : list Action) :
  rw_status resp = Some StatusOK ->
  (forall p, grows (fs w !! p) (m !! p)) ->
  (calls = [] \/ callback b = true /\ exists e id p, calls = [ACallback e id p]) ->
  forall o, o <> Panicked ->
  request_summary b w (o, resp, {| fs := m; trace := trace w ++ calls ++ [ASend StatusOK] |}).
Proof.
  intros Hst Hgrow Hcalls o Ho. split; [exact Ho|].
  exists StatusOK, (calls ++ [ASend StatusOK]). cbn [fst snd fs trace].
  destruct Hcalls as [->|(Hcb & e & id & p & ->)];
    (repeat split; auto; try (cbn; auto 10; fail); try contradiction; try congruence;
     try (status_arith; lia)).
Qed.

Lemma summary_create env b r w : request_summary b w (create_result env b r w).
Proof.
  unfold create_result.
  destruct (negb _); [apply summary_reject; [discriminate | left; reflexivity]|].
  destruct (newUUID env) as [id|];
    [|apply summary_reject; [discriminate | right; left; reflexivity]].
  assert (Hcalls : forall e p,
             (if callback b then [ACallback e id p] else []) = [] \/
             callback b = true /\
             exists e' id' p', (if callback b then [ACallback e id p] else [])
                               = [ACallback e' id' p']).
  { intros e p. destruct (callback b); [right; eauto 6 | left; reflexivity]. }
  destruct (fs w !! session_dir b id) as [[|c]|] eqn:Edir.
  - apply summary_success; [reflexivity | intros p; apply grows_refl | apply Hcalls | discriminate].
  - apply summary_reject; [discriminate | right; left; reflexivity].
  - destruct (mkdir_fails env);
      [apply summary_reject; [discriminate | right; left; reflexivity]|].
    apply summary_success;
      [reflexivity | intros p; apply grows_insert_new, Edir | apply Hcalls | discriminate].
Qed.

Lemma summary_session_end e env b uuid w :
  request_summary b w (session_end_result e env b uuid w).
Proof.
  unfold session_end_result.
  destruct (_ || _); [apply summary_reject; [discriminate | left; reflexivity]|].
  destruct (stat_fails env _); [apply summary_reject; [discriminate | left; reflexivity]|].
  destruct (fs w !! _); [|apply summary_reject; [discriminate | left; reflexivity]].
  unfold add_actions. apply summary_success;
    [reflexivity | intros p; apply grows_refl | | discriminate].
  destruct (callback b); [right; eauto 6 | left; reflexivity].
Qed.

Lemma summary_serve env b r w : request_summary b w (run (ServeHTTP env b r) w).
Proof.
  rewrite ServeHTTP_run. unfold serve_result.
  destruct (negb _).
  { apply (summary_error b w _ _ StatusMethodNotAllowed []); auto; try discriminate.
    unfold statuses. cbn. auto. }
  destruct (String.eqb (packet_type r) "ping").
  { apply (summary_success b w ping_ack (fs w) []);
      [reflexivity | intros p; apply grows_refl | left; reflexivity | discriminate]. }
  destruct (String.eqb (packet_type r) "create-session"); [apply summary_create|].
  destruct (String.eqb (packet_type r) "cancel-session"); [apply summary_session_end|].
  destruct (String.eqb (packet_type r) "close-session"); [apply summary_session_end|].
  destruct (String.eqb (packet_type r) "fragment"); [apply summary_fragment|].
  apply summary_reject; [discriminate | left; reflexivity].
Qed.

(** ** Properties of every request *)

(** X1. Every request is answered exactly once: the handler does not
    panic, one status is sent, it is one of 200, 400, 405, 413, 416 and 500,
    and the trace of the world is only extended. *)
Theorem every_request_gets_one_reply (env : Env) (b : Handler) (r : Request) (w : World) :
  outcome (ServeHTTP env b r) w <> Panicked
  /\ exists code,
       rw_status (response (ServeHTTP env b r) w) = Some code
       /\ In code statuses
       /\ trace (world_after (ServeHTTP env b r) w)
          = trace w ++ new_actions (ServeHTTP env b r) w
       /\ List.filter is_send (new_actions (ServeHTTP env b r) w) = [ASend code].
Proof.
  destruct (summary_serve env b r w) as (Ho & code & t & Hst & Ht & Hsend & Hin & _).
  split; [exact Ho|]. exists code.
  rewrite (new_actions_run _ _ _ Ht). auto.
Qed.

(** X2. A request calls the callback at most once, never when the reply is
    not 200, and never when no callback is installed. *)
Theorem callback_only_on_success (env : Env) (b : Handler) (r : Request) (w : World) :
  (callback_count (new_actions (ServeHTTP env b r) w) <= 1)%nat
  /\ (rw_status (response (ServeHTTP env b r) w) <> Some StatusOK ->
      callback_count (new_actions (ServeHTTP env b r) w) = 0%nat)
  /\ (callback b = false -> callback_count (new_actions (ServeHTTP env b r) w) = 0%nat).
Proof.
  destruct (summary_serve env b r w)
    as (_ & code & t & Hst & Ht & _ & _ & Hle & Hfail & Hnone & _).
  rewrite (new_actions_run _ _ _ Ht). split; [exact Hle|]. split; [|exact Hnone].
  intros Hne. apply Hfail. intros ->. apply Hne. exact Hst.
Qed.

(** The hypothesis of X2 at the replay of a fragment, which is refused. *)
Lemma callback_only_on_success_witness :
  callback_count (new_actions (ServeHTTP Sample.env Sample.handler Sample.fragment1)
                    Sample.world2) = 0%nat.
Proof.
  apply (proj1 (proj2 (callback_only_on_success Sample.env Sample.handler Sample.fragment1
                         Sample.world2))).
  vm_compute. discriminate.
Defined.

Lemma grows_trans (a b c : option Node) : grows a b -> grows b c -> grows a c.
Proof.
  destruct a as [[|x]|]; cbn; [intros ->; auto | | auto].
  intros [q ->]. cbn. intros [q' ->]. exists (q ++ q'). rewrite app_assoc. reflexivity.
Qed.

(** X3. No series of requests removes an entry of the file system, turns a
    directory into a file, or changes a byte already in a file: every
    directory stays, and every file keeps its content as a prefix. *)
Theorem file_system_only_grows (b : Handler) (steps : list (Env * Request)) (w : World)
    (p : string) :
  grows (fs w !! p) (fs (serve_all b steps w) !! p).
Proof.
  revert w. induction steps as [|[env r] rest IH]; intros w; [apply grows_refl|].
  cbn [serve_all]. eapply grows_trans; [|apply IH].
  destruct (summary_serve env b r w) as (_ & code & t & _ & _ & _ & _ & _ & _ & _ & Hg & _).
  apply Hg.
Qed.

(** X4. A reply with a 4xx status leaves the bytes of every file as they
    were, and the request has written nothing. *)
Theorem client_error_writes_nothing
    (env : Env) (b : Handler) (r : Request) (w : World) (code : Z) :
  rw_status (response (ServeHTTP env b r) w) = Some code ->
  400 <= code < 500 ->
  (forall p, content_at (fs (world_after (ServeHTTP env b r) w)) p = content_at (fs w) p)
  /\ write_count (new_actions (ServeHTTP env b r) w) = 0%nat.
Proof.
  intros Hst Hcode.
  destruct (summary_serve env b r w)
    as (_ & code' & t & Hst' & Ht & _ & _ & _ & _ & _ & _ & Hclient & _).
  rewrite run_response in Hst. rewrite Hst in Hst'. injection Hst' as <-.
  rewrite (new_actions_run _ _ _ Ht). apply Hclient, Hcode.
Qed.

(** The hypotheses of X4 at a gapped fragment for a file that holds five
    bytes. *)
Lemma client_error_writes_nothing_witness :
  content_at (fs (world_after (ServeHTTP Sample.env Sample.handler
                                 (Sample.fragment "bytes 7-9/10" "3" "rld")) Sample.world1))
    Sample.file
  = list_byte_of_string "Hello".
Proof.
  rewrite (proj1 (client_error_writes_nothing Sample.env Sample.handler
                    (Sample.fragment "bytes 7-9/10" "3" "rld") Sample.world1
                    StatusRequestedRangeNotSatisfiable ltac:(vm_compute; reflexivity)
                    ltac:(unfold StatusRequestedRangeNotSatisfiable; lia))).
  vm_compute. reflexivity.
Defined.

(** X5. With [MaxSize] zero the bound on the file length is off: no request
    is answered 413. *)
Theorem max_size_zero_disables_bound (env : Env) (b : Handler) (r : Request) (w : World) :
  MaxSize (cfg b) <= 0 ->
  rw_status (response (ServeHTTP env b r) w) <> Some StatusRequestEntityTooLarge.
Proof.
  intros Hmax Hst.
  destruct (summary_serve env b r w)
    as (_ & code & t & Hst' & _ & _ & _ & _ & _ & _ & _ & _ & Hlarge).
  rewrite run_response in Hst. rewrite Hst in Hst'. injection Hst' as <-.
  specialize (Hlarge eq_refl). lia.
Qed.

(** The hypothesis of X5 at the sample server, whose [MaxSize] is zero, and
    an upload of 200 bytes. *)
Lemma max_size_zero_disables_bound_witness :
  rw_status (response (ServeHTTP Sample.env Sample.handler Sample.oversize) Sample.world0)
  <> Some StatusRequestEntityTooLarge.
Proof.
  apply (max_size_zero_disables_bound Sample.env Sample.handler Sample.oversize Sample.world0).
  vm_compute. discriminate.
Defined.

(** ** Ping, Cancel-Session and Close-Session *)

(** X6. A request with the allowed method whose packet type is "ping" in
    any letter case is answered 200 with BITS-Packet-Type: Ack and an empty
    body; the file system is untouched and no callback is called. *)
Theorem ping_is_acknowledged (env : Env) (b : Handler) (r : Request) (w : World) :
  Method r = AllowedMethod (cfg b) ->
  GoStrings.ToLower (Header_Get (Header r) "BITS-Packet-Type") = "ping" ->
  let resp := response (ServeHTTP env b r) w in
  rw_status resp = Some StatusOK
  /\ rw_body resp = []
  /\ rw_header resp = Header_Add [] "BITS-Packet-Type" "Ack"
  /\ fs (world_after (ServeHTTP env b r) w) = fs w
  /\ new_actions (ServeHTTP env b r) w = [ASend StatusOK].
Proof.
  intros Hm Hp resp. subst resp.
  assert (Hrun : run (ServeHTTP env b r) w
                 = (Returned, ping_ack, add_actions [ASend StatusOK] w)).
  { rewrite ServeHTTP_run. unfold serve_result, packet_type.
    rewrite Hm, String.eqb_refl, Hp. reflexivity. }
  rewrite run_response, run_world_after, Hrun. repeat split.
  apply new_actions_run. rewrite Hrun. reflexivity.
Qed.

(** The hypotheses of X6 at a Ping request that spells the packet type in
    capitals. *)
Lemma ping_is_acknowledged_witness :
  rw_status (response (ServeHTTP Sample.env Sample.handler Sample2.ping) Sample.empty_world)
  = Some StatusOK.
Proof.
  refine (proj1 (ping_is_acknowledged Sample.env Sample.handler Sample2.ping
                   Sample.empty_world _ _)); reflexivity.
Defined.

(** X7. Cancel-Session and Close-Session with a well-formed session id
    whose path exists and can be examined are answered 200 with
    BITS-Packet-Type: Ack and BITS-Session-Id: the id; the callback, if
    installed, is called once, with [EventCancelSession] or
    [EventCloseSession], the id and the session directory, before the reply
    is sent; the handler itself removes nothing: the file system is as
    before. *)
Theorem session_end_is_acknowledged
    (env : Env) (b : Handler) (r : Request) (uuid : string) (w : World)
    (m : M unit) (e : Event) :
  isValidUUID uuid = true ->
  fs w !! session_dir b uuid <> None ->
  stat_fails env (session_dir b uuid) = false ->
  (m = bitsCancel env b r uuid /\ e = EventCancelSession
   \/ m = bitsClose env b r uuid /\ e = EventCloseSession) ->
  rw_status (response m w) = Some StatusOK
  /\ rw_body (response m w) = []
  /\ Header_lookup (rw_header (response m w)) "BITS-Packet-Type" = Some "Ack"
  /\ Header_lookup (rw_header (response m w)) "BITS-Session-Id" = Some uuid
  /\ fs (world_after m w) = fs w
  /\ new_actions m w
     = (if callback b then [ACallback e uuid (session_dir b uuid)] else [])
       ++ [ASend StatusOK].
Proof.
  intros Hid Hdir Hstat Hm.
  assert (Hrun : run m w = session_end_result e env b uuid w).
  { destruct Hm as [[-> ->]|[-> ->]]; [apply bitsCancel_run | apply bitsClose_run]. }
  unfold session_end_result in Hrun.
  rewrite Hid, (isValidUUID_nonempty _ Hid), Hstat in Hrun. cbn [negb orb] in Hrun.
  destruct (fs w !! session_dir b uuid) as [n|]; [|contradiction].
  rewrite run_response, run_world_after, Hrun. repeat split.
  apply new_actions_run. rewrite Hrun. reflexivity.
Qed.

(** The hypotheses of X7 at a Close-Session request for the sample
    session. *)
Lemma session_end_is_acknowledged_witness :
  new_actions (bitsClose Sample.env Sample.handler
                 (Sample.session_request "Close-Session" Sample.sid) Sample.sid) Sample.world0
  = [ACallback EventCloseSession Sample.sid Sample.dir; ASend StatusOK].
Proof.
  refine (proj2 (proj2 (proj2 (proj2 (proj2
            (session_end_is_acknowledged Sample.env Sample.handler
               (Sample.session_request "Close-Session" Sample.sid) Sample.sid Sample.world0
               _ EventCloseSession _ _ _ (or_intror (conj eq_refl eq_refl)))))))).
  - vm_compute. reflexivity.
  - vm_compute. discriminate.
  - reflexivity.
Defined.

(** X8. A session id that is not well formed is refused with BadRequest by
    the three handlers that take one, before the file system is looked at;
    the error acknowledgement of Fragment carries an empty BITS-Session-Id,
    those of Cancel-Session and Close-Session carry the id of the request.
    Nothing is written and no callback is called. *)
Theorem malformed_session_id_is_rejected
    (env : Env) (b : Handler) (r : Request) (uuid : string) (w : World) :
  isValidUUID uuid = false ->
  response (bitsFragment env b r uuid) w = error_reply [] EmptyString StatusBadRequest
  /\ response (bitsCancel env b r uuid) w = error_reply [] uuid StatusBadRequest
  /\ response (bitsClose env b r uuid) w = error_reply [] uuid StatusBadRequest
  /\ forall m,
       In m [bitsFragment env b r uuid; bitsCancel env b r uuid; bitsClose env b r uuid] ->
       fs (world_after m w) = fs w /\ new_actions m w = [ASend StatusBadRequest].
Proof.
  intros Hid.
  assert (Hf : run (bitsFragment env b r uuid) w
               = (Returned, error_reply [] EmptyString StatusBadRequest,
                  add_actions [ASend StatusBadRequest] w)).
  { rewrite bitsFragment_run. unfold fragment_result, fragment_checks.
    rewrite Hid. cbn [negb]. rewrite orb_true_r. reflexivity. }
  assert (Hc : forall e, session_end_result e env b uuid w
                         = (Returned, error_reply [] uuid StatusBadRequest,
                            add_actions [ASend StatusBadRequest] w)).
  { intros e. unfold session_end_result. rewrite Hid. cbn [negb]. rewrite orb_true_r.
    reflexivity. }
  rewrite !run_response, Hf, bitsCancel_run, bitsClose_run, !Hc.
  repeat split; try reflexivity;
    destruct H as [<-|[<-|[<-|[]]]];
    rewrite ?run_world_after, ?Hf, ?bitsCancel_run, ?bitsClose_run, ?Hc; try reflexivity;
    apply new_actions_run;
    rewrite ?Hf, ?bitsCancel_run, ?bitsClose_run, ?Hc; reflexivity.
Qed.

(** The hypothesis of X8 at a session id without braces. *)
Lemma malformed_session_id_is_rejected_witness :
  Header_lookup
    (rw_header (response (bitsFragment Sample.env Sample.handler Sample.fragment1
                            "0123abcd-4567-89ef-0123-456789abcdef") Sample.world0))
    "BITS-Session-Id" = Some EmptyString
  /\ Header_lookup
       (rw_header (response (bitsCancel Sample.env Sample.handler Sample.fragment1
                               "0123abcd-4567-89ef-0123-456789abcdef") Sample.world0))
       "BITS-Session-Id" = Some "0123abcd-4567-89ef-0123-456789abcdef".
Proof.
  destruct (malformed_session_id_is_rejected Sample.env Sample.handler Sample.fragment1
              "0123abcd-4567-89ef-0123-456789abcdef" Sample.world0
              ltac:(vm_compute; reflexivity)) as (H1 & H2 & _).
  rewrite H1, H2. split; vm_compute; reflexivity.
Defined.

(** ** Edges of the fragment writer *)

(** Once the preconditions hold, the checked values are those of the
    request. *)
Lemma preconditions_checked env b w r uuid :
  preconditions_hold env b w r uuid = true ->
  exists c,
    fragment_checks env b (fs w) r uuid = inr c
    /\ checked_ok c
    /\ c_src c = upload_path env (session_dir b uuid) (request_filename r)
    /\ parseRange (Header_Get (Header r) "Content-Range")
       = Some (c_rangeStart c, c_rangeEnd c, c_fileLength c)
    /\ Body r = Some (c_data c).
Proof.
  intros H. destruct (preconditions_checks _ _ _ _ _ H) as [c Hc]. exists c.
  destruct (fragment_checks_inr _ _ _ _ _ _ Hc) as (H1 & H2 & H3 & H4 & _). auto.
Qed.

(** X9. The file is created before the range is looked at: a fragment that
    passes the preconditions for a file that does not exist, and whose range
    starts beyond byte 0, is refused with 416 and the size 0 (under the
    header name BITS-Recieved-Content-Range), and leaves an empty file
    behind. *)
Theorem gap_on_missing_file_creates_it
    (env : Env) (b : Handler) (r : Request) (uuid : string) (w : World) (rs re fl : Z) :
  let src := upload_path env (session_dir b uuid) (request_filename r) in
  preconditions_hold env b w r uuid = true ->
  parseRange (Header_Get (Header r) "Content-Range") = Some (rs, re, fl) ->
  fs w !! src = None ->
  0 < rs ->
  stat_fails env src = false ->
  open_fails env = false ->
  let resp := response (bitsFragment env b r uuid) w in
  rw_status resp = Some StatusRequestedRangeNotSatisfiable
  /\ Header_lookup (rw_header resp) "BITS-Recieved-Content-Range" = Some "0"
  /\ fs (world_after (bitsFragment env b r uuid) w) = <[src := File []]> (fs w)
  /\ write_count (new_actions (bitsFragment env b r uuid) w) = 0%nat.
Proof.
  intros src Hpre Hrange Hnone Hrs Hstat Hopen resp. subst resp.
  destruct (preconditions_checked _ _ _ _ _ Hpre) as (c & Hc & Hok & Hsrc & Hr & _).
  fold src in Hsrc. rewrite Hrange in Hr. injection Hr as Hrs' _ _.
  assert (Hrun : run (bitsFragment env b r uuid) w
                 = (Returned,
                    error_reply (Header_Add [] "BITS-Recieved-Content-Range"
                                   (Strconv.FormatUint 0))
                      uuid StatusRequestedRangeNotSatisfiable,
                    {| fs := <[src := File []]> (fs w);
                       trace := trace w ++ [ASend StatusRequestedRangeNotSatisfiable;
                                            AClose src] |})).
  { rewrite bitsFragment_run. unfold fragment_result. rewrite Hc.
    unfold fragment_verdict. rewrite Hsrc, Hstat, Hnone, Hopen.
    unfold store_verdict.
    destruct (Z.ltb_spec (c_rangeEnd c) 0) as [Hlt|_].
    { destruct Hok as (? & ? & _). lia. }
    destruct (Z.ltb_spec 0 (c_rangeStart c)) as [_|Hge]; [|lia].
    cbn [settle]. rewrite Hsrc. reflexivity. }
  rewrite run_response, run_world_after, Hrun. repeat split.
  rewrite (new_actions_run _ _ _ (f_equal trace (f_equal snd Hrun))). reflexivity.
Qed.

(** The hypotheses of X9 at the second fragment of the sample upload, sent
    first. *)
Lemma gap_on_missing_file_creates_it_witness :
  fs (world_after (bitsFragment Sample.env Sample.handler Sample.fragment2 Sample.sid)
        Sample.world0) !! Sample.file
  = Some (File []).
Proof.
  rewrite (proj1 (proj2 (proj2
             (gap_on_missing_file_creates_it Sample.env Sample.handler Sample.fragment2
                Sample.sid Sample.world0 5 9 10
                ltac:(vm_compute; reflexivity) ltac:(vm_compute; reflexivity)
                ltac:(vm_compute; reflexivity) ltac:(lia)
                ltac:(reflexivity) ltac:(reflexivity))))).
  vm_compute. reflexivity.
Defined.

(** X10. When the preconditions hold and the upload file cannot be examined
    or opened, nothing is created or written: an error of [exists] on the
    file is answered BadRequest (400), a failure to open it, or a directory
    in its place, Internal (500). *)
Theorem unopened_file_is_left_alone
    (env : Env) (b : Handler) (r : Request) (uuid : string) (w : World) :
  let src := upload_path env (session_dir b uuid) (request_filename r) in
  preconditions_hold env b w r uuid = true ->
  (stat_fails env src = true ->
   response (bitsFragment env b r uuid) w = error_reply [] uuid StatusBadRequest
   /\ fs (world_after (bitsFragment env b r uuid) w) = fs w)
  /\ (stat_fails env src = false ->
      open_fails env = true \/ fs w !! src = Some Dir ->
      response (bitsFragment env b r uuid) w = error_reply [] uuid StatusInternalServerError
      /\ fs (world_after (bitsFragment env b r uuid) w) = fs w).
Proof.
  intros src Hpre.
  destruct (preconditions_checked _ _ _ _ _ Hpre) as (c & Hc & _ & Hsrc & _).
  fold src in Hsrc. rewrite !run_response, !run_world_after, bitsFragment_run.
  unfold fragment_result. rewrite Hc. unfold fragment_verdict. rewrite Hsrc.
  split.
  - intros ->. split; reflexivity.
  - intros -> Hbad. destruct (fs w !! src) as [[|old]|] eqn:E.
    + split; reflexivity.
    + destruct Hbad as [->|Hbad]; [split; reflexivity | discriminate].
    + destruct Hbad as [->|Hbad]; [split; reflexivity | discriminate].
Qed.

(** The hypotheses of X10 at the first fragment of the sample upload on a
    system that cannot open files. *)
Lemma unopened_file_is_left_alone_witness :
  response (bitsFragment Sample2.env_noopen Sample.handler Sample.fragment1 Sample.sid)
    Sample.world0
  = error_reply [] Sample.sid StatusInternalServerError.
Proof.
  refine (proj1 (proj2 (unopened_file_is_left_alone Sample2.env_noopen Sample.handler
                          Sample.fragment1 Sample.sid Sample.world0 _) _ _)).
  - vm_compute. reflexivity.
  - reflexivity.
  - left. reflexivity.
Defined.

(** X11. When the write stops short, the reply is Internal (500) and
    carries no BITS-Received-Content-Range, no callback is called, and the
    bytes that reached the disk stay at the end of the file. *)
Theorem short_write_is_internal_and_keeps_bytes
    (env : Env) (b : Handler) (r : Request) (uuid : string) (w : World)
    (rs re fl : Z) (data : bytes) (k : nat) :
  let src := upload_path env (session_dir b uuid) (request_filename r) in
  let fileSize := size_at (fs w) src in
  let chunk := drop (Z.to_nat (fileSize - rs)) data in
  preconditions_hold env b w r uuid = true ->
  parseRange (Header_Get (Header r) "Content-Range") = Some (rs, re, fl) ->
  Body r = Some data ->
  io_succeeds env (fs w) src [] = true ->
  rs <= fileSize <= re ->
  write_cap env = Some k ->
  (k < length chunk)%nat ->
  let resp := response (bitsFragment env b r uuid) w in
  let w' := world_after (bitsFragment env b r uuid) w in
  resp = error_reply [] uuid StatusInternalServerError
  /\ Header_lookup (rw_header resp) "BITS-Received-Content-Range" = None
  /\ fs w' = <[src := File (content_at (fs w) src ++ take k chunk)]> (fs w)
  /\ size_at (fs w') src = fileSize + Z.of_nat k
  /\ callback_count (new_actions (bitsFragment env b r uuid) w) = 0%nat.
Proof.
  intros src fileSize chunk Hpre Hrange Hbody Hio Hin Hcap Hk resp w'. subst resp w'.
  destruct (preconditions_checked _ _ _ _ _ Hpre) as (c & Hc & Hok & Hsrc & Hr & Hb).
  fold src in Hsrc. rewrite Hrange in Hr. injection Hr as Hrs Hre Hfl.
  rewrite Hbody in Hb. injection Hb as Hdata.
  unfold io_succeeds in Hio.
  apply andb_prop in Hio as [Hio Hnode]. apply andb_prop in Hio as [Hio _].
  apply andb_prop in Hio as [Hio Hfstat]. apply andb_prop in Hio as [Hstat Hopen].
  apply negb_true_iff in Hstat, Hopen, Hfstat.
  assert (Hacc : accepted_bytes env chunk = take k chunk).
  { unfold accepted_bytes. rewrite Hcap. reflexivity. }
  assert (Hrun : run (bitsFragment env b r uuid) w
                 = (Returned, error_reply [] uuid StatusInternalServerError,
                    {| fs := <[src := File (content_at (fs w) src ++ take k chunk)]> (fs w);
                       trace := trace w ++ [AWrite src chunk; ASend StatusInternalServerError;
                                            AClose src] |})).
  { rewrite bitsFragment_run. unfold fragment_result. rewrite Hc.
    destruct (fragment_verdict_cases env (fs w) c)
      as [(s' & o & _ & _ & Hbad)|(_ & _ & _ & _ & Hv)].
    { exfalso. rewrite Hsrc in Hbad. destruct Hbad as [Hbad|[Hbad|[Hbad|Hbad]]]; try congruence.
      rewrite Hbad in Hnode. discriminate. }
    rewrite Hv.
    pose proof (store_verdict_cases env c (size_at (fs w) (c_src c))
                  (match fs w !! c_src c with None => true | _ => false end)) as Hcases.
    cbv zeta in Hcases. rewrite Hsrc, <- Hrs, <- Hre, <- Hdata in Hcases.
    fold fileSize chunk in Hcases. rewrite Hsrc. fold fileSize.
    destruct Hcases as [(_ & Hbad)|[(-> & _)|(_ & _ & Hfull)]].
    - lia.
    - cbn [settle]. rewrite Hsrc, Hacc. reflexivity.
    - exfalso. rewrite Hacc in Hfull. apply (f_equal (@length _)) in Hfull.
      rewrite length_take in Hfull. lia. }
  rewrite run_response, run_world_after, Hrun. cbn [fst snd fs].
  repeat split.
  - rewrite size_at_insert, length_app, length_take. unfold fileSize, size_at. lia.
  - rewrite (new_actions_run _ _ _ (f_equal trace (f_equal snd Hrun))). reflexivity.
Qed.

(** The hypotheses of X11 at the first fragment of the sample upload on a
    disk that takes two bytes. *)
Lemma short_write_is_internal_and_keeps_bytes_witness :
  content_at (fs (world_after (bitsFragment Sample2.env_short Sample.handler Sample.fragment1
                                 Sample.sid) Sample.world0)) Sample.file
  = list_byte_of_string "He".
Proof.
  rewrite (proj1 (proj2 (proj2
             (short_write_is_internal_and_keeps_bytes Sample2.env_short Sample.handler
                Sample.fragment1 Sample.sid Sample.world0 0 4 10
                (list_byte_of_string "Hello") 2
                ltac:(vm_compute; reflexivity) ltac:(vm_compute; reflexivity)
                ltac:(reflexivity) ltac:(vm_compute; reflexivity)
                ltac:(vm_compute; split; discriminate) ltac:(reflexivity)
                ltac:(vm_compute; lia))))).
  vm_compute. reflexivity.
Defined.

(** ** Replays *)

Lemma upload_path_getwd env env' d f :
  getwd env' = getwd env -> upload_path env' d f = upload_path env d f.
Proof. intros H. unfold upload_path. rewrite H. reflexivity. Qed.

(** An accepted fragment leaves a file of [rangeEnd + 1] bytes. *)
Lemma accepted_fragment_world env b r uuid w :
  rw_status (response (bitsFragment env b r uuid) w) = Some StatusOK ->
  exists c,
    fragment_checks env b (fs w) r uuid = inr c
    /\ fs w !! c_src c <> Some Dir
    /\ stat_fails env (c_src c) = false /\ open_fails env = false
    /\ fs (world_after (bitsFragment env b r uuid) w)
       = <[c_src c := File (content_at (fs w) (c_src c)
                            ++ drop (Z.to_nat (size_at (fs w) (c_src c) - c_rangeStart c))
                                 (c_data c))]> (fs w)
    /\ size_at (fs (world_after (bitsFragment env b r uuid) w)) (c_src c) = c_rangeEnd c + 1.
Proof.
  rewrite run_response, run_world_after, bitsFragment_run.
  destruct (fragment_result_cases env b r uuid w)
    as [(id & s & closes & -> & Hin & _)|(c & Hc & Hnode & Hstat & Hopen & _ & Hcases)].
  { cbn. intros [= ->]. cbn in Hin. status_arith. intuition lia. }
  cbv zeta in Hcases.
  destruct Hcases as [(_ & ->)|[(_ & _ & ->)|(Hin & _ & ->)]]; cbn [fst snd rw_status error_reply];
    try discriminate.
  intros _. exists c. do 4 (split; [assumption|]). cbn [fs]. split; [reflexivity|].
  rewrite size_at_insert, length_app, length_drop.
  destruct (fragment_checks_inr _ _ _ _ _ _ Hc) as ((H0 & H1 & H2 & H3 & H4 & H5) & _).
  unfold size_at in *. lia.
Qed.

(** X12. A fragment that has been accepted is not accepted twice: sent
    again, under any environment with the same working directory, it is
    answered with an error and the file system is not touched; when the
    answer is 416, it carries the size [rangeEnd + 1] under
    BITS-Recieved-Content-Range. *)
Theorem replay_is_refused
    (env env' : Env) (b : Handler) (r : Request) (uuid : string) (w : World) (rs re fl : Z) :
  getwd env' = getwd env ->
  parseRange (Header_Get (Header r) "Content-Range") = Some (rs, re, fl) ->
  rw_status (response (bitsFragment env b r uuid) w) = Some StatusOK ->
  let w1 := world_after (bitsFragment env b r uuid) w in
  let resp := response (bitsFragment env' b r uuid) w1 in
  rw_status resp <> Some StatusOK
  /\ fs (world_after (bitsFragment env' b r uuid) w1) = fs w1
  /\ (rw_status resp = Some StatusRequestedRangeNotSatisfiable ->
      Header_lookup (rw_header resp) "BITS-Recieved-Content-Range"
      = Some (Strconv.FormatUint (re + 1))).
Proof.
  intros Hwd Hrange Hacc w1 resp.
  destruct (accepted_fragment_world env b r uuid w Hacc)
    as (c & Hc & Hnode & _ & _ & Hfs & Hsize).
  fold w1 in Hfs, Hsize.
  destruct (fragment_checks_inr _ _ _ _ _ _ Hc) as (_ & Hsrc & Hr & _).
  rewrite Hrange in Hr. injection Hr as Hrs Hre Hfl.
  subst resp. rewrite run_response, run_world_after, bitsFragment_run.
  destruct (fragment_result_cases env' b r uuid w1)
    as [(id & s & closes & -> & Hin & _)|(c' & Hc' & _ & _ & _ & _ & Hcases)].
  { cbn [fst snd rw_status error_reply fs]. split; [|split; [reflexivity|]].
    - intros [= ->]. cbn in Hin. status_arith. intuition lia.
    - intros [= ->]. cbn in Hin. status_arith. intuition lia. }
  destruct (fragment_checks_inr _ _ _ _ _ _ Hc') as (_ & Hsrc' & Hr' & _).
  rewrite Hrange in Hr'. injection Hr' as Hrs' Hre' Hfl'.
  rewrite (upload_path_getwd _ _ _ _ Hwd), <- Hsrc in Hsrc'.
  cbv zeta in Hcases. rewrite Hsrc', Hsize in Hcases. rewrite <- Hre', Hre in Hcases.
  destruct Hcases as [(_ & ->)|[(Hbad & _)|(Hbad & _)]]; try lia.
  cbn [fst snd rw_status error_reply fs]. split; [discriminate|]. split.
  - rewrite Hfs at 1. rewrite lookup_insert_eq. reflexivity.
  - intros _. rewrite Hre. reflexivity.
Qed.

(** The hypotheses of X12 at the second fragment of the sample upload, sent
    twice. *)
Lemma replay_is_refused_witness :
  rw_status (response (bitsFragment Sample.env Sample.handler Sample.fragment2 Sample.sid)
               Sample.world2)
  <> Some StatusOK.
Proof.
  refine (proj1 (replay_is_refused Sample.env Sample.env Sample.handler Sample.fragment2
                   Sample.sid Sample.world1 5 9 10 eq_refl _ _)).
  - vm_compute. reflexivity.
  - vm_compute. reflexivity.
Defined.

(** ** Assembly of the file *)

Lemma prefix_is_take (c F : bytes) : c `prefix_of` F -> c = take (length c) F.
Proof. intros [k ->]. rewrite take_app_length. reflexivity. Qed.

Lemma take_is_prefix (k : nat) (F : bytes) : take k F `prefix_of` F.
Proof. exists (drop k F). symmetry. apply take_drop. Qed.

Lemma accepted_bytes_prefix (env : Env) (p : bytes) : accepted_bytes env p `prefix_of` p.
Proof.
  unfold accepted_bytes. destruct (write_cap env) as [k|]; [apply take_is_prefix | reflexivity].
Qed.

(** Appending the part of a slice of [F] that lies beyond the bytes on disk
    to a prefix of [F] gives a prefix of [F]. *)
Lemma append_slice_prefix (F content data : bytes) (rs : nat) :
  content `prefix_of` F ->
  (rs <= length content)%nat ->
  data = take (length data) (drop rs F) ->
  (content ++ drop (length content - rs) data) `prefix_of` F.
Proof.
  intros Hpre Hrs Hdata. set (n := length data) in *. set (k := length content) in *.
  assert (Hc : content = take k F) by (apply prefix_is_take, Hpre).
  rewrite Hdata, take_drop_commute, drop_drop.
  replace (rs + (k - rs))%nat with k by lia.
  destruct (le_lt_dec k (rs + n)) as [Hle|Hlt].
  - rewrite Hc at 1. replace (take k F) with (take k (take (rs + n) F)).
    + rewrite take_drop. apply take_is_prefix.
    + rewrite take_take. f_equal. lia.
  - rewrite drop_ge by (rewrite length_take; lia). rewrite app_nil_r. exact Hpre.
Qed.

(** One fragment whose body comes from [F] keeps the file a prefix of
    [F]. *)
Lemma upload_step_prefix env b r uuid w src F :
  uploads b uuid src F (env, r) ->
  content_at (fs w) src `prefix_of` F ->
  content_at (fs (world_after (bitsFragment env b r uuid) w)) src `prefix_of` F.
Proof.
  intros [Hsrc Hslice] Hpre. cbn [fst snd] in Hsrc, Hslice.
  rewrite run_world_after, bitsFragment_run.
  destruct (fragment_result_cases env b r uuid w)
    as [(id & s & closes & -> & _)|(c & Hc & Hnode & _ & _ & _ & Hcases)].
  { exact Hpre. }
  destruct (fragment_checks_inr _ _ _ _ _ _ Hc) as ((H0 & H1 & H2 & H3 & H4 & H5) & Hp & Hr & Hb & _).
  rewrite Hsrc in Hp. cbv zeta in Hcases. rewrite Hp in *.
  assert (Hgrow : (content_at (fs w) src
                   ++ drop (Z.to_nat (size_at (fs w) src - c_rangeStart c)) (c_data c))
                  `prefix_of` F
                  \/ ~ (c_rangeStart c <= size_at (fs w) src)).
  { destruct (Z.le_gt_cases (c_rangeStart c) (size_at (fs w) src)) as [Hle|Hgt]; [left | right; lia].
    replace (Z.to_nat (size_at (fs w) src - c_rangeStart c))
      with (length (content_at (fs w) src) - Z.to_nat (c_rangeStart c))%nat
      by (unfold size_at; lia).
    apply append_slice_prefix; [exact Hpre | unfold size_at in Hle; lia|].
    apply (Hslice _ _ _ _ Hr Hb). }
  destruct Hcases as [(_ & ->)|[(Hin & _ & ->)|(Hin & _ & ->)]]; cbn [snd fs].
  - destruct (fs w !! src) eqn:E; [exact Hpre|].
    rewrite content_at_insert. apply prefix_nil.
  - rewrite content_at_insert. destruct Hgrow as [Hgrow|Hbad]; [|lia].
    etransitivity; [|exact Hgrow]. apply prefix_app. apply accepted_bytes_prefix.
  - rewrite content_at_insert. destruct Hgrow as [Hgrow|Hbad]; [exact Hgrow | lia].
Qed.

(** The total length a request declares (0 when the range does not
    parse). *)
Lemma own_target env b r uuid src :
  upload_path env (session_dir b uuid) (request_filename r) = src ->
  exists fl, targets b uuid src fl (env, r).
Proof.
  intros Hsrc.
  destruct (parseRange (Header_Get (Header r) "Content-Range")) as [[[rs re] fl]|] eqn:E.
  - exists fl. split; [exact Hsrc|]. cbn [snd]. intros rs' re' fl'. rewrite E.
    intros [= _ _ <-]. reflexivity.
  - exists 0. split; [exact Hsrc|]. cbn [snd]. intros rs' re' fl'. rewrite E. discriminate.
Qed.

Lemma upload_run_prefix (b : Handler) (uuid src : string) (F : bytes)
    (steps : list (Env * Request)) :
  forall w,
  Forall (uploads b uuid src F) steps ->
  content_at (fs w) src `prefix_of` F ->
  content_at (fs (run_fragments b uuid steps w).2) src `prefix_of` F
  /\ size_at (fs w) src <= size_at (fs (run_fragments b uuid steps w).2) src
  /\ Forall (fun v => v <= size_at (fs (run_fragments b uuid steps w).2) src)
       (ack_values (run_fragments b uuid steps w).1).
Proof.
  induction steps as [|[env r] rest IH]; intros w Hall Hpre.
  - cbn. split; [exact Hpre|]. split; [lia | constructor].
  - inversion Hall as [|? ? Hstep Hrest]; subst.
    cbn [run_fragments].
    pose proof (upload_step_prefix env b r uuid w src F Hstep Hpre) as Hpre1.
    destruct (own_target env b r uuid src (proj1 Hstep)) as [fl Ht].
    destruct (fragment_step_summary env b r uuid w src fl Ht) as (t & _ & Hmono & Hack).
    set (w1 := world_after (bitsFragment env b r uuid) w) in *.
    set (resp := response (bitsFragment env b r uuid) w) in *.
    destruct (IH w1 Hrest Hpre1) as (Hp & Hm & Hb).
    destruct (run_fragments b uuid rest w1) as [resps w'] eqn:Erun.
    cbn [fst snd ack_values] in *.
    split; [exact Hp|]. split; [lia|].
    destruct (ack_value resp) as [v|]; [|exact Hb].
    constructor; [|exact Hb]. cbn beta. lia.
Qed.

(** X13. When the bodies of a series of fragment requests for one file are
    the bytes of a file [F] at the start of the ranges they declare, the
    file on disk stays a prefix of [F], whatever is refused, replayed,
    overlapping or cut short by a failing write; and once an acknowledgement
    has carried the length of [F], the file on disk is [F]. *)
Theorem upload_assembles_the_file (b : Handler) (uuid src : string) (F : bytes)
    (steps : list (Env * Request)) (w : World) :
  Forall (uploads b uuid src F) steps ->
  content_at (fs w) src `prefix_of` F ->
  content_at (fs (run_fragments b uuid steps w).2) src `prefix_of` F
  /\ (In (Z.of_nat (length F)) (ack_values (run_fragments b uuid steps w).1) ->
      content_at (fs (run_fragments b uuid steps w).2) src = F).
Proof.
  intros Hall Hpre.
  destruct (upload_run_prefix b uuid src F steps w Hall Hpre) as (Hp & _ & Hb).
  split; [exact Hp|]. intros Hin.
  rewrite List.Forall_forall in Hb. specialize (Hb _ Hin). cbn beta in Hb.
  destruct Hp as [k Hk]. unfold size_at in Hb.
  assert (Hlen : length k = 0%nat).
  { apply (f_equal (@length _)) in Hk. rewrite length_app in Hk. lia. }
  destruct k; [|discriminate Hlen]. rewrite app_nil_r in Hk. symmetry. exact Hk.
Qed.

(** The hypotheses of X13 at the sample upload: the file on disk is
    ["HelloWorld"]. *)
Lemma upload_assembles_the_file_witness :
  content_at (fs (run_fragments Sample.handler Sample.sid Sample.upload Sample.world0).2)
    Sample.file
  = Sample2.hello_world.
Proof.
  refine (proj2 (upload_assembles_the_file Sample.handler Sample.sid Sample.file
                   Sample2.hello_world Sample.upload Sample.world0 _ _) _).
  - repeat constructor; try (vm_compute; reflexivity);
      intros rs re fl data; vm_compute; intros H1 H2;
      injection H1 as <- _ _; injection H2 as <-; reflexivity.
  - vm_compute. eexists. reflexivity.
  - vm_compute. right. left. reflexivity.
Defined.

(** ** Patterns of the filter *)

Lemma deny_pass_error env filename regs reg :
  In reg regs -> regexp_MatchString env reg filename = None ->
  deny_pass env filename regs = false.
Proof.
  intros Hin Hm. unfold deny_pass.
  destruct (forallb _ regs) eqn:E; [|reflexivity].
  rewrite forallb_forall in E. specialize (E _ Hin). cbn beta in E. rewrite Hm in E.
  discriminate E.
Qed.

Lemma allow_result_app env filename pre reg post :
  (forall x, In x pre -> regexp_MatchString env x filename = Some false) ->
  allow_result env filename (pre ++ reg :: post)
  = match regexp_MatchString env reg filename with
    | None => None
    | Some true => Some true
    | Some false => allow_result env filename post
    end.
Proof.
  intros Hpre. induction pre as [|x pre IH]; [reflexivity|].
  cbn [app allow_result]. rewrite (Hpre x) by (left; reflexivity).
  apply IH. intros y Hy. apply Hpre. right. exact Hy.
Qed.

(** X14. A pattern that does not compile rejects the request with
    BadRequest: anywhere in the deny list, and in the allow list when no
    pattern before it matches (and the deny list lets the name pass). *)
Theorem malformed_pattern_is_bad_request
    (env : Env) (b : Handler) (r : Request) (uuid : string) (w : World) :
  isValidUUID uuid = true ->
  fs w !! session_dir b uuid = Some Dir ->
  request_filename r <> EmptyString ->
  ((exists reg, In reg (Disallowed (cfg b))
                /\ regexp_MatchString env reg (request_filename r) = None) ->
   response (bitsFragment env b r uuid) w = error_reply [] uuid StatusBadRequest)
  /\ (forall pre reg post,
         deny_pass env (request_filename r) (Disallowed (cfg b)) = true ->
         Allowed (cfg b) = pre ++ reg :: post ->
         (forall x, In x pre -> regexp_MatchString env x (request_filename r) = Some false) ->
         regexp_MatchString env reg (request_filename r) = None ->
         response (bitsFragment env b r uuid) w = error_reply [] uuid StatusBadRequest).
Proof.
  intros Hid Hdir Hname.
  rewrite run_response, bitsFragment_run. unfold fragment_result, fragment_checks.
  rewrite Hid, (isValidUUID_nonempty _ Hid), Hdir. cbn [negb orb].
  destruct (String.eqb_spec (request_filename r) EmptyString) as [E|_]; [contradiction|].
  split.
  - intros (reg & Hin & Hm). rewrite (deny_pass_error _ _ _ _ Hin Hm). reflexivity.
  - intros pre reg post Hdeny Hallowed Hpre Hm. rewrite Hdeny, Hallowed.
    rewrite (allow_result_app _ _ _ _ _ Hpre), Hm. reflexivity.
Qed.

(** The hypotheses of X14 at a server whose allow list starts with a
    pattern that does not compile. *)
Lemma malformed_pattern_is_bad_request_witness :
  response (bitsFragment Sample.env Sample2.handler_early_bad Sample.fragment1 Sample.sid)
    Sample.world0
  = error_reply [] Sample.sid StatusBadRequest.
Proof.
  refine (proj2 (malformed_pattern_is_bad_request Sample.env Sample2.handler_early_bad
                   Sample.fragment1 Sample.sid Sample.world0 _ _ _)
            [] "(" [".*\.txt$"] _ _ _ _).
  - vm_compute. reflexivity.
  - vm_compute. reflexivity.
  - vm_compute. discriminate.
  - reflexivity.
  - reflexivity.
  - intros x [].
  - vm_compute. reflexivity.
Defined.

(** X15. The allow list is read up to its first match: two servers that
    differ only in the patterns after a matching allow pattern answer a
    fragment request alike, even when one of those patterns does not
    compile. *)
Theorem allow_list_stops_at_first_match
    (env : Env) (b b' : Handler) (r : Request) (uuid : string) (w : World)
    (pre post post' : list string) (reg : string) :
  TempDir (cfg b') = TempDir (cfg b) ->
  MaxSize (cfg b') = MaxSize (cfg b) ->
  Disallowed (cfg b') = Disallowed (cfg b) ->
  callback b' = callback b ->
  Allowed (cfg b) = pre ++ reg :: post ->
  Allowed (cfg b') = pre ++ reg :: post' ->
  (forall x, In x pre -> regexp_MatchString env x (request_filename r) = Some false) ->
  regexp_MatchString env reg (request_filename r) = Some true ->
  run (bitsFragment env b' r uuid) w = run (bitsFragment env b r uuid) w.
Proof.
  intros Htmp Hmax Hdis Hcb Ha Ha' Hpre Hm.
  assert (Hdir : session_dir b' uuid = session_dir b uuid).
  { unfold session_dir. rewrite Htmp. reflexivity. }
  assert (Hchk : fragment_checks env b' (fs w) r uuid = fragment_checks env b (fs w) r uuid).
  { unfold fragment_checks. rewrite Hdir, Hmax, Hdis, Ha, Ha'.
    rewrite !(allow_result_app _ _ _ _ _ Hpre), Hm. reflexivity. }
  rewrite !bitsFragment_run. unfold fragment_result. rewrite Hchk.
  destruct (fragment_checks env b (fs w) r uuid) as [[id s]|c]; [reflexivity|].
  destruct (fragment_verdict env (fs w) c); cbn [settle]; rewrite ?Hcb; reflexivity.
Qed.

(** The hypotheses of X15 at a server whose allow list holds a pattern that
    does not compile after the one that matches. *)
Lemma allow_list_stops_at_first_match_witness :
  response (bitsFragment Sample.env Sample2.handler_late_bad Sample.fragment1 Sample.sid)
    Sample.world0
  = ack_reply Sample.sid 5.
Proof.
  rewrite run_response.
  rewrite <- (allow_list_stops_at_first_match Sample.env Sample2.handler_late_bad
                Sample2.handler_plain Sample.fragment1 Sample.sid Sample.world0
                [] ["("] [] ".*\.txt$" eq_refl eq_refl eq_refl eq_refl eq_refl eq_refl).
  - vm_compute. reflexivity.
  - intros x [].
  - vm_compute. reflexivity.
Defined.

(** ** Sessions over several requests *)

Lemma fragment_result_fs env b r uuid w1 w2 :
  fs w1 = fs w2 ->
  (fragment_result env b r uuid w1).1 = (fragment_result env b r uuid w2).1
  /\ fs (fragment_result env b r uuid w1).2 = fs (fragment_result env b r uuid w2).2.
Proof.
  intros H. unfold fragment_result. rewrite H.
  destruct (fragment_checks env b (fs w2) r uuid) as [[id s]|c];
    [split; [reflexivity | exact H]|].
  destruct (fragment_verdict env (fs w2) c); cbn [settle fst snd fs add_actions];
    rewrite ?H; split; reflexivity.
Qed.

(** X16. Cancel-Session and Close-Session never change the file system,
    whatever their outcome, so they do not end a session by themselves: a
    fragment request sent after one of them is answered as it would have
    been before, and leaves the same files. *)
Theorem session_end_keeps_session_usable
    (env env2 : Env) (b : Handler) (r r2 : Request) (uuid uuid2 : string) (w : World)
    (m : M unit) :
  In m [bitsCancel env2 b r2 uuid2; bitsClose env2 b r2 uuid2] ->
  fs (world_after m w) = fs w
  /\ outcome (bitsFragment env b r uuid) (world_after m w)
     = outcome (bitsFragment env b r uuid) w
  /\ response (bitsFragment env b r uuid) (world_after m w)
     = response (bitsFragment env b r uuid) w
  /\ fs (world_after (bitsFragment env b r uuid) (world_after m w))
     = fs (world_after (bitsFragment env b r uuid) w).
Proof.
  intros Hm.
  assert (Hfs : fs (world_after m w) = fs w).
  { rewrite run_world_after.
    assert (Hend : forall e, fs (session_end_result e env2 b uuid2 w).2 = fs w).
    { intros e. unfold session_end_result.
      destruct (_ || _); [reflexivity|]. destruct (stat_fails env2 _); [reflexivity|].
      destruct (fs w !! _); reflexivity. }
    destruct Hm as [<-|[<-|[]]]; [rewrite bitsCancel_run | rewrite bitsClose_run]; apply Hend. }
  split; [exact Hfs|].
  set (w1 := world_after m w) in *.
  rewrite !run_outcome, !run_response, !(run_world_after (bitsFragment env b r uuid)),
    !bitsFragment_run.
  destruct (fragment_result_fs env b r uuid _ _ Hfs) as [H1 H2].
  rewrite H1, H2. repeat split.
Qed.

(** The hypothesis of X16 at the sample upload with a Close-Session request
    between its two fragments. *)
Lemma session_end_keeps_session_usable_witness :
  response (bitsFragment Sample.env Sample.handler Sample.fragment2 Sample.sid)
    (world_after (bitsClose Sample.env Sample.handler
                    (Sample.session_request "Close-Session" Sample.sid) Sample.sid)
       Sample.world1)
  = ack_reply Sample.sid 10.
Proof.
  rewrite (proj1 (proj2 (proj2
             (session_end_keeps_session_usable Sample.env Sample.env Sample.handler
                Sample.fragment2 (Sample.session_request "Close-Session" Sample.sid)
                Sample.sid Sample.sid Sample.world1 _ (or_intror (or_introl eq_refl)))))).
  vm_compute. reflexivity.
Defined.

(** X17. A session that Create-Session has acknowledged can be used: with
    a well-formed minted id, the session directory it leaves passes the
    session check of Fragment, and a Close-Session or Cancel-Session request
    for the id is acknowledged. *)
Theorem created_session_is_usable
    (env env2 : Env) (b : Handler) (r r2 : Request) (w : World) (id : string) :
  rw_status (response (bitsCreate env b r) w) = Some StatusOK ->
  newUUID env = Some id ->
  isValidUUID id = true ->
  stat_fails env2 (session_dir b id) = false ->
  let w' := world_after (bitsCreate env b r) w in
  Header_lookup (rw_header (response (bitsCreate env b r) w)) "BITS-Session-Id" = Some id
  /\ precondition env2 b w' r2 id 1 = true
  /\ precondition env2 b w' r2 id 2 = true
  /\ response (bitsClose env2 b r2 id) w' = session_ack id
  /\ response (bitsCancel env2 b r2 id) w' = session_ack id.
Proof.
  intros Hst Hid Hvalid Hstat w'. subst w'.
  rewrite run_response in Hst. rewrite !run_response, !run_world_after, bitsCreate_run in *.
  assert (Hdir : fs (create_result env b r w).2 !! session_dir b id = Some Dir
                 /\ Header_lookup (rw_header (create_result env b r w).1.2) "BITS-Session-Id"
                    = Some id).
  { revert Hst. unfold create_result. destruct (negb _); [discriminate|].
    rewrite Hid. destruct (fs w !! session_dir b id) as [[|c]|] eqn:E.
    - intros _. cbn. rewrite E. auto.
    - discriminate.
    - destruct (mkdir_fails env); [discriminate|]. intros _. cbn.
      rewrite lookup_insert_eq. auto. }
  destruct Hdir as [Hdir Hhdr].
  split; [exact Hhdr|]. split; [exact Hvalid|]. split; [cbn; rewrite Hdir; reflexivity|].
  rewrite bitsClose_run, bitsCancel_run. unfold session_end_result.
  rewrite Hvalid, (isValidUUID_nonempty _ Hvalid), Hstat, Hdir. split; reflexivity.
Qed.

(** The hypotheses of X17 at the sample server: a session is created, then
    closed. *)
Lemma created_session_is_usable_witness :
  response (bitsClose Sample.env Sample.handler
              (Sample.session_request "Close-Session" Sample.sid) Sample.sid)
    (world_after (bitsCreate Sample.env Sample.handler Sample.create_space) Sample.empty_world)
  = session_ack Sample.sid.
Proof.
  refine (proj1 (proj2 (proj2 (proj2
            (created_session_is_usable Sample.env Sample.env Sample.handler
               Sample.create_space (Sample.session_request "Close-Session" Sample.sid)
               Sample.empty_world Sample.sid _ _ _ _))))).
  - vm_compute. reflexivity.
  - reflexivity.
  - vm_compute. reflexivity.
  - reflexivity.
Defined.

(** ** What the acknowledgement and the write depend on *)

(** X18. A success acknowledgement of a fragment carries [rangeEnd + 1],
    however many bytes of the body were already on disk. *)
Theorem ack_is_range_end_plus_one
    (env : Env) (b : Handler) (r : Request) (uuid : string) (w : World) (rs re fl : Z) :
  parseRange (Header_Get (Header r) "Content-Range") = Some (rs, re, fl) ->
  rw_status (response (bitsFragment env b r uuid) w) = Some StatusOK ->
  response (bitsFragment env b r uuid) w = ack_reply uuid (re + 1)
  /\ ack_value (response (bitsFragment env b r uuid) w) = Some (re + 1).
Proof.
  intros Hrange. rewrite run_response, bitsFragment_run.
  destruct (fragment_result_cases env b r uuid w)
    as [(id & s & closes & -> & Hin & _)|(c & Hc & _ & _ & _ & _ & Hcases)].
  { cbn. intros [= ->]. cbn in Hin. status_arith. intuition lia. }
  destruct (fragment_checks_inr _ _ _ _ _ _ Hc) as ((H0 & H1 & H2 & H3 & H4 & H5) & _ & Hr & _).
  rewrite Hrange in Hr. injection Hr as Hrs Hre Hfl.
  cbv zeta in Hcases.
  destruct Hcases as [(_ & ->)|[(_ & _ & ->)|(Hin & _ & ->)]]; cbn [fst snd rw_status error_reply];
    try discriminate.
  intros _.
  assert (Hv : size_at (fs w) (c_src c)
               + Z.of_nat (length (drop (Z.to_nat (size_at (fs w) (c_src c) - c_rangeStart c))
                                     (c_data c)))
               = re + 1).
  { rewrite length_drop. lia. }
  rewrite Hv. split; [reflexivity|]. apply ack_value_ack. unfold u64_mod in *. lia.
Qed.

(** The hypotheses of X18 at a fragment that overlaps the bytes on disk. *)
Lemma ack_is_range_end_plus_one_witness :
  ack_value (response (bitsFragment Sample.env Sample.handler Sample.fragment_overlap
                         Sample.sid) Sample.world1)
  = Some 10.
Proof.
  refine (proj2 (ack_is_range_end_plus_one Sample.env Sample.handler Sample.fragment_overlap
                   Sample.sid Sample.world1 3 9 10 _ _)).
  - vm_compute. reflexivity.
  - vm_compute. reflexivity.
Defined.

Lemma fragment_verdict_data env m c1 c2 :
  c_src c1 = c_src c2 ->
  (forall created,
      store_verdict env c1 (size_at m (c_src c1)) created
      = store_verdict env c2 (size_at m (c_src c1)) created) ->
  fragment_verdict env m c1 = fragment_verdict env m c2.
Proof.
  intros Hsrc Hstore. unfold fragment_verdict. rewrite <- Hsrc.
  destruct (stat_fails env (c_src c1)); [reflexivity|].
  destruct (m !! c_src c1) as [[|old]|] eqn:E; [reflexivity| |].
  - destruct (open_fails env); [reflexivity|]. destruct (fstat_fails env); [reflexivity|].
    specialize (Hstore false). unfold size_at in Hstore.
    rewrite (content_at_File _ _ _ E) in Hstore. exact Hstore.
  - destruct (open_fails env); [reflexivity|].
    specialize (Hstore true). rewrite (size_at_None _ _ E) in Hstore. exact Hstore.
Qed.

(** X19. The bytes of a body that overlap the bytes on disk are cut off and
    never compared with them: two fragment requests that differ only in
    that part of their bodies have the same outcome, the same reply and the
    same effect on the world. *)
Theorem overlapping_bytes_are_ignored
    (env : Env) (b : Handler) (r1 r2 : Request) (uuid : string) (w : World)
    (rs re fl : Z) (d1 d2 : bytes) :
  let src := upload_path env (session_dir b uuid) (request_filename r1) in
  RequestURI r2 = RequestURI r1 -> Header r2 = Header r1 ->
  Body r1 = Some d1 -> Body r2 = Some d2 ->
  parseRange (Header_Get (Header r1) "Content-Range") = Some (rs, re, fl) ->
  length d1 = length d2 ->
  drop (Z.to_nat (size_at (fs w) src - rs)) d1 = drop (Z.to_nat (size_at (fs w) src - rs)) d2 ->
  run (bitsFragment env b r2 uuid) w = run (bitsFragment env b r1 uuid) w.
Proof.
  intros src Huri Hhdr Hb1 Hb2 Hrange Hlen Hdrop.
  rewrite !bitsFragment_run. unfold fragment_result, fragment_checks.
  assert (Hname : request_filename r2 = request_filename r1).
  { unfold request_filename. rewrite Huri. reflexivity. }
  rewrite Hname, Hhdr, Hb1, Hb2, Hrange, Hlen.
  destruct (String.eqb uuid EmptyString || negb (isValidUUID uuid)); [reflexivity|].
  destruct (fs w !! session_dir b uuid) as [[|?]|]; try reflexivity.
  destruct (String.eqb (request_filename r1) EmptyString); [reflexivity|].
  destruct (negb (deny_pass env (request_filename r1) (Disallowed (cfg b)))); [reflexivity|].
  destruct (allow_result env (request_filename r1) (Allowed (cfg b))) as [[|]|]; try reflexivity.
  destruct ((0 <? MaxSize (cfg b)) && (MaxSize (cfg b) <? fl)); [reflexivity|].
  destruct (Strconv.ParseUint (Header_Get (Header r1) "Content-Length")) as [n|]; [|reflexivity].
  destruct (negb (Z.of_nat (length d2) =? n)); [reflexivity|].
  destruct (negb (u64 (re - rs + 1) =? n)); [reflexivity|].
  fold src.
  set (c1 := {| c_src := src; c_rangeStart := rs; c_rangeEnd := re; c_fileLength := fl;
                c_fragmentSize := n; c_data := d1 |}).
  set (c2 := {| c_src := src; c_rangeStart := rs; c_rangeEnd := re; c_fileLength := fl;
                c_fragmentSize := n; c_data := d2 |}).
  assert (Hv : fragment_verdict env (fs w) c2 = fragment_verdict env (fs w) c1).
  { apply fragment_verdict_data; [reflexivity|]. intros created.
    unfold store_verdict. cbn [c_src c_rangeStart c_rangeEnd c_fileLength c_data c1 c2].
    rewrite Hdrop. reflexivity. }
  rewrite Hv. destruct (fragment_verdict env (fs w) c1); reflexivity.
Qed.

(** The hypotheses of X19 at two fragments for bytes 3 to 9 of a file that
    holds five bytes: their bodies differ in the first two bytes. *)
Lemma overlapping_bytes_are_ignored_witness :
  run (bitsFragment Sample.env Sample.handler (Sample.fragment "bytes 3-9/10" "7" "XXWorld")
         Sample.sid) Sample.world1
  = run (bitsFragment Sample.env Sample.handler Sample.fragment_overlap Sample.sid)
      Sample.world1.
Proof.
  refine (overlapping_bytes_are_ignored Sample.env Sample.handler Sample.fragment_overlap
            (Sample.fragment "bytes 3-9/10" "7" "XXWorld") Sample.sid Sample.world1 3 9 10
            (list_byte_of_string "loWorld") (list_byte_of_string "XXWorld")
            eq_refl eq_refl eq_refl eq_refl _ eq_refl _).
  - vm_compute. reflexivity.
  - vm_compute. reflexivity.
Defined.

(** ** Create-Session on an existing directory *)

(** X20. Create-Session does not check that the minted id is new: when the
    directory of the id is already there, the request is acknowledged like
    any other and the file system is left as it is. *)
Theorem create_session_reuses_directory (env : Env) (b : Handler) (r : Request) (w : World)
    (id : string) :
  In (Protocol (cfg b)) (offered_protocols r) ->
  newUUID env = Some id ->
  fs w !! session_dir b id = Some Dir ->
  response (bitsCreate env b r) w = create_ack (Protocol (cfg b)) id
  /\ fs (world_after (bitsCreate env b r) w) = fs w
  /\ new_actions (bitsCreate env b r) w
     = (if callback b then [ACallback EventCreateSession id (session_dir b id)] else [])
       ++ [ASend StatusOK].
Proof.
  intros Hin Hid Hdir.
  assert (Hrun : run (bitsCreate env b r) w
                 = (Next tt, create_ack (Protocol (cfg b)) id,
                    {| fs := fs w;
                       trace := trace w
                                ++ (if callback b
                                    then [ACallback EventCreateSession id (session_dir b id)]
                                    else [])
                                ++ [ASend StatusOK] |})).
  { rewrite bitsCreate_run. unfold create_result.
    apply (select_protocol_spec b (offered_protocols r) EmptyString (Split_nonempty _ _)) in Hin.
    rewrite Hin, String.eqb_refl, Hid, Hdir. reflexivity. }
  rewrite run_response, run_world_after, Hrun. repeat split.
  apply new_actions_run. rewrite Hrun. reflexivity.
Qed.

(** The hypotheses of X20 at the sample server, whose random source mints
    the id of the session that is already open. *)
Lemma create_session_reuses_directory_witness :
  fs (world_after (bitsCreate Sample.env Sample.handler Sample.create_space) Sample.world1)
  = fs Sample.world1.
Proof.
  refine (proj1 (proj2 (create_session_reuses_directory Sample.env Sample.handler
                          Sample.create_space Sample.world1 Sample.sid _ eq_refl _))).
  - vm_compute. right. left. reflexivity.
  - vm_compute. reflexivity.
Defined.

(** ** Packet types outside ASCII *)

Lemma ToLower_ascii_head (c : ascii) (s : string) :
  GoStrings.is_ascii c = true ->
  GoStrings.ToLower (String c s) = String (GoStrings.lower_char c) (GoStrings.ToLower s).
Proof.
  unfold GoStrings.is_ascii. intros Hc. apply Nat.ltb_lt in Hc.
  assert (H196 : GoStrings.is_byte 196 c = false)
    by (unfold GoStrings.is_byte; apply Nat.eqb_neq; lia).
  assert (H226 : GoStrings.is_byte 226 c = false)
    by (unfold GoStrings.is_byte; apply Nat.eqb_neq; lia).
  destruct s as [|c1 [|c2 s2]]; cbn [GoStrings.ToLower]; rewrite ?H196, ?H226; reflexivity.
Qed.

(** On a string of ASCII bytes [strings.ToLower] lowers byte by byte. *)
Lemma ToLower_all_ascii (s : string) :
  GoStrings.all_ascii s = true -> GoStrings.ToLower s = GoStrings.lower_bytes s.
Proof.
  induction s as [|c s IH]; [reflexivity|].
  cbn [GoStrings.all_ascii]. intros H. apply andb_true_iff in H as [Hc Hs].
  rewrite (ToLower_ascii_head c s Hc). cbn [GoStrings.lower_bytes]. now rewrite IH.
Qed.

(** A lowered string of ASCII bytes comes from ASCII bytes and the two runes
    U+0130 and U+212A only: any other byte outside ASCII stays in the result. *)
Lemma ToLower_keeps_other_bytes (c : ascii) (s : string) :
  GoStrings.is_ascii c = false ->
  GoStrings.all_ascii (GoStrings.ToLower (String c s)) = true ->
  (exists s', s = String (ascii_of_nat 176) s' /\ c = ascii_of_nat 196)
  \/ (exists s', s = String (ascii_of_nat 132) (String (ascii_of_nat 170) s')
                 /\ c = ascii_of_nat 226).
Proof.
  intros Hc H.
  assert (Hl : GoStrings.is_ascii (GoStrings.lower_char c) = false).
  { unfold GoStrings.lower_char, GoStrings.is_upper.
    unfold GoStrings.is_ascii in Hc. apply Nat.ltb_ge in Hc.
    destruct (_ && _) eqn:E; [|unfold GoStrings.is_ascii; now apply Nat.ltb_ge].
    apply andb_true_iff in E as [_ E]. apply Nat.leb_le in E. lia. }
  assert (Hb : forall n a, GoStrings.is_byte n a = true -> (n < 256)%nat -> a = ascii_of_nat n).
  { intros n a Hn _. unfold GoStrings.is_byte in Hn. apply Nat.eqb_eq in Hn.
    rewrite <- Hn. now rewrite ascii_nat_embedding. }
  destruct s as [|c1 s1]; cbn [GoStrings.ToLower] in H.
  { cbn [GoStrings.all_ascii] in H. rewrite Hl in H. discriminate. }
  destruct (GoStrings.is_byte 196 c && GoStrings.is_byte 176 c1) eqn:E1.
  { apply andb_true_iff in E1 as [E1 E2]. left. exists s1.
    rewrite (Hb _ _ E1), (Hb _ _ E2) by lia. split; reflexivity. }
  destruct s1 as [|c2 s2].
  { cbn [GoStrings.all_ascii] in H. rewrite Hl in H. discriminate. }
  destruct (GoStrings.is_byte 226 c && GoStrings.is_byte 132 c1 && GoStrings.is_byte 170 c2) eqn:E2.
  { apply andb_true_iff in E2 as [E2 E4]. apply andb_true_iff in E2 as [E2 E3]. right. exists s2.
    rewrite (Hb _ _ E2), (Hb _ _ E3), (Hb _ _ E4) by lia. split; reflexivity. }
  cbn [GoStrings.all_ascii] in H. rewrite Hl in H. discriminate.
Qed.

(** The packet type PING spelt with U+0130 in the place of the I is lowered
    to "ping" by [strings.ToLower], and the request is a Ping. *)
Lemma dotted_ping_is_a_ping :
  packet_type Sample2.ping_dotted = "ping"
  /\ response (ServeHTTP Sample.env Sample.handler Sample2.ping_dotted) Sample.empty_world
     = ping_ack.
Proof. split; vm_compute; reflexivity. Qed.
